(** * kinisi: bootstrap resampling, covariance repair and the diffusion
      relationship

    A shallow embedding of [kinisi/diffusion.py] and [kinisi/matrix.py], with
    the helper [_flatten_list] of [kinisi/analyze.py], and the properties of
    their functions.

    - Python exceptions are values of [exn]; a computation returns an
      [outcome].  The resamplers run in a monad that threads the random
      state, the warnings issued and the calls made to [resample], and that
      keeps them when an exception is raised.
    - The count of independent samples is computed by the source with Python
      [int] and [float] arithmetic; it is embedded on IEEE binary64
      ([SpecFloat], precision 53, maximal exponent 1024) so that the
      truncation by [int(...)] is the one the interpreter performs.
    - The numerical collaborators that live outside the repository
      ([numpy], [sklearn.utils.resample], the [scipy] normality tests,
      [statsmodels], [pint]) are parameters: the fields of a class for the
      resamplers and for the repair, with instances in exact rational
      arithmetic to run them.
    - The classes [Distribution] and [StraightLine] belong to the repository
      but are not among the sources; what the functions use of them is
      modelled from the specification.
    - The [while] loops are given twice: as a relation between the state at
      the head of the loop and the state after it, and as a function of a
      number of rounds, related by the lemmas that show they end. *)

From Stdlib Require Import ZArith QArith Qminmax Qabs Qround List String Bool Lia Lqa.
From Stdlib Require Import Sorting.Sorted.
From Stdlib Require Import Floats.SpecFloat.
From Stdlib Require Import DecimalString.
Import ListNotations.

Set Implicit Arguments.
Local Open Scope Z_scope.

(** ** Python outcomes *)

Inductive exn : Type :=
| IndexError
| ZeroDivisionError
| OverflowError
| ValueError
| TypeError
| LinAlgError
| DimensionalityError.

Inductive outcome (A : Type) : Type :=
| Return (a : A)
| Raise (e : exn).

Arguments Return {A} a.
Arguments Raise {A} e.

Definition obind {A B : Type} (x : outcome A) (f : A -> outcome B) : outcome B :=
  match x with
  | Return a => f a
  | Raise e => Raise e
  end.

Definition returns {A : Type} (x : outcome A) : Prop :=
  exists a, x = Return a.

(** [l[i]] for a Python list and an index produced by [range(len(l))]. *)
Definition getitem {A : Type} (l : list A) (i : nat) : outcome A :=
  match nth_error l i with
  | Some a => Return a
  | None => Raise IndexError
  end.

(** ** Python numbers: [int] is [Z], [float] is binary64 *)

Module PyFloat.

Definition prec : Z := 53.
Definition emax : Z := 1024.

Definition float : Type := spec_float.

(** An integer as an unrounded binary number [m * 2^0]. *)
Definition raw (z : Z) : float :=
  match z with
  | Z0 => S754_zero false
  | Zpos p => S754_finite false p 0
  | Zneg p => S754_finite true p 0
  end.

Definition finite_or_overflow (f : float) : outcome float :=
  match f with
  | S754_infinity _ => Raise OverflowError
  | _ => Return f
  end.

(** [float(z)]: rounded to nearest even, [OverflowError] past the range. *)
Definition of_int (z : Z) : outcome float :=
  finite_or_overflow (binary_normalize prec emax z 0 false).

Definition is_zero (f : float) : bool :=
  match f with
  | S754_zero _ => true
  | _ => false
  end.

(** [a / b] on two [int]s: the correctly rounded quotient. *)
Definition int_truediv (a b : Z) : outcome float :=
  if b =? 0 then Raise ZeroDivisionError
  else finite_or_overflow (SFdiv prec emax (raw a) (raw b)).

(** [x * n] with [x] a [float] and [n] an [int]. *)
Definition mul_int (x : float) (n : Z) : outcome float :=
  obind (of_int n) (fun y => Return (SFmul prec emax x y)).

(** [x / n] with [x] a [float] and [n] an [int]. *)
Definition div_int (x : float) (n : Z) : outcome float :=
  obind (of_int n) (fun y =>
    if is_zero y then Raise ZeroDivisionError
    else Return (SFdiv prec emax x y)).

(** [x * y], [x / y], [x + y] and [- x] on two [float]s of an array, which
    raise nothing: the values of IEEE 754. *)
Definition mul (x y : float) : float := SFmul prec emax x y.
Definition div (x y : float) : float := SFdiv prec emax x y.
Definition add (x y : float) : float := SFadd prec emax x y.
Definition neg (x : float) : float := SFopp x.

(** A small [int] as a [float]: the conversion is exact. *)
Definition exact (z : Z) : float := binary_normalize prec emax z 0 false.

(** [n * x] with [n] an [int] and [x] a [float]. *)
Definition int_mul (n : Z) (x : float) : outcome float :=
  obind (of_int n) (fun y => Return (SFmul prec emax y x)).

(** [int(x)]: truncation toward zero. *)
Definition to_int (x : float) : outcome Z :=
  match x with
  | S754_zero _ => Return 0
  | S754_infinity _ => Raise OverflowError
  | S754_nan => Raise ValueError
  | S754_finite s m e =>
      let a := match e with
               | Z0 => Zpos m
               | Zpos p => Zpos m * 2 ^ Zpos p
               | Zneg p => Zpos m / 2 ^ Zpos p
               end in
      Return (if s then - a else a)
  end.

End PyFloat.

(** ** The independent-sample count

    [int(max_obs / dt_int * n_atoms / samples_freq) * bootstrap_multiplier]
    in [msd_bootstrap] and
    [int(max_obs / dt_int / samples_freq) * bootstrap_multiplier]
    in [mscd_bootstrap], with [dt_int = max_obs - n_obs + 1]. *)

Definition dt_int (max_obs n_obs : Z) : Z := max_obs - n_obs + 1.

Definition n_samples_msd
    (max_obs n_obs n_atoms samples_freq bootstrap_multiplier : Z) : outcome Z :=
  obind (PyFloat.int_truediv max_obs (dt_int max_obs n_obs)) (fun q =>
  obind (PyFloat.mul_int q n_atoms) (fun qa =>
  obind (PyFloat.div_int qa samples_freq) (fun x =>
  obind (PyFloat.to_int x) (fun k =>
  Return (k * bootstrap_multiplier))))).

Definition n_samples_mscd
    (max_obs n_obs samples_freq bootstrap_multiplier : Z) : outcome Z :=
  obind (PyFloat.int_truediv max_obs (dt_int max_obs n_obs)) (fun q =>
  obind (PyFloat.div_int q samples_freq) (fun x =>
  obind (PyFloat.to_int x) (fun k =>
  Return (k * bootstrap_multiplier)))).

(** The count of independent samples in the words of the specification:
    [int(max_observations / (max_observations - n_observations + 1)
         * effective_particle_factor / sampling_frequency)
     * bootstrap_multiplier], the factor being left out when there is
    none. *)
Definition independent_sample_count (max_observations n_observations : Z)
    (effective_particle_factor : option Z)
    (sampling_frequency multiplier : Z) : outcome Z :=
  obind (PyFloat.int_truediv max_observations
           (max_observations - n_observations + 1)) (fun per_window =>
  obind (match effective_particle_factor with
         | Some particles => PyFloat.mul_int per_window particles
         | None => Return per_window
         end) (fun scaled =>
  obind (PyFloat.div_int scaled sampling_frequency) (fun estimate =>
  obind (PyFloat.to_int estimate) (fun whole =>
  Return (whole * multiplier))))).

(** The text of the warning of both resamplers. *)
Definition max_resamples_warning : string :=
  "The maximum number of resamples has been reached, and the distribution is not yet normal. The distribution will be treated as normal.".

(** ["delta_t_{}".format(i)] *)
Definition delta_t_name (i : nat) : string :=
  ("delta_t_" ++ NilEmpty.string_of_uint (Nat.to_uint i))%string.

(** ** The bootstrap resampler of [diffusion.py] *)

(** What the resampler calls outside the repository: [numpy.float64]
    scalars with the [numpy] operations the source applies to them,
    [sklearn.utils.resample(data, n_samples=n)], which draws from the global
    random state and advances it, and the verdicts (p-value above 0.05) of the
    two normality tests. *)
Class Collaborators : Type := {
  V : Type;
  np_sum : list V -> V;
  np_mean : list V -> V;
  np_median : list V -> V;
  np_percentile : list V -> Q -> V;
  square : V -> V;
  sub : V -> V -> V;
  div_len : V -> nat -> V;
  RNG : Type;
  sk_resample : RNG -> list V -> Z -> list V * RNG;
  shapiro_normal : list V -> bool;
  normaltest_normal : list V -> bool
}.

Section Resampler.

Context {C : Collaborators}.

(** *** Arrays with axes [atom, observation, dimension] *)

Record ndarray3 : Type := {
  n_atoms_of : nat;
  n_obs_of : nat;
  n_dim_of : nat;
  item : nat -> nat -> nat -> V
}.

(** [np.sum(a ** 2, axis=2).flatten()] *)
Definition d_squared_flat (a : ndarray3) : list V :=
  flat_map (fun atom =>
    map (fun obs =>
      np_sum (map (fun d => square (item a atom obs d)) (seq 0 (n_dim_of a))))
      (seq 0 (n_obs_of a)))
    (seq 0 (n_atoms_of a)).

(** One entry of an index array on an axis of length [n]: negative
    indices count from the end. *)
Definition axis_index (n : nat) (k : Z) : outcome nat :=
  if (0 <=? k) && (k <? Z.of_nat n) then Return (Z.to_nat k)
  else if (- Z.of_nat n <=? k) && (k <? 0) then Return (Z.to_nat (k + Z.of_nat n))
  else Raise IndexError.

Fixpoint axis_indices (n : nat) (ks : list Z) : outcome (list nat) :=
  match ks with
  | [] => Return []
  | k :: ks' =>
      obind (axis_index n k) (fun a =>
      obind (axis_indices n ks') (fun rest => Return (a :: rest)))
  end.

(** [np.sum(np.sum(a[indices, :, :], axis=0) ** 2, axis=1).flatten()].
    With [indices] a list the selected atoms are summed, giving one value
    per observation.  With [indices=None] the subscript inserts a new
    leading axis of length one: the sum over axis 0 adds nothing up and the
    sum over axis 1 runs over the observations, giving one value per
    (atom, dimension). *)
Definition sq_chg_disp_flat (a : ndarray3) (indices : option (list Z))
    : outcome (list V) :=
  match indices with
  | Some ks =>
      obind (axis_indices (n_atoms_of a) ks) (fun atoms =>
      Return (map (fun obs =>
        np_sum (map (fun d =>
          square (np_sum (map (fun atom => item a atom obs d) atoms)))
          (seq 0 (n_dim_of a))))
        (seq 0 (n_obs_of a))))
  | None =>
      Return (flat_map (fun atom =>
        map (fun d =>
          np_sum (map (fun obs => square (np_sum [item a atom obs d]))
                      (seq 0 (n_obs_of a))))
          (seq 0 (n_dim_of a)))
        (seq 0 (n_atoms_of a)))
  end.

(** [len(indices)] *)
Definition len_indices (indices : option (list Z)) : outcome nat :=
  match indices with
  | Some ks => Return (List.length ks)
  | None => Raise TypeError
  end.

(** *** The distribution of resampled means

    Modelled from the spec: the class [Distribution] of
    [kinisi/distribution.py], which is not among the sources.  Samples are
    appended, [normal] is recomputed by every [add_samples], [size] is the
    number of samples, [n] is the median ([None] when there is no sample),
    and the constructor refuses percentile points that are not two
    ascending values of [0, 100]. *)

Record Distribution : Type := {
  samples : list V;
  name : string;
  ci_points : Q * Q;
  normal : bool
}.

Definition size (d : Distribution) : Z := Z.of_nat (List.length (samples d)).

Definition check_normality (s : list V) : bool :=
  if (List.length s <? 3)%nat then false
  else if (List.length s <=? 5000)%nat then shapiro_normal s
  else normaltest_normal s.

Definition add_samples (d : Distribution) (values : list V) : Distribution :=
  {| samples := samples d ++ values;
     name := name d;
     ci_points := ci_points d;
     normal := check_normality (samples d ++ values) |}.

Definition valid_ci_points (a b : Q) : bool :=
  Qle_bool 0 a && (Qle_bool a b && negb (Qeq_bool a b)) && Qle_bool b 100.

(** The percentile points the constructor accepts. *)
Definition checked_ci_points (ci : list Q) : option (Q * Q) :=
  match ci with
  | [a; b] => if valid_ci_points a b then Some (a, b) else None
  | _ => None
  end.

Definition new_Distribution (s : list V) (nm : string) (ci : list Q)
    : outcome Distribution :=
  match checked_ci_points ci with
  | Some p =>
      Return (add_samples
                {| samples := []; name := nm; ci_points := p; normal := false |} s)
  | None => Raise ValueError
  end.

(** [distro.n] *)
Definition median_of (d : Distribution) : option V :=
  match samples d with
  | [] => None
  | _ => Some (np_median (samples d))
  end.

(** [np.percentile(distro.samples, distro.ci_points[1]) - distro.n];
    with no sample [distro.n] is [None] and the subtraction raises. *)
Definition upper_error (d : Distribution) : outcome V :=
  match median_of d with
  | Some m => Return (sub (np_percentile (samples d) (snd (ci_points d))) m)
  | None => Raise TypeError
  end.

(** *** The world the resampler runs in: the random state, the warnings
    issued so far and the calls made to [resample], oldest first. *)

Record world : Type := {
  rng : RNG;
  warnings : list string;
  resample_calls : list (list V * Z)
}.

Definition M (A : Type) : Type := world -> outcome A * world.

Definition ret {A : Type} (a : A) : M A := fun w => (Return a, w).

Definition bind {A B : Type} (m : M A) (f : A -> M B) : M B :=
  fun w =>
    match m w with
    | (Return a, w') => f a w'
    | (Raise e, w') => (Raise e, w')
    end.

Definition lift {A : Type} (x : outcome A) : M A := fun w => (x, w).

Definition warn (msg : string) : M unit :=
  fun w => (Return tt,
            {| rng := rng w;
               warnings := warnings w ++ [msg];
               resample_calls := resample_calls w |}).

(** [np.mean(resample(data, n_samples=n))] *)
Definition resample_mean (data : list V) (n : Z) : M V :=
  fun w =>
    let (s, g) := sk_resample (rng w) data n in
    (Return (np_mean s),
     {| rng := g;
        warnings := warnings w;
        resample_calls := resample_calls w ++ [(data, n)] |}).

Local Notation "x <- m ;; k" := (bind m (fun x => k))
  (at level 61, m at next level, right associativity).

(** [[np.mean(resample(data, n_samples=n)) for j in range(k)]] *)
Fixpoint resample_means_nat (k : nat) (data : list V) (n : Z) : M (list V) :=
  match k with
  | O => ret []
  | S k' =>
      x <- resample_mean data n ;;
      xs <- resample_means_nat k' data n ;;
      ret (x :: xs)
  end.

Definition resample_means (k : Z) (data : list V) (n : Z) : M (list V) :=
  resample_means_nat (Z.to_nat k) data n.

(** *** The loop that grows the distribution

    [while (not distro.normal) and distro.size < (max_resamples - n_resamples):
         distro.add_samples([... for j in range(100)])] *)

Definition keep_resampling (cap : Z) (d : Distribution) : bool :=
  negb (normal d) && (size d <? cap).

(** The loop as a relation between the state at its head and the state
    after it. *)
Inductive while_resampling (data : list V) (n cap : Z)
    : Distribution -> world -> Distribution -> world -> Prop :=
| while_done d w :
    keep_resampling cap d = false ->
    while_resampling data n cap d w d w
| while_more d w batch w1 d' w' :
    keep_resampling cap d = true ->
    resample_means 100 data n w = (Return batch, w1) ->
    while_resampling data n cap (add_samples d batch) w1 d' w' ->
    while_resampling data n cap d w d' w'.

(** The loop as a function of a number of rounds it may take. *)
Fixpoint grow_rounds (rounds : nat) (data : list V) (n cap : Z)
    (d : Distribution) : M Distribution :=
  if keep_resampling cap d then
    match rounds with
    | O => ret d
    | S r =>
        batch <- resample_means 100 data n ;;
        grow_rounds r data n cap (add_samples d batch)
    end
  else ret d.

(** No run takes more rounds than the distance to the cap. *)
Definition grow (data : list V) (n cap : Z) (d : Distribution) : M Distribution :=
  grow_rounds (Z.to_nat (cap - size d)) data n cap d.

(** *** [msd_bootstrap] and [mscd_bootstrap] *)

Definition arrays : Type := (list V * list V * list V)%type.

Definition default_confidence_interval : list Q := [5 # 2; 195 # 2]%Q.

Section Arguments.

Variable delta_t : list V.
Variable displacements : list ndarray3.
Variable indices : option (list Z).
Variable n_resamples : Z.
Variable samples_freq : Z.
Variable confidence_interval : option (list Q).
Variable max_resamples : Z.
Variable bootstrap_multiplier : Z.
Variable progress : bool.

Definition the_confidence_interval : list Q :=
  match confidence_interval with
  | None => default_confidence_interval
  | Some ci => ci
  end.

(** [tqdm(range(len(displacements)))] yields what the range yields. *)
Definition iterator : list nat :=
  if progress then seq 0 (List.length displacements)
  else seq 0 (List.length displacements).

(** Lines 86-106 and 183-203: the distribution of interval [i] and the
    warning. *)
Definition resampled_distribution (i : nat) (data : list V) (n : Z)
    : M Distribution :=
  resampled <- resample_means n_resamples data n ;;
  distro <- lift (new_Distribution resampled (delta_t_name i)
                    the_confidence_interval) ;;
  distro <- grow data n (max_resamples - n_resamples) distro ;;
  _ <- (if max_resamples - n_resamples <=? size distro
        then warn max_resamples_warning else ret tt) ;;
  ret distro.

(** The body of the loop of [msd_bootstrap]. *)
Definition msd_interval (max_obs : Z) (out : arrays) (i : nat) : M arrays :=
  disp <- lift (getitem displacements i) ;;
  let d_squared := d_squared_flat disp in
  let n_obs := Z.of_nat (n_obs_of disp) in
  let n_atoms := Z.of_nat (n_atoms_of disp) in
  n <- lift (n_samples_msd max_obs n_obs n_atoms samples_freq
               bootstrap_multiplier) ;;
  if n <=? 1 then ret out
  else
    distro <- resampled_distribution i d_squared n ;;
    let '(output_delta_t, mean_msd, err_msd) := out in
    dt <- lift (getitem delta_t i) ;;
    let mean := median_of distro in
    err <- lift (upper_error distro) ;;
    match mean with
    | Some m => ret (output_delta_t ++ [dt], mean_msd ++ [m], err_msd ++ [err])
    | None => lift (Raise TypeError)
    end.

(** The body of the loop of [mscd_bootstrap]. *)
Definition mscd_interval (max_obs : Z) (out : arrays) (i : nat) : M arrays :=
  disp <- lift (getitem displacements i) ;;
  sq_chg_disp <- lift (sq_chg_disp_flat disp indices) ;;
  let n_obs := Z.of_nat (n_obs_of disp) in
  n <- lift (n_samples_mscd max_obs n_obs samples_freq bootstrap_multiplier) ;;
  if n <=? 1 then ret out
  else
    distro <- resampled_distribution i sq_chg_disp n ;;
    let '(output_delta_t, mean_mscd, err_mscd) := out in
    dt <- lift (getitem delta_t i) ;;
    match median_of distro with
    | None => lift (Raise TypeError)
    | Some m =>
        k <- lift (len_indices indices) ;;
        err <- lift (upper_error distro) ;;
        k' <- lift (len_indices indices) ;;
        ret (output_delta_t ++ [dt], mean_mscd ++ [div_len m k],
             err_mscd ++ [div_len err k'])
    end.

(** [for i in iterator: body] *)
Fixpoint for_each (body : arrays -> nat -> M arrays) (ixs : list nat)
    (out : arrays) : M arrays :=
  match ixs with
  | [] => ret out
  | i :: ixs' => out' <- body out i ;; for_each body ixs' out'
  end.

Definition msd_bootstrap : M arrays :=
  first <- lift (getitem displacements 0) ;;
  let max_obs := Z.of_nat (n_obs_of first) in
  for_each (msd_interval max_obs) iterator ([], [], []).

Definition mscd_bootstrap : M arrays :=
  first <- lift (getitem displacements 0) ;;
  let max_obs := Z.of_nat (n_obs_of first) in
  for_each (mscd_interval max_obs) iterator ([], [], []).

End Arguments.

End Resampler.

(** ** Positive-definite repair of [matrix.py] *)

(** [np.linalg.cholesky]: it returns the factor or raises. *)
Class Factorization : Type := {
  matrix : Type;
  factor : Type;
  np_linalg_cholesky : matrix -> outcome factor
}.

(** The other routines [find_nearest_positive_definite] calls:
    [correlation_tools.cov_nearest(m, method='clipped')],
    [np.spacing(np.linalg.norm(m))], [np.min(np.real(np.linalg.eigvals(m)))]
    and [m + np.eye(m.shape[0]) * c].  Scalars are exact rationals. *)
Class Repair (F : Factorization) : Type := {
  cov_nearest_clipped : matrix -> matrix;
  spacing_of_norm : matrix -> Q;
  min_eigenvalue : matrix -> Q;
  add_scaled_eye : matrix -> Q -> matrix
}.

Definition not_positive_definite_warning : string :=
  "The estimated covariance matrix was not positive definite, the nearest positive definite matrix has been found and will be used.".

Section PositiveDefinite.

Context {F : Factorization}.

(** [try: cholesky(matrix); return True
     except LinAlgError: return False] *)
Definition check_positive_definite (m : matrix) : outcome bool :=
  match np_linalg_cholesky m with
  | Return _ => Return true
  | Raise LinAlgError => Return false
  | Raise e => Raise e
  end.

Context {R : Repair F}.

(** [A3 += eye * (-mineig * k**2 + spacing)] *)
Definition shifted (spacing : Q) (A3 : matrix) (k : Z) : matrix :=
  add_scaled_eye A3 (- min_eigenvalue A3 * inject_Z (k ^ 2) + spacing)%Q.


(** The same loop run for at most [rounds] rounds; [None] when they do not
    suffice. *)
Fixpoint repair_rounds (rounds : nat) (spacing : Q) (A3 : matrix) (k : Z)
    : option (outcome matrix) :=
  match check_positive_definite A3 with
  | Raise e => Some (Raise e)
  | Return true => Some (Return A3)
  | Return false =>
      match rounds with
      | O => None
      | S r => repair_rounds r spacing (shifted spacing A3 k) (k + 1)
      end
  end.

(** The result and the warnings issued. *)
Definition find_nearest_positive_definite (rounds : nat) (m : matrix)
    : option (outcome matrix * list string) :=
  match check_positive_definite m with
  | Raise e => Some (Raise e, [])
  | Return true => Some (Return m, [])
  | Return false =>
      let warned := [not_positive_definite_warning] in
      let A3 := cov_nearest_clipped m in
      match check_positive_definite A3 with
      | Raise e => Some (Raise e, warned)
      | Return true => Some (Return A3, warned)
      | Return false =>
          let spacing := spacing_of_norm m in
          match repair_rounds rounds spacing A3 1 with
          | Some r => Some (r, warned)
          | None => None
          end
      end
  end.

End PositiveDefinite.

(** *** [np.linalg.cholesky] in exact arithmetic

    The factorization reads the diagonal and the lower triangle of its
    argument only, does not look at the entries above the diagonal, and fails
    when a pivot is not positive (or when the array is not square).  The
    entries of the factor are square roots and are not computed here: the
    source discards them. *)

Module ExactCholesky.

Local Open Scope Q_scope.

Record ndarray2 : Type := {
  n_rows : nat;
  n_cols : nat;
  entry : nat -> nat -> Q
}.

Definition of_rows (rows : list (list Q)) : ndarray2 :=
  {| n_rows := List.length rows;
     n_cols := List.length (hd [] rows);
     entry := fun i j => nth j (nth i rows []) 0 |}.

Definition Qlt_bool (x y : Q) : bool := negb (Qle_bool y x).

(** The symmetric matrix that has the lower triangle of [a]. *)
Definition lower (a : nat -> nat -> Q) : nat -> nat -> Q :=
  fun i j => if (j <=? i)%nat then a i j else a j i.

(** What is left to factor after the first column is eliminated. *)
Definition schur (a : nat -> nat -> Q) : nat -> nat -> Q :=
  fun i j => a (S i) (S j) - a (S i) O * a (S j) O / a O O.

Fixpoint pivots_positive (n : nat) (a : nat -> nat -> Q) : bool :=
  match n with
  | O => true
  | S n' => Qlt_bool 0 (a O O) && pivots_positive n' (schur a)
  end.

Definition cholesky (m : ndarray2) : outcome unit :=
  if (n_rows m =? n_cols m)%nat then
    if pivots_positive (n_rows m) (lower (entry m)) then Return tt
    else Raise LinAlgError
  else Raise LinAlgError.

#[export] Instance factorization : Factorization :=
  {| matrix := ndarray2; factor := unit; np_linalg_cholesky := cholesky |}.

(** Symmetric positive-definite matrices. *)






Definition square (m : ndarray2) : Prop := n_rows m = n_cols m.




End ExactCholesky.

(** *** Diagonal matrices in exact arithmetic, given by their diagonal

    The factorization succeeds when every entry is positive and the
    eigenvalues are the entries.  The projection to the nearest covariance
    is taken to leave a diagonal matrix as it is. *)

Module Diagonal.

Local Open Scope Q_scope.

Definition all_positive (d : list Q) : bool :=
  forallb (fun x => ExactCholesky.Qlt_bool 0 x) d.

Definition cholesky (d : list Q) : outcome unit :=
  if all_positive d then Return tt else Raise LinAlgError.

#[export] Instance factorization : Factorization :=
  {| matrix := list Q; factor := unit; np_linalg_cholesky := cholesky |}.

Fixpoint minimum (d : list Q) : Q :=
  match d with
  | [] => 0
  | [x] => x
  | x :: d' => Qmin x (minimum d')
  end.

(** [np.spacing] of a finite number is at least the least subnormal. *)
Definition least_spacing : Q := 1 # (2 ^ 1074)%positive.

#[export] Instance repair : Repair factorization :=
  {| cov_nearest_clipped := fun d => d;
     spacing_of_norm := fun _ => least_spacing;
     min_eigenvalue := minimum;
     add_scaled_eye := fun d c => map (fun x => x + c) d |}.

End Diagonal.

(** ** The diffusion relationship of [diffusion.py] *)

(** Units as [pint] has them: a ratio to the base units and the exponents
    of length and time.  Magnitudes are binary64 numbers, and so is the
    factor by which the registry converts between two units of the same
    dimension: [pint] computes it from its table of definitions, and it is a
    parameter here. *)

Module Pint.

Record Unit : Type := {
  to_base : Q;
  length_exp : Z;
  time_exp : Z
}.

Definition femtoseconds : Unit :=
  {| to_base := 1 / 1000000000000000; length_exp := 0; time_exp := 1 |}%Q.
Definition second : Unit :=
  {| to_base := 1; length_exp := 0; time_exp := 1 |}%Q.
Definition angstrom : Unit :=
  {| to_base := 1 / 10000000000; length_exp := 1; time_exp := 0 |}%Q.
Definition centimeter : Unit :=
  {| to_base := 1 / 100; length_exp := 1; time_exp := 0 |}%Q.

Definition unit_mul (u v : Unit) : Unit :=
  {| to_base := (to_base u * to_base v)%Q;
     length_exp := length_exp u + length_exp v;
     time_exp := time_exp u + time_exp v |}.

Definition unit_div (u v : Unit) : Unit :=
  {| to_base := (to_base u / to_base v)%Q;
     length_exp := length_exp u - length_exp v;
     time_exp := time_exp u - time_exp v |}.

(** [u ** 2] *)
Definition unit_squared (u : Unit) : Unit := unit_mul u u.

Definition same_dimension (u v : Unit) : bool :=
  (length_exp u =? length_exp v) && (time_exp u =? time_exp v).

(** The exact ratio of a unit to another. *)
Definition exact_factor (u v : Unit) : Q := (to_base u / to_base v)%Q.

Record Quantity (A : Type) : Type := {
  magnitude : A;
  units : Unit
}.

Section Registry.

(** The binary64 number the registry has for the ratio of two units. *)
Variable factor : Unit -> Unit -> PyFloat.float.

(** The number that multiplies a magnitude in [u] to give it in [v]. *)
Definition conversion_factor (u v : Unit) : outcome PyFloat.float :=
  if same_dimension u v then Return (factor u v)
  else Raise DimensionalityError.

(** [q.to(v)]: the magnitude [times] the factor. *)
Definition to {A B : Type} (times : A -> PyFloat.float -> outcome B)
    (q : Quantity A) (v : Unit) : outcome (Quantity B) :=
  obind (conversion_factor (units q) v) (fun c =>
  obind (times (magnitude q) c) (fun x =>
  Return {| magnitude := x; units := v |})).

End Registry.

(** [UREG.centimeter ** 2 / UREG.second] *)
Definition centimeter2_per_second : Unit :=
  unit_div (unit_squared centimeter) second.

End Pint.

(** A number with its uncertainty ([uncertainties.ufloat]): the nominal
    value, a binary64 number, and the standard deviation of the fitted
    variable with the operations it went through, from which the module
    computes a standard deviation when it is asked for one. *)
Inductive linear_part : Type :=
| Fitted (std_dev : PyFloat.float)
| Over (l : linear_part) (n : Z)
| Times (l : linear_part) (c : PyFloat.float).

Record ufloat : Type := {
  nominal_value : PyFloat.float;
  uncertainty : linear_part
}.

(** [u / n] with [n] an [int] *)
Definition ufloat_div_int (u : ufloat) (n : Z) : outcome ufloat :=
  obind (PyFloat.div_int (nominal_value u) n) (fun x =>
  Return {| nominal_value := x; uncertainty := Over (uncertainty u) n |}).

(** [u * c] with [c] a [float] *)
Definition ufloat_times (u : ufloat) (c : PyFloat.float) : outcome ufloat :=
  Return {| nominal_value := PyFloat.mul (nominal_value u) c;
            uncertainty := Times (uncertainty u) c |}.

(** A fitted variable: a point estimate, or the samples of its posterior
    once [mcmc] has run. *)
Inductive variable : Type :=
| PointEstimate (u : ufloat)
| Posterior (samples : list PyFloat.float).

(** [diffusion_coefficient]: a quantity after construction, a named
    distribution with a unit after [sample]. *)
Inductive coefficient : Type :=
| CoefficientValue (q : Pint.Quantity ufloat)
| CoefficientDistribution (samples : list PyFloat.float) (name : string)
    (unit : Pint.Unit).

(** The keyword arguments of [sample], handed to [mcmc] as they are. *)
Record sampling_kwargs : Type := {
  walkers : option Z;
  n_samples : option Z;
  n_burn : option Z;
  show_progress : option bool
}.

Section DiffusionRelationship.

(** Modelled from the spec: the class [StraightLine] of
    [kinisi/relationships.py], which is not among the sources.  Its
    constructor keeps the two units and fits the slope and the intercept,
    [variables[0]] and [variables[1]], as point estimates; [mcmc] replaces
    both by the samples of their posterior. *)
Variable weighted_fit :
  list PyFloat.float -> list PyFloat.float -> list PyFloat.float ->
  ufloat * ufloat.
Variable posterior_samples :
  sampling_kwargs ->
  list PyFloat.float -> list PyFloat.float -> list PyFloat.float ->
  list PyFloat.float * list PyFloat.float.

(** The factors of the unit registry [UREG]. *)
Variable UREG : Pint.Unit -> Pint.Unit -> PyFloat.float.

Record Diffusion : Type := {
  abscissa : list PyFloat.float;
  ordinate : list PyFloat.float;
  ordinate_error : list PyFloat.float;
  abscissa_unit : Pint.Unit;
  ordinate_unit : Pint.Unit;
  variables : list variable;
  diffusion_coefficient : coefficient
}.

Definition default_delta_t_unit : Pint.Unit := Pint.femtoseconds.
Definition default_msd_unit : Pint.Unit := Pint.unit_squared Pint.angstrom.

(** [Diffusion.__init__]:
    [self.variables[0] / 6 * (self.ordinate_unit / self.abscissa_unit)],
    then [.to(UREG.centimeter ** 2 / UREG.second)]. *)
Definition new_Diffusion (delta_t msd msd_error : list PyFloat.float)
    (delta_t_unit msd_unit : Pint.Unit) : outcome Diffusion :=
  let (slope, intercept) := weighted_fit delta_t msd msd_error in
  let vars := [PointEstimate slope; PointEstimate intercept] in
  obind (getitem vars 0) (fun v0 =>
  match v0 with
  | PointEstimate s =>
      obind (ufloat_div_int s 6) (fun s6 =>
      let d := {| Pint.magnitude := s6;
                  Pint.units := Pint.unit_div msd_unit delta_t_unit |} in
      obind (Pint.to UREG ufloat_times d Pint.centimeter2_per_second)
        (fun d' =>
      Return {| abscissa := delta_t;
                ordinate := msd;
                ordinate_error := msd_error;
                abscissa_unit := delta_t_unit;
                ordinate_unit := msd_unit;
                variables := vars;
                diffusion_coefficient := CoefficientValue d' |}))
  | Posterior _ => Raise TypeError
  end).

(** The call of [self.mcmc] with the keyword arguments. *)
Definition mcmc (kwargs : sampling_kwargs) (self : Diffusion) : Diffusion :=
  let (s0, s1) := posterior_samples kwargs (abscissa self) (ordinate self)
                    (ordinate_error self) in
  {| abscissa := abscissa self;
     ordinate := ordinate self;
     ordinate_error := ordinate_error self;
     abscissa_unit := abscissa_unit self;
     ordinate_unit := ordinate_unit self;
     variables := [Posterior s0; Posterior s1];
     diffusion_coefficient := diffusion_coefficient self |}.

(** [samples * m / 6] on an array: the product and the quotient entry by
    entry. *)
Definition times_over_six (samples : list PyFloat.float) (m : PyFloat.float)
    : list PyFloat.float :=
  map (fun x => PyFloat.div (PyFloat.mul x m) (PyFloat.exact 6)) samples.

(** [Diffusion.sample]:
    [unit_conversion = 1 * self.ordinate_unit / self.abscissa_unit], then
    [self.variables[0].samples
     * unit_conversion.to(UREG.centimeter ** 2 / UREG.second).magnitude / 6]. *)
Definition sample (kwargs : sampling_kwargs) (self : Diffusion)
    : outcome Diffusion :=
  let self := mcmc kwargs self in
  let unit_conversion :=
    {| Pint.magnitude := 1;
       Pint.units := Pint.unit_div (ordinate_unit self) (abscissa_unit self) |} in
  obind (getitem (variables self) 0) (fun v0 =>
  match v0 with
  | Posterior s =>
      obind (Pint.to UREG PyFloat.int_mul unit_conversion
               Pint.centimeter2_per_second) (fun c =>
      Return {| abscissa := abscissa self;
                ordinate := ordinate self;
                ordinate_error := ordinate_error self;
                abscissa_unit := abscissa_unit self;
                ordinate_unit := ordinate_unit self;
                variables := variables self;
                diffusion_coefficient :=
                  CoefficientDistribution
                    (times_over_six s (Pint.magnitude c))
                    "$D$" Pint.centimeter2_per_second |})
  | PointEstimate _ => Raise TypeError
  end).

End DiffusionRelationship.

(** A fitted line to run the relationship on: the slope is 6 with its
    posterior at 6, and the registry has the binary64 number nearest to one
    tenth for every ratio, the exact ratio of the default units. *)

Module FittedLine.

(** 0.1 and the next binary64 number, 0.10000000000000002. *)
Definition tenth : PyFloat.float := S754_finite false 7205759403792794 (-56).
Definition after_tenth : PyFloat.float :=
  S754_finite false 7205759403792795 (-56).

Definition weighted_fit
    (delta_t msd msd_error : list PyFloat.float) : ufloat * ufloat :=
  ({| nominal_value := PyFloat.exact 6; uncertainty := Fitted tenth |},
   {| nominal_value := PyFloat.exact 0; uncertainty := Fitted tenth |}).

Definition posterior_samples (kwargs : sampling_kwargs)
    (delta_t msd msd_error : list PyFloat.float)
    : list PyFloat.float * list PyFloat.float :=
  ([PyFloat.exact 6], [PyFloat.exact 0]).

Definition UREG (u v : Pint.Unit) : PyFloat.float := tenth.

Definition delta_t : list PyFloat.float := map PyFloat.exact [1; 2; 3; 4; 5].
Definition msd : list PyFloat.float := map PyFloat.exact [6; 12; 18; 24; 30].
Definition msd_error : list PyFloat.float := map PyFloat.exact [1; 1; 1; 1; 1].

Definition no_kwargs : sampling_kwargs :=
  {| walkers := None; n_samples := None; n_burn := None;
     show_progress := None |}.

Definition relationship : outcome Diffusion :=
  new_Diffusion weighted_fit UREG delta_t msd msd_error
    default_delta_t_unit default_msd_unit.

Definition sampled : outcome Diffusion :=
  obind relationship (sample posterior_samples UREG no_kwargs).

End FittedLine.

(** ** The helper of [analyze.py]

    [[item for sublist in this_list for item in sublist]] *)

Definition _flatten_list {A : Type} (this_list : list (list A)) : list A :=
  flat_map (fun sublist => map (fun item => item) sublist) this_list.

(** ** Collaborators in exact arithmetic

    [numpy] on exact rationals, a linear congruential generator for the
    random state, and the verdicts of the normality tests left open. *)

Module ExactNumpy.

Local Open Scope Q_scope.

Definition sum (l : list Q) : Q := Qred (fold_left Qplus l 0).

Definition mean (l : list Q) : Q :=
  Qred (sum l / inject_Z (Z.of_nat (List.length l))).

Fixpoint insert (x : Q) (l : list Q) : list Q :=
  match l with
  | [] => [x]
  | y :: l' => if Qle_bool x y then x :: l else y :: insert x l'
  end.

Definition sort (l : list Q) : list Q := fold_right insert [] l.

(** [np.percentile(l, q)] with linear interpolation between the two
    nearest ranks. *)
Definition percentile (l : list Q) (q : Q) : Q :=
  let s := sort l in
  let n := List.length s in
  let pos := q / 100 * inject_Z (Z.of_nat (n - 1)) in
  let lo := Z.to_nat (Qfloor pos) in
  let frac := pos - inject_Z (Qfloor pos) in
  let below := nth lo s 0 in
  let above := nth (Nat.min (S lo) (n - 1)) s 0 in
  Qred (below + frac * (above - below)).

Definition median (l : list Q) : Q := percentile l 50.

Definition next (g : Z) : Z := ((1103515245 * g + 12345) mod 2147483648)%Z.

Fixpoint draw (k : nat) (g : Z) (data : list Q) : list Q * Z :=
  match k with
  | O => ([], g)
  | S k' =>
      let x := nth (Z.to_nat (g mod Z.of_nat (List.length data))) data 0 in
      let (xs, g') := draw k' (next g) data in
      (x :: xs, g')
  end.

Definition resample (g : Z) (data : list Q) (n : Z) : list Q * Z :=
  draw (Z.to_nat n) g data.

Definition collaborators (shapiro normaltest : list Q -> bool) : Collaborators :=
  {| V := Q;
     np_sum := sum;
     np_mean := mean;
     np_median := median;
     np_percentile := percentile;
     square := fun x => Qred (x * x);
     sub := fun x y => Qred (x - y);
     div_len := fun x n => Qred (x / inject_Z (Z.of_nat n));
     RNG := Z;
     sk_resample := resample;
     shapiro_normal := shapiro;
     normaltest_normal := normaltest |}.

(** An array from its nested lists, [rows[atom][observation][dimension]],
    with the shape given. *)
Definition array3 {C : Collaborators} (zero : V) (atoms obs dims : nat)
    (rows : list (list (list V))) : ndarray3 :=
  {| n_atoms_of := atoms;
     n_obs_of := obs;
     n_dim_of := dims;
     item := fun a o d => nth d (nth o (nth a rows []) []) zero |}.

End ExactNumpy.

(** ** Notions the properties of the resamplers are stated with *)

Section ResamplerNotions.

Context {C : Collaborators}.

(** What a distribution keeps while it grows. *)
Definition grown_by (d d' : Distribution) (extra : list V) : Prop :=
  samples d' = samples d ++ extra /\
  name d' = name d /\
  ci_points d' = ci_points d.

(** The warnings [resampled_distribution] adds for a final distribution. *)
Definition warned (cap : Z) (d : Distribution) : list string :=
  if cap <=? size d then [max_resamples_warning] else [].

(** [np.append] on the three output arrays. *)
Definition push (out : arrays) (r : V * V * V) : arrays :=
  let '(ts, ms, es) := out in
  let '(t, m, e) := r in
  (ts ++ [t], ms ++ [m], es ++ [e]).

Definition push_all (out : arrays) (rs : list (V * V * V)) : arrays :=
  fold_left push rs out.

(** [displacements[0].shape[1]] *)
Definition max_obs_of (displacements : list ndarray3) : outcome Z :=
  obind (getitem displacements 0) (fun first =>
  Return (Z.of_nat (n_obs_of first))).

(** The count of interval [i] in either mode. *)
Definition msd_count (displacements : list ndarray3)
    (samples_freq bootstrap_multiplier max_obs : Z) (i : nat) : outcome Z :=
  obind (getitem displacements i) (fun disp =>
  n_samples_msd max_obs (Z.of_nat (n_obs_of disp)) (Z.of_nat (n_atoms_of disp))
    samples_freq bootstrap_multiplier).

Definition mscd_count (displacements : list ndarray3)
    (samples_freq bootstrap_multiplier max_obs : Z) (i : nat) : outcome Z :=
  obind (getitem displacements i) (fun disp =>
  n_samples_mscd max_obs (Z.of_nat (n_obs_of disp))
    samples_freq bootstrap_multiplier).

(** An interval survives when its count is above one. *)
Definition survives (count : nat -> outcome Z) (i : nat) : bool :=
  match count i with
  | Return n => 1 <? n
  | Raise _ => false
  end.

Definition survivors (count : nat -> outcome Z) (len : nat) : list nat :=
  filter (survives count) (seq 0 len).

(** The record [msd_bootstrap] appends for a distribution. *)
Definition msd_record (t : V) (d : Distribution) : V * V * V :=
  (t, np_median (samples d),
   sub (np_percentile (samples d) (snd (ci_points d))) (np_median (samples d))).

(** The record [mscd_bootstrap] appends for a distribution and a subset of
    [k] particles. *)
Definition mscd_record (t : V) (d : Distribution) (k : nat) : V * V * V :=
  (t, div_len (np_median (samples d)) k,
   div_len (sub (np_percentile (samples d) (snd (ci_points d)))
                (np_median (samples d))) k).

(** The returned arrays hold one record per surviving interval, in the order
    of the intervals. *)
Definition one_record_per_survivor (delta_t : list V)
    (displacements : list ndarray3) (count : nat -> outcome Z) (out : arrays)
    : Prop :=
  let '(ts, ms, es) := out in
  Forall2 (fun i t => getitem delta_t i = Return t)
          (survivors count (List.length displacements)) ts /\
  List.length ms = List.length ts /\
  List.length es = List.length ts.

End ResamplerNotions.

(** The index from the start of an axis of length [n] that the entry [k] of
    an index array stands for. *)
Definition from_start (n : nat) (k : Z) : Z :=
  if k <? 0 then k + Z.of_nat n else k.

(** ** What a run of a resampler goes through *)

Section RunNotions.

Context {C : Collaborators}.

Variable delta_t : list V.
Variable n_resamples : Z.
Variable confidence_interval : option (list Q).
Variable max_resamples : Z.

(** What a run has at hand when it records an interval: the index of the
    interval, [delta_t[i]], the flattened array handed to [resample], the
    count of independent samples and the distribution of the resampled
    means. *)
Record survivor : Type := {
  interval : nat;
  time_step : V;
  resampled : list V;
  n_samples_of : Z;
  distro : Distribution
}.

(** The intervals [ixs] gone through in order from the world [w], [data i]
    being the flattened array of interval [i] and [count i] its count: an
    interval whose count is at most one is passed over, the other ones have
    their distribution built, each in the world the one before left. *)
Inductive run_through (data : nat -> outcome (list V))
    (count : nat -> outcome Z)
    : list nat -> world -> list survivor -> world -> Prop :=
| run_end w :
    run_through data count [] w [] w
| run_dropped i ixs w xs n ss w' :
    data i = Return xs ->
    count i = Return n ->
    n <= 1 ->
    run_through data count ixs w ss w' ->
    run_through data count (i :: ixs) w ss w'
| run_survivor i ixs w xs n d w1 t ss w' :
    data i = Return xs ->
    count i = Return n ->
    1 < n ->
    resampled_distribution n_resamples confidence_interval max_resamples
      i xs n w = (Return d, w1) ->
    getitem delta_t i = Return t ->
    samples d <> [] ->
    run_through data count ixs w1 ss w' ->
    run_through data count (i :: ixs) w
      ({| interval := i; time_step := t; resampled := xs;
          n_samples_of := n; distro := d |} :: ss) w'.

(** The draws made for the intervals recorded. *)
Definition draws_of (ss : list survivor) : list (list V * Z) :=
  flat_map (fun s => repeat (resampled s, n_samples_of s)
                       (Z.to_nat (size (distro s)))) ss.

End RunNotions.

(** The flattened arrays the two resamplers hand to [resample]. *)
Definition msd_data {C : Collaborators} (displacements : list ndarray3)
    (i : nat) : outcome (list V) :=
  obind (getitem displacements i) (fun disp => Return (d_squared_flat disp)).

Definition mscd_data {C : Collaborators} (displacements : list ndarray3)
    (indices : option (list Z)) (i : nat) : outcome (list V) :=
  obind (getitem displacements i) (fun disp => sq_chg_disp_flat disp indices).

(** The median and the upper error of a distribution, as the resamplers
    record them. *)
Definition recorded_mean {C : Collaborators} (d : Distribution) : V :=
  np_median (samples d).

Definition recorded_error {C : Collaborators} (d : Distribution) : V :=
  sub (np_percentile (samples d) (snd (ci_points d))) (np_median (samples d)).

(** The records the two resamplers append for an interval. *)
Definition msd_record_of {C : Collaborators} (s : survivor) : V * V * V :=
  (time_step s, recorded_mean (distro s), recorded_error (distro s)).

Definition mscd_record_of {C : Collaborators} (k : nat) (s : survivor)
    : V * V * V :=
  (time_step s, div_len (recorded_mean (distro s)) k,
   div_len (recorded_error (distro s)) k).

(** ** A small trajectory

    Four particles in one dimension, three observations at the first
    interval, two at the second and one at the third. *)

Module Scenario.

Local Open Scope Q_scope.

(** Collaborators whose normality tests give the verdict [verdict]. *)
Definition collaborators (verdict : bool) : Collaborators :=
  ExactNumpy.collaborators (fun _ => verdict) (fun _ => verdict).

Definition array (verdict : bool) (obs : nat) (rows : list (list (list Q)))
    : @ndarray3 (collaborators verdict) :=
  @ExactNumpy.array3 (collaborators verdict) 0 4 obs 1 rows.

Definition displacements (verdict : bool)
    : list (@ndarray3 (collaborators verdict)) :=
  [ array verdict 3 [ [[1]; [-1]; [1 # 2]];
                      [[2]; [1]; [-3 # 2]];
                      [[-1]; [1 # 4]; [3]];
                      [[1 # 2]; [-2]; [1]] ];
    array verdict 2 [ [[2]; [-1]];
                      [[3]; [-1 # 2]];
                      [[-2]; [3]];
                      [[1]; [-1]] ];
    array verdict 1 [ [[3]]; [[-4]]; [[2]]; [[1]] ] ].

Definition delta_t : list Q := [1; 2; 3].

Definition start (verdict : bool) : @world (collaborators verdict) :=
  @Build_world (collaborators verdict) 2024%Z [] [].

(** [msd_bootstrap(delta_t, displacements, n_resamples=3, samples_freq=3,
    max_resamples=5)] *)
Definition msd_run (verdict : bool) :=
  @msd_bootstrap (collaborators verdict) delta_t (displacements verdict)
    3 3 None 5 1 true (start verdict).

(** [mscd_bootstrap(delta_t, displacements, indices, n_resamples=3,
    max_resamples=5)] *)
Definition mscd_run (verdict : bool) (indices : option (list Z)) :=
  @mscd_bootstrap (collaborators verdict) delta_t (displacements verdict)
    indices 3 1 None 5 1 true (start verdict).

(** [msd_bootstrap(delta_t[:1], displacements[:1], n_resamples=1,
    max_resamples=10)] *)
Definition small_budget_run (verdict : bool) :=
  @msd_bootstrap (collaborators verdict) [1] (firstn 1 (displacements verdict))
    1 1 None 10 1 true (start verdict).

(** [msd_bootstrap([], [])] *)
Definition empty_run (verdict : bool) :=
  @msd_bootstrap (collaborators verdict) [] [] 1000 1 None 100000 1 true
    (start verdict).

(** The first interval and the lines that build its distribution, as
    [msd_run] and [small_budget_run] reach them. *)
Definition first_interval (verdict : bool) : @ndarray3 (collaborators verdict) :=
  nth 0 (displacements verdict) (array verdict 0 []).

Definition first_distribution (verdict : bool) :=
  @resampled_distribution (collaborators verdict) 3 None 5 0
    (d_squared_flat (first_interval verdict)) 4 (start verdict).

Definition small_budget_distribution (verdict : bool) :=
  @resampled_distribution (collaborators verdict) 1 None 10 0
    (d_squared_flat (first_interval verdict)) 12 (start verdict).

(** What [msd_run] returns, computed. *)
Definition msd_out : @arrays (collaborators true) :=
  Eval vm_compute in
    match fst (msd_run true) with
    | Return out => out
    | Raise _ => ([], [], [])
    end.

(** The world [msd_run] leaves, computed. *)
Definition msd_world : @world (collaborators true) :=
  Eval vm_compute in snd (msd_run true).

End Scenario.

Notation "x <- m ;; k" := (bind m (fun x => k))
  (at level 61, m at next level, right associativity).

(** * Properties *)

(** ** Outcomes and the monad of the resampler *)

Lemma getitem_lt_returns (A : Type) (l : list A) (i : nat) :
  (i < List.length l)%nat -> returns (getitem l i).
Proof.
  intros H. unfold getitem, returns.
  destruct (nth_error l i) eqn:E; [eauto|].
  apply nth_error_None in E. lia.
Qed.

Section ResamplerFacts.

Context {C : Collaborators}.

(** A batch of [k] resampled means: [k] calls of [resample], all with the
    same data and count, no warning, and it returns. *)
Lemma resample_means_nat_run (k : nat) (data : list V) (n : Z) (w : world) :
  exists xs w',
    resample_means_nat k data n w = (Return xs, w') /\
    List.length xs = k /\
    warnings w' = warnings w /\
    resample_calls w' = resample_calls w ++ repeat (data, n) k.
Proof.
  revert w. induction k as [|k IH]; intros w; simpl.
  - exists [], w. unfold ret. rewrite app_nil_r. auto.
  - unfold bind at 1. unfold resample_mean at 1.
    destruct (sk_resample (rng w) data n) as [s g].
    match goal with |- context [bind _ _ ?w1] =>
      destruct (IH w1) as (xs & w' & E & Hl & Hw & Hc) end.
    unfold bind. rewrite E. unfold ret.
    eexists; eexists; split; [reflexivity|].
    simpl in *. repeat split; try congruence.
    rewrite Hc, <- app_assoc. reflexivity.
Qed.

Lemma resample_means_run (k : Z) (data : list V) (n : Z) (w : world) :
  exists xs w',
    resample_means k data n w = (Return xs, w') /\
    List.length xs = Z.to_nat k /\
    warnings w' = warnings w /\
    resample_calls w' = resample_calls w ++ repeat (data, n) (Z.to_nat k).
Proof. apply resample_means_nat_run. Qed.

Lemma size_add_samples (d : Distribution) (values : list V) :
  size (add_samples d values) = size d + Z.of_nat (List.length values).
Proof. unfold size, add_samples. simpl. rewrite length_app. lia. Qed.

Lemma grown_by_size (d d' : Distribution) (extra : list V) :
  grown_by d d' extra -> size d' = size d + Z.of_nat (List.length extra).
Proof.
  intros (Hs & _ & _). unfold size. rewrite Hs, length_app. lia.
Qed.

(** Facts about a finished run of the loop, by induction on the run. *)
Lemma while_resampling_facts (data : list V) (n cap : Z)
    (d : Distribution) (w : world) (d' : Distribution) (w' : world) :
  while_resampling data n cap d w d' w' ->
  keep_resampling cap d' = false /\
  warnings w' = warnings w /\
  exists extra,
    grown_by d d' extra /\
    resample_calls w' = resample_calls w ++ repeat (data, n) (List.length extra) /\
    (extra = [] -> d' = d) /\
    (extra <> [] -> size d' < cap + 100).
Proof.
  induction 1 as [d w Hk | d w batch w1 d' w' Hk Hb _ IH].
  - split; [assumption|]. split; [reflexivity|].
    exists []. unfold grown_by. simpl. rewrite !app_nil_r.
    repeat split; auto. intros H; contradiction H; reflexivity.
  - destruct IH as (Hk' & Hw & extra & (Hs & Hn & Hc) & Hcalls & Hnil & Hlt).
    destruct (resample_means_run 100 data n w) as (xs & w2 & E & Hl & Hw2 & Hc2).
    rewrite Hb in E. injection E as <- <-.
    split; [assumption|]. split; [congruence|].
    exists (batch ++ extra). unfold grown_by.
    simpl in Hs, Hn, Hc. rewrite <- app_assoc in Hs.
    repeat split; auto.
    + rewrite Hcalls, Hc2, <- app_assoc, <- repeat_app, length_app, Hl.
      reflexivity.
    + intros Hnil'. apply app_eq_nil in Hnil'. destruct Hnil' as [-> _].
      simpl in Hl. change (Z.to_nat 100) with 100%nat in Hl. discriminate.
    + intros _. destruct extra as [|x extra].
      * rewrite (Hnil eq_refl), size_add_samples, Hl.
        unfold keep_resampling in Hk. apply andb_prop in Hk.
        destruct Hk as [_ Hk]. apply Z.ltb_lt in Hk.
        change (Z.of_nat (Z.to_nat 100)) with 100. lia.
      * apply Hlt. discriminate.
Qed.

(** The loop ends: a number of rounds that covers the distance to the cap
    is enough, and the function then computes the run. *)
Lemma grow_rounds_enough (data : list V) (n cap : Z) (rounds : nat)
    (d : Distribution) (w : world) :
  cap - size d <= Z.of_nat rounds ->
  exists d' w',
    grow_rounds rounds data n cap d w = (Return d', w') /\
    while_resampling data n cap d w d' w'.
Proof.
  revert d w. induction rounds as [|r IH]; intros d w Hr; simpl;
    destruct (keep_resampling cap d) eqn:Hk;
    try (exists d, w; split; [reflexivity | now apply while_done]).
  - exfalso. unfold keep_resampling in Hk. apply andb_prop in Hk.
    destruct Hk as [_ Hk]. apply Z.ltb_lt in Hk. lia.
  - destruct (resample_means_run 100 data n w) as (xs & w1 & E & Hl & _ & _).
    unfold bind. rewrite E.
    destruct (IH (add_samples d xs) w1) as (d' & w' & E' & Hrun).
    + rewrite size_add_samples, Hl.
      change (Z.of_nat (Z.to_nat 100)) with 100. lia.
    + exists d', w'. split; [assumption|].
      eapply while_more; eassumption.
Qed.

Lemma grow_runs (data : list V) (n cap : Z) (d : Distribution) (w : world) :
  exists d' w',
    grow data n cap d w = (Return d', w') /\
    while_resampling data n cap d w d' w'.
Proof. apply grow_rounds_enough. lia. Qed.

Lemma while_resampling_normal (data : list V) (n cap : Z)
    (d : Distribution) (w : world) (d' : Distribution) (w' : world) :
  while_resampling data n cap d w d' w' ->
  normal d = check_normality (samples d) ->
  normal d' = check_normality (samples d').
Proof.
  induction 1 as [| d w batch w1 d' w' _ _ _ IH]; intros Hn; [assumption|].
  apply IH. reflexivity.
Qed.

(** Lines 86-106 and 183-203 run to their end when the percentile points are
    accepted: what they return and what they leave in the world. *)
Lemma resampled_distribution_run (n_resamples : Z) (ci : option (list Q))
    (max_resamples : Z) (i : nat) (data : list V) (n : Z) (p : Q * Q)
    (w : world) :
  checked_ci_points (the_confidence_interval ci) = Some p ->
  exists d w',
    resampled_distribution n_resamples ci max_resamples i data n w
      = (Return d, w') /\
    keep_resampling (max_resamples - n_resamples) d = false /\
    normal d = check_normality (samples d) /\
    name d = delta_t_name i /\
    ci_points d = p /\
    (size d = Z.of_nat (Z.to_nat n_resamples) \/
     (Z.of_nat (Z.to_nat n_resamples) < size d /\
      size d < max_resamples - n_resamples + 100)) /\
    warnings w' = warnings w ++ warned (max_resamples - n_resamples) d /\
    resample_calls w'
      = resample_calls w ++ repeat (data, n) (Z.to_nat (size d)).
Proof.
  intros Hci. unfold resampled_distribution.
  destruct (resample_means_run n_resamples data n w)
    as (xs & w1 & E1 & Hl1 & Hw1 & Hc1).
  unfold bind at 1. rewrite E1.
  unfold bind at 1. unfold lift, new_Distribution. rewrite Hci.
  set (d0 := add_samples _ xs).
  destruct (grow_runs data n (max_resamples - n_resamples) d0 w1)
    as (d & w2 & E2 & Hrun).
  unfold bind at 1. rewrite E2.
  pose proof (while_resampling_normal Hrun eq_refl) as Hnorm.
  destruct (while_resampling_facts Hrun)
    as (Hk & Hw2 & extra & Hg & Hc2 & Hnil & Hlt).
  pose proof (grown_by_size Hg) as Hsz.
  destruct Hg as (Hs & Hnm & Hcp).
  assert (Hsz0 : size d0 = Z.of_nat (Z.to_nat n_resamples)).
  { unfold d0, size. simpl. now rewrite Hl1. }
  assert (Hcalls : resample_calls w2
            = resample_calls w ++ repeat (data, n) (Z.to_nat (size d))).
  { rewrite Hc2, Hc1, <- app_assoc, <- repeat_app. f_equal. f_equal. lia. }
  assert (Hsize : size d = Z.of_nat (Z.to_nat n_resamples) \/
     (Z.of_nat (Z.to_nat n_resamples) < size d /\
      size d < max_resamples - n_resamples + 100)).
  { destruct extra as [|x extra].
    - left. simpl in Hsz. lia.
    - right. split; [simpl in Hsz; lia | apply Hlt; discriminate]. }
  unfold warned, bind, warn, ret.
  destruct (max_resamples - n_resamples <=? size d) eqn:Hcap; simpl;
    eexists; eexists; (split; [reflexivity|]); simpl; rewrite Hcap;
    repeat split; auto; try congruence.
  rewrite app_nil_r. congruence.
Qed.

(** Whatever the outcome, the calls of [resample] made for an interval all
    carry the data and the count of that interval, and the first batch is
    among them. *)
Lemma resampled_distribution_calls (n_resamples : Z) (ci : option (list Q))
    (max_resamples : Z) (i : nat) (data : list V) (n : Z) (w : world) :
  exists k,
    (Z.to_nat n_resamples <= k)%nat /\
    resample_calls
      (snd (resampled_distribution n_resamples ci max_resamples i data n w))
    = resample_calls w ++ repeat (data, n) k.
Proof.
  destruct (checked_ci_points (the_confidence_interval ci)) as [p|] eqn:Hci.
  - destruct (resampled_distribution_run n_resamples ci max_resamples i
                data n w Hci) as (d & w' & E & _ & _ & _ & _ & Hsz & _ & Hc).
    rewrite E. simpl. exists (Z.to_nat (size d)). split; [lia|exact Hc].
  - unfold resampled_distribution.
    destruct (resample_means_run n_resamples data n w)
      as (xs & w1 & E1 & _ & _ & Hc1).
    unfold bind at 1. rewrite E1.
    unfold bind at 1. unfold lift, new_Distribution. rewrite Hci.
    simpl. eauto.
Qed.

(** ** The two resamplers, interval by interval *)

Lemma push_all_lengths (rs : list (V * V * V)) (ts ms es : list V) :
  push_all (ts, ms, es) rs
  = (ts ++ map (fun r => fst (fst r)) rs,
     ms ++ map (fun r => snd (fst r)) rs,
     es ++ map snd rs).
Proof.
  revert ts ms es. induction rs as [|[[t m] e] rs IH]; intros ts ms es; simpl.
  - now rewrite !app_nil_r.
  - unfold push_all in *. simpl.
    change (fold_left push rs (ts ++ [t], ms ++ [m], es ++ [e])
            = (ts ++ t :: map (fun r => fst (fst r)) rs,
               ms ++ m :: map (fun r => snd (fst r)) rs,
               es ++ e :: map snd rs)).
    rewrite IH, <- !app_assoc. reflexivity.
Qed.

(** What a loop over the intervals returns, for a body that either leaves
    the arrays alone or appends the record of its interval. *)
Lemma for_each_records (delta_t : list V) (count : nat -> outcome Z)
    (body : arrays -> nat -> M arrays) :
  (forall out i w out' w',
      body out i w = (Return out', w') ->
      exists n, count i = Return n /\
        ((n <= 1 /\ out' = out) \/
         (1 < n /\ exists t m e,
             getitem delta_t i = Return t /\ out' = push out (t, m, e)))) ->
  forall ixs out w out' w',
    for_each body ixs out w = (Return out', w') ->
    exists rs,
      out' = push_all out rs /\
      Forall2 (fun i r => getitem delta_t i = Return (fst (fst r)))
              (filter (survives count) ixs) rs /\
      Forall (fun i => returns (count i)) ixs.
Proof.
  intros Hbody. induction ixs as [|i ixs IH]; intros out w out' w' E; simpl in E.
  - unfold ret in E. injection E as <- <-. exists []. simpl. auto.
  - unfold bind in E. destruct (body out i w) as [[out1|e] w1] eqn:Eb;
      [|discriminate].
    destruct (Hbody _ _ _ _ _ Eb) as (n & Hn & Hcase).
    destruct (IH _ _ _ _ E) as (rs & -> & HF & Hall).
    assert (Hret : returns (count i)) by (exists n; exact Hn).
    simpl. unfold survives at 1. rewrite Hn.
    destruct Hcase as [[Hle ->] | (Hlt & t & m & e & Ht & ->)].
    + replace (1 <? n) with false by (symmetry; apply Z.ltb_ge; lia).
      exists rs. auto.
    + replace (1 <? n) with true by (symmetry; apply Z.ltb_lt; lia).
      exists ((t, m, e) :: rs). simpl. auto.
Qed.

(** A loop whose every interval is dropped changes nothing. *)
Lemma for_each_all_dropped (body : arrays -> nat -> M arrays) (ixs : list nat) :
  (forall out i w, In i ixs -> body out i w = (Return out, w)) ->
  forall out w, for_each body ixs out w = (Return out, w).
Proof.
  induction ixs as [|i ixs IH]; intros Hbody out w; simpl; [reflexivity|].
  unfold bind. rewrite Hbody by (left; reflexivity).
  apply IH. intros out0 j w0 Hj. apply Hbody. right. exact Hj.
Qed.

(** Entries picked at increasing positions of a sorted list are sorted. *)
Lemma picked_sorted (A : Type) (lt : A -> A -> Prop) (l : list A) :
  StronglySorted lt l ->
  forall (ixs : list nat) (xs : list A),
    StronglySorted Nat.lt ixs ->
    Forall2 (fun i x => getitem l i = Return x) ixs xs ->
    StronglySorted lt xs.
Proof.
  intros Hl.
  assert (Hnth : forall i j x y, (i < j)%nat ->
            nth_error l i = Some x -> nth_error l j = Some y -> lt x y).
  { induction Hl as [|a l Hl IH Ha]; intros i j x y Hij Hi Hj.
    - destruct i; discriminate.
    - destruct j as [|j]; [lia|]. simpl in Hj. destruct i as [|i]; simpl in Hi.
      + injection Hi as <-. rewrite Forall_forall in Ha. apply Ha.
        eapply nth_error_In; eassumption.
      + apply (IH i j); auto. lia. }
  intros ixs xs Hs HF. induction HF as [|i x ixs xs Hi HF IH].
  - constructor.
  - inversion Hs as [|? ? Hs' Hall]; subst. constructor; [auto|].
    clear IH Hs Hs'. induction HF as [|j y ixs xs Hj HF IH]; constructor.
    + inversion Hall; subst. unfold getitem in Hi, Hj.
      destruct (nth_error l i) eqn:Ei; [|discriminate].
      destruct (nth_error l j) eqn:Ej; [|discriminate].
      injection Hi as <-. injection Hj as <-. eapply Hnth; eassumption.
    + apply IH. now inversion Hall.
Qed.

Lemma survivors_increasing (count : nat -> outcome Z) (len : nat) :
  StronglySorted Nat.lt (survivors count len).
Proof.
  unfold survivors. generalize 0%nat as s. induction len as [|len IH];
    intros s; simpl; [constructor|].
  assert (Hall : Forall (Nat.lt s) (filter (survives count) (seq (S s) len))).
  { apply Forall_forall. intros j Hj. apply filter_In in Hj.
    destruct Hj as [Hj _]. apply in_seq in Hj. unfold Nat.lt. lia. }
  destruct (survives count s); [constructor|]; auto.
Qed.

Section Intervals.

Variable delta_t : list V.
Variable displacements : list ndarray3.
Variable indices : option (list Z).
Variable n_resamples : Z.
Variable samples_freq : Z.
Variable confidence_interval : option (list Q).
Variable max_resamples : Z.
Variable bootstrap_multiplier : Z.

Local Abbreviation msd_body :=
  (msd_interval delta_t displacements n_resamples samples_freq
     confidence_interval max_resamples bootstrap_multiplier).
Local Abbreviation mscd_body :=
  (mscd_interval delta_t displacements indices n_resamples samples_freq
     confidence_interval max_resamples bootstrap_multiplier).
Local Abbreviation distribution_of :=
  (resampled_distribution n_resamples confidence_interval max_resamples).
Local Abbreviation count_msd :=
  (msd_count displacements samples_freq bootstrap_multiplier).
Local Abbreviation count_mscd :=
  (mscd_count displacements samples_freq bootstrap_multiplier).

Lemma msd_interval_dropped (max_obs : Z) (out : arrays) (i : nat) (w : world)
    (n : Z) :
  count_msd max_obs i = Return n -> n <= 1 ->
  msd_body max_obs out i w = (Return out, w).
Proof.
  unfold msd_count, msd_interval, bind, lift. intros Hn Hle.
  destruct (getitem displacements i) as [disp|e]; simpl in *; [|discriminate].
  rewrite Hn. replace (n <=? 1) with true by (symmetry; apply Z.leb_le; lia).
  reflexivity.
Qed.

Lemma msd_interval_survivor (max_obs : Z) (out : arrays) (i : nat) (w : world)
    (disp : ndarray3) (n : Z) :
  getitem displacements i = Return disp ->
  count_msd max_obs i = Return n -> 1 < n ->
  msd_body max_obs out i w =
  match distribution_of i (d_squared_flat disp) n w with
  | (Return d, w') =>
      match getitem delta_t i with
      | Return t =>
          match samples d with
          | [] => (Raise TypeError, w')
          | _ => (Return (push out (msd_record t d)), w')
          end
      | Raise e => (Raise e, w')
      end
  | (Raise e, w') => (Raise e, w')
  end.
Proof.
  unfold msd_count, msd_interval, bind, lift. intros Hd Hn Hlt.
  rewrite Hd in *. simpl in Hn. rewrite Hn.
  replace (n <=? 1) with false by (symmetry; apply Z.leb_gt; lia).
  destruct (distribution_of i (d_squared_flat disp) n w) as [[d|e] w'];
    [|reflexivity].
  destruct out as [[ts ms] es].
  destruct (getitem delta_t i) as [t|e]; [|reflexivity].
  unfold upper_error, median_of, msd_record, push, ret.
  destruct (samples d); reflexivity.
Qed.

Lemma msd_interval_Return (max_obs : Z) (out : arrays) (i : nat) (w : world)
    (out' : arrays) (w' : world) :
  msd_body max_obs out i w = (Return out', w') ->
  exists n, count_msd max_obs i = Return n /\
    ((n <= 1 /\ out' = out) \/
     (1 < n /\ exists t m e,
         getitem delta_t i = Return t /\ out' = push out (t, m, e))).
Proof.
  intros E.
  destruct (count_msd max_obs i) as [n|e] eqn:Hn.
  - exists n. split; [reflexivity|].
    destruct (Z_le_gt_dec n 1) as [Hle|Hgt].
    + left. split; [assumption|].
      rewrite (msd_interval_dropped max_obs out i w Hn Hle) in E. congruence.
    + right. split; [lia|].
      destruct (getitem displacements i) as [disp|e] eqn:Hd.
      * rewrite (msd_interval_survivor max_obs out i w Hd Hn) in E by lia.
        destruct (distribution_of i (d_squared_flat disp) n w) as [[d|e] w1];
          [|discriminate].
        destruct (getitem delta_t i) as [t|e]; [|discriminate].
        destruct (samples d) eqn:Hs; [discriminate|].
        injection E as <- <-. unfold msd_record. eauto.
      * unfold msd_count in Hn. rewrite Hd in Hn. discriminate.
  - exfalso. unfold msd_count, msd_interval, bind, lift in *.
    destruct (getitem displacements i) as [disp|e']; simpl in *;
      [rewrite Hn in E|]; discriminate.
Qed.

Lemma mscd_interval_dropped (max_obs : Z) (out : arrays) (i : nat) (w : world)
    (disp : ndarray3) (data : list V) (n : Z) :
  getitem displacements i = Return disp ->
  sq_chg_disp_flat disp indices = Return data ->
  count_mscd max_obs i = Return n -> n <= 1 ->
  mscd_body max_obs out i w = (Return out, w).
Proof.
  unfold mscd_count, mscd_interval, bind, lift. intros Hd Hdata Hn Hle.
  rewrite Hd in *. simpl in Hn. rewrite Hdata, Hn.
  replace (n <=? 1) with true by (symmetry; apply Z.leb_le; lia).
  reflexivity.
Qed.

Lemma mscd_interval_survivor (max_obs : Z) (out : arrays) (i : nat) (w : world)
    (disp : ndarray3) (data : list V) (n : Z) :
  getitem displacements i = Return disp ->
  sq_chg_disp_flat disp indices = Return data ->
  count_mscd max_obs i = Return n -> 1 < n ->
  mscd_body max_obs out i w =
  match distribution_of i data n w with
  | (Return d, w') =>
      match getitem delta_t i with
      | Return t =>
          match samples d with
          | [] => (Raise TypeError, w')
          | _ =>
              match indices with
              | Some ks =>
                  (Return (push out (mscd_record t d (List.length ks))), w')
              | None => (Raise TypeError, w')
              end
          end
      | Raise e => (Raise e, w')
      end
  | (Raise e, w') => (Raise e, w')
  end.
Proof.
  unfold mscd_count, mscd_interval, bind, lift. intros Hd Hdata Hn Hlt.
  rewrite Hd in *. simpl in Hn. rewrite Hdata, Hn.
  replace (n <=? 1) with false by (symmetry; apply Z.leb_gt; lia).
  destruct (distribution_of i data n w) as [[d|e] w']; [|reflexivity].
  destruct out as [[ts ms] es].
  destruct (getitem delta_t i) as [t|e]; [|reflexivity].
  unfold upper_error, median_of, mscd_record, push, ret, len_indices.
  destruct (samples d); [reflexivity|].
  destruct indices; reflexivity.
Qed.

Lemma mscd_interval_Return (max_obs : Z) (out : arrays) (i : nat) (w : world)
    (out' : arrays) (w' : world) :
  mscd_body max_obs out i w = (Return out', w') ->
  exists n, count_mscd max_obs i = Return n /\
    ((n <= 1 /\ out' = out) \/
     (1 < n /\ exists t m e,
         getitem delta_t i = Return t /\ out' = push out (t, m, e))).
Proof.
  intros E.
  destruct (getitem displacements i) as [disp|e] eqn:Hd;
    [|unfold mscd_interval, bind, lift in E; rewrite Hd in E; discriminate].
  destruct (sq_chg_disp_flat disp indices) as [data|e] eqn:Hdata;
    [|unfold mscd_interval, bind, lift in E; rewrite Hd, Hdata in E;
      discriminate].
  destruct (count_mscd max_obs i) as [n|e] eqn:Hn.
  - exists n. split; [reflexivity|].
    destruct (Z_le_gt_dec n 1) as [Hle|Hgt].
    + left. split; [assumption|].
      rewrite (mscd_interval_dropped max_obs out i w Hd Hdata Hn Hle) in E.
      congruence.
    + right. split; [lia|].
      rewrite (mscd_interval_survivor max_obs out i w Hd Hdata Hn) in E by lia.
      destruct (distribution_of i data n w) as [[d|e] w1]; [|discriminate].
      destruct (getitem delta_t i) as [t|e]; [|discriminate].
      destruct (samples d) eqn:Hs; [discriminate|].
      destruct indices as [ks|]; [|discriminate].
      injection E as <- <-. unfold mscd_record. eauto.
  - exfalso. unfold mscd_count, mscd_interval, bind, lift in *.
    rewrite Hd in *. simpl in Hn. rewrite Hdata, Hn in E. discriminate.
Qed.

(** ** The two resamplers as a whole *)

Variable progress : bool.

Local Abbreviation msd :=
  (msd_bootstrap delta_t displacements n_resamples samples_freq
     confidence_interval max_resamples bootstrap_multiplier progress).
Local Abbreviation mscd :=
  (mscd_bootstrap delta_t displacements indices n_resamples samples_freq
     confidence_interval max_resamples bootstrap_multiplier progress).

Lemma iterator_range :
  iterator displacements progress = seq 0 (List.length displacements).
Proof. unfold iterator. destruct progress; reflexivity. Qed.

Lemma survivors_spec (count : nat -> outcome Z) (len i : nat) :
  In i (survivors count len) <->
  (i < len)%nat /\ exists n, count i = Return n /\ 1 < n.
Proof.
  unfold survivors, survives. rewrite filter_In, in_seq.
  destruct (count i) as [n|e]; split.
  - intros [Hi Hn]. apply Z.ltb_lt in Hn. split; [lia|eauto].
  - intros [Hi (n' & Hn' & Hlt)]. injection Hn' as <-.
    split; [lia|]. now apply Z.ltb_lt.
  - intros [_ H]. discriminate.
  - intros [_ (n & Hn & _)]. discriminate.
Qed.

Lemma records_of_loop (count : nat -> outcome Z)
    (body : arrays -> nat -> M arrays) (w : world) (out : arrays) (w' : world) :
  (forall out i w out' w',
      body out i w = (Return out', w') ->
      exists n, count i = Return n /\
        ((n <= 1 /\ out' = out) \/
         (1 < n /\ exists t m e,
             getitem delta_t i = Return t /\ out' = push out (t, m, e)))) ->
  for_each body (iterator displacements progress) ([], [], []) w
    = (Return out, w') ->
  one_record_per_survivor delta_t displacements count out.
Proof.
  intros Hbody E. rewrite iterator_range in E.
  destruct (for_each_records delta_t count body Hbody _ _ _ E)
    as (rs & -> & HF & _).
  rewrite push_all_lengths. simpl. unfold survivors.
  split; [|now rewrite !length_map].
  clear E. induction HF; simpl; constructor; auto.
Qed.

Lemma msd_bootstrap_records (w : world) (out : arrays) (w' : world) :
  msd w = (Return out, w') ->
  exists max_obs,
    max_obs_of displacements = Return max_obs /\
    one_record_per_survivor delta_t displacements (count_msd max_obs) out.
Proof.
  unfold msd_bootstrap, max_obs_of, bind, lift. intros E.
  destruct (getitem displacements 0) as [first|e]; [|discriminate].
  eexists. split; [reflexivity|].
  eapply records_of_loop; [|exact E].
  intros. eapply msd_interval_Return; eassumption.
Qed.

Lemma mscd_bootstrap_records (w : world) (out : arrays) (w' : world) :
  mscd w = (Return out, w') ->
  exists max_obs,
    max_obs_of displacements = Return max_obs /\
    one_record_per_survivor delta_t displacements (count_mscd max_obs) out.
Proof.
  unfold mscd_bootstrap, max_obs_of, bind, lift. intros E.
  destruct (getitem displacements 0) as [first|e]; [|discriminate].
  eexists. split; [reflexivity|].
  eapply records_of_loop; [|exact E].
  intros. eapply mscd_interval_Return; eassumption.
Qed.

Lemma one_record_per_survivor_sorted (lt : V -> V -> Prop)
    (count : nat -> outcome Z) (out : arrays) :
  StronglySorted lt delta_t ->
  one_record_per_survivor delta_t displacements count out ->
  StronglySorted lt (fst (fst out)).
Proof.
  destruct out as [[ts ms] es]. intros Hs (HF & _ & _). simpl.
  eapply picked_sorted; [exact Hs | apply survivors_increasing | exact HF].
Qed.

End Intervals.

End ResamplerFacts.

(** ** The claims about the resamplers *)

Section ResamplerClaims.

Context {C : Collaborators}.

(** C1. When [delta_t] is strictly increasing, the arrays [msd_bootstrap]
    and [mscd_bootstrap] return hold one record per interval whose count of
    independent samples is above one, in the order of the intervals, an
    interval whose count is at most one is not among them, and the returned
    [output_delta_t] is strictly increasing. *)
Theorem dropped_intervals_absent_and_output_sorted
    (lt : V -> V -> Prop) (delta_t : list V) (displacements : list ndarray3)
    (indices : option (list Z)) (n_resamples samples_freq : Z)
    (confidence_interval : option (list Q))
    (max_resamples bootstrap_multiplier : Z) (progress : bool)
    (w : world) (out : arrays) (w' : world) :
  StronglySorted lt delta_t ->
  (msd_bootstrap delta_t displacements n_resamples samples_freq
     confidence_interval max_resamples bootstrap_multiplier progress w
   = (Return out, w') ->
   exists max_obs,
     max_obs_of displacements = Return max_obs /\
     one_record_per_survivor delta_t displacements
       (msd_count displacements samples_freq bootstrap_multiplier max_obs) out /\
     StronglySorted lt (fst (fst out))) /\
  (mscd_bootstrap delta_t displacements indices n_resamples samples_freq
     confidence_interval max_resamples bootstrap_multiplier progress w
   = (Return out, w') ->
   exists max_obs,
     max_obs_of displacements = Return max_obs /\
     one_record_per_survivor delta_t displacements
       (mscd_count displacements samples_freq bootstrap_multiplier max_obs) out /\
     StronglySorted lt (fst (fst out))) /\
  (forall count i n,
     count i = Return n -> n <= 1 ->
     ~ In i (survivors count (List.length displacements))).
Proof.
  intros Hsorted. split; [|split].
  - intros E. destruct (msd_bootstrap_records _ _ _ _ _ _ _ _ _ E)
      as (max_obs & Hmax & Hrec).
    exists max_obs. repeat split; auto.
    eapply one_record_per_survivor_sorted; eassumption.
  - intros E. destruct (mscd_bootstrap_records _ _ _ _ _ _ _ _ _ _ E)
      as (max_obs & Hmax & Hrec).
    exists max_obs. repeat split; auto.
    eapply one_record_per_survivor_sorted; eassumption.
  - intros count i n Hn Hle Hin. apply survivors_spec in Hin.
    destruct Hin as (_ & n' & Hn' & Hlt). rewrite Hn in Hn'.
    injection Hn' as <-. lia.
Qed.

(** For a surviving interval [i], [msd_bootstrap] appends the record
    made of [delta_t[i]], the median of the distribution of the interval and
    the percentile at the upper point minus that median; [mscd_bootstrap]
    appends the same record with the median and the difference divided by
    [len(indices)]. *)
Lemma surviving_interval_record
    (delta_t : list V) (displacements : list ndarray3) (ks : list Z)
    (n_resamples samples_freq : Z) (confidence_interval : option (list Q))
    (max_resamples bootstrap_multiplier max_obs : Z)
    (out : arrays) (i : nat) (w : world)
    (disp : ndarray3) (t : V) (p : Q * Q) (n : Z) :
  getitem displacements i = Return disp ->
  getitem delta_t i = Return t ->
  checked_ci_points (the_confidence_interval confidence_interval) = Some p ->
  0 < n_resamples ->
  1 < n ->
  (msd_count displacements samples_freq bootstrap_multiplier max_obs i
   = Return n ->
   exists d w',
     resampled_distribution n_resamples confidence_interval max_resamples
       i (d_squared_flat disp) n w = (Return d, w') /\
     msd_interval delta_t displacements n_resamples samples_freq
       confidence_interval max_resamples bootstrap_multiplier max_obs out i w
     = (Return
          (push out
             (t, np_median (samples d),
              sub (np_percentile (samples d) (snd p)) (np_median (samples d)))),
        w')) /\
  (forall data,
   sq_chg_disp_flat disp (Some ks) = Return data ->
   mscd_count displacements samples_freq bootstrap_multiplier max_obs i
   = Return n ->
   exists d w',
     resampled_distribution n_resamples confidence_interval max_resamples
       i data n w = (Return d, w') /\
     mscd_interval delta_t displacements (Some ks) n_resamples samples_freq
       confidence_interval max_resamples bootstrap_multiplier max_obs out i w
     = (Return
          (push out
             (t, div_len (np_median (samples d)) (List.length ks),
              div_len
                (sub (np_percentile (samples d) (snd p)) (np_median (samples d)))
                (List.length ks))),
        w')).
Proof.
  intros Hd Ht Hci Hpos Hlt.
  assert (Hrun : forall data, exists d w',
            resampled_distribution n_resamples confidence_interval
              max_resamples i data n w = (Return d, w') /\
            ci_points d = p /\ samples d <> []).
  { intros data.
    destruct (resampled_distribution_run n_resamples confidence_interval
                max_resamples i data n w Hci)
      as (d & w' & E & _ & _ & _ & Hp & Hsz & _ & _).
    exists d, w'. repeat split; auto.
    intros Hnil. unfold size in Hsz. rewrite Hnil in Hsz. simpl in Hsz. lia. }
  split.
  - intros Hn. destruct (Hrun (d_squared_flat disp)) as (d & w' & E & Hp & Hne).
    exists d, w'. split; [exact E|].
    rewrite (msd_interval_survivor delta_t displacements n_resamples
               samples_freq confidence_interval max_resamples
               bootstrap_multiplier max_obs out i w Hd Hn Hlt).
    rewrite E, Ht. unfold msd_record. rewrite Hp.
    destruct (samples d); [contradiction Hne|]; reflexivity.
  - intros data Hdata Hn. destruct (Hrun data) as (d & w' & E & Hp & Hne).
    exists d, w'. split; [exact E|].
    rewrite (mscd_interval_survivor delta_t displacements (Some ks) n_resamples
               samples_freq confidence_interval max_resamples
               bootstrap_multiplier max_obs out i w Hd Hdata Hn Hlt).
    rewrite E, Ht. unfold mscd_record. rewrite Hp.
    destruct (samples d); [contradiction Hne|]; reflexivity.
Qed.

(** The loop that grows the distribution ends from every state.  The lines that build the distribution of an interval
    return, every sample of the final distribution is one draw, and the
    final size is [n_resamples] when no batch was added and below
    [max_resamples - n_resamples + 100] otherwise: it stays within
    [max_resamples] when [99 <= n_resamples <= max_resamples]. *)
Lemma resampling_ends_and_size_is_bounded
    (n_resamples : Z) (confidence_interval : option (list Q))
    (max_resamples : Z) (i : nat) (data : list V) (n : Z) (p : Q * Q)
    (w : world) :
  0 < n_resamples ->
  checked_ci_points (the_confidence_interval confidence_interval) = Some p ->
  (forall d0 w0, exists d1 w1,
      while_resampling data n (max_resamples - n_resamples) d0 w0 d1 w1) /\
  exists d w',
    resampled_distribution n_resamples confidence_interval max_resamples
      i data n w = (Return d, w') /\
    resample_calls w'
      = resample_calls w ++ repeat (data, n) (Z.to_nat (size d)) /\
    (size d = n_resamples \/
     (n_resamples < size d /\ size d < max_resamples - n_resamples + 100)) /\
    (99 <= n_resamples <= max_resamples -> size d <= max_resamples).
Proof.
  intros Hpos Hci. split.
  - intros d0 w0.
    destruct (grow_runs data n (max_resamples - n_resamples) d0 w0)
      as (d1 & w1 & _ & Hrun). eauto.
  - destruct (resampled_distribution_run n_resamples confidence_interval
                max_resamples i data n w Hci)
      as (d & w' & E & _ & _ & _ & _ & Hsz & _ & Hc).
    rewrite Z2Nat.id in Hsz by lia.
    exists d, w'. repeat split; auto. lia.
Qed.

(** For every interval the count the resamplers compute is the one of
    the specification, with the number of atoms as factor in [msd_bootstrap]
    and without factor in [mscd_bootstrap], and every call of [resample]
    made for the interval draws that many values; there is no call when the
    count is at most one and the first batch is drawn when it is above. *)
Lemma independent_sample_count_used
    (delta_t : list V) (displacements : list ndarray3)
    (indices : option (list Z)) (n_resamples samples_freq : Z)
    (confidence_interval : option (list Q))
    (max_resamples bootstrap_multiplier max_obs : Z)
    (out : arrays) (i : nat) (w : world) (disp : ndarray3) :
  getitem displacements i = Return disp ->
  msd_count displacements samples_freq bootstrap_multiplier max_obs i
  = independent_sample_count max_obs (Z.of_nat (n_obs_of disp))
      (Some (Z.of_nat (n_atoms_of disp))) samples_freq bootstrap_multiplier /\
  mscd_count displacements samples_freq bootstrap_multiplier max_obs i
  = independent_sample_count max_obs (Z.of_nat (n_obs_of disp))
      None samples_freq bootstrap_multiplier /\
  (forall n,
     independent_sample_count max_obs (Z.of_nat (n_obs_of disp))
       (Some (Z.of_nat (n_atoms_of disp))) samples_freq bootstrap_multiplier
     = Return n ->
     exists k,
       resample_calls
         (snd (msd_interval delta_t displacements n_resamples samples_freq
                 confidence_interval max_resamples bootstrap_multiplier
                 max_obs out i w))
       = resample_calls w ++ repeat (d_squared_flat disp, n) k /\
       (n <= 1 -> k = 0%nat) /\
       (1 < n -> (Z.to_nat n_resamples <= k)%nat)) /\
  (forall n data,
     sq_chg_disp_flat disp indices = Return data ->
     independent_sample_count max_obs (Z.of_nat (n_obs_of disp))
       None samples_freq bootstrap_multiplier
     = Return n ->
     exists k,
       resample_calls
         (snd (mscd_interval delta_t displacements indices n_resamples
                 samples_freq confidence_interval max_resamples
                 bootstrap_multiplier max_obs out i w))
       = resample_calls w ++ repeat (data, n) k /\
       (n <= 1 -> k = 0%nat) /\
       (1 < n -> (Z.to_nat n_resamples <= k)%nat)).
Proof.
  intros Hd.
  assert (Hmsd : msd_count displacements samples_freq bootstrap_multiplier
                   max_obs i
                 = independent_sample_count max_obs (Z.of_nat (n_obs_of disp))
                     (Some (Z.of_nat (n_atoms_of disp))) samples_freq
                     bootstrap_multiplier).
  { unfold msd_count. rewrite Hd. reflexivity. }
  assert (Hmscd : mscd_count displacements samples_freq bootstrap_multiplier
                    max_obs i
                  = independent_sample_count max_obs
                      (Z.of_nat (n_obs_of disp)) None samples_freq
                      bootstrap_multiplier).
  { unfold mscd_count. rewrite Hd. cbn [obind].
    unfold n_samples_mscd, independent_sample_count, dt_int.
    destruct (PyFloat.int_truediv _ _); reflexivity. }
  split; [exact Hmsd|]. split; [exact Hmscd|]. split.
  - intros n Hn. rewrite <- Hmsd in Hn.
    destruct (Z_le_gt_dec n 1) as [Hle|Hgt].
    + exists 0%nat.
      rewrite (msd_interval_dropped delta_t displacements n_resamples
                 samples_freq confidence_interval max_resamples
                 bootstrap_multiplier max_obs out i w Hn Hle).
      simpl. rewrite app_nil_r. repeat split; auto. lia.
    + assert (Hlt : 1 < n) by lia.
      rewrite (msd_interval_survivor delta_t displacements n_resamples
                 samples_freq confidence_interval max_resamples
                 bootstrap_multiplier max_obs out i w Hd Hn Hlt).
      destruct (resampled_distribution_calls n_resamples confidence_interval
                  max_resamples i (d_squared_flat disp) n w) as (k & Hk & Hc).
      exists k.
      destruct (resampled_distribution n_resamples confidence_interval
                  max_resamples i (d_squared_flat disp) n w) as [[d|e] w'];
        simpl in Hc.
      * destruct (getitem delta_t i); [destruct (samples d)|]; simpl;
          repeat split; auto; lia.
      * simpl. repeat split; auto; lia.
  - intros n data Hdata Hn. rewrite <- Hmscd in Hn.
    destruct (Z_le_gt_dec n 1) as [Hle|Hgt].
    + exists 0%nat.
      rewrite (mscd_interval_dropped delta_t displacements indices n_resamples
                 samples_freq confidence_interval max_resamples
                 bootstrap_multiplier max_obs out i w Hd Hdata Hn Hle).
      simpl. rewrite app_nil_r. repeat split; auto. lia.
    + assert (Hlt : 1 < n) by lia.
      rewrite (mscd_interval_survivor delta_t displacements indices
                 n_resamples samples_freq confidence_interval max_resamples
                 bootstrap_multiplier max_obs out i w Hd Hdata Hn Hlt).
      destruct (resampled_distribution_calls n_resamples confidence_interval
                  max_resamples i data n w) as (k & Hk & Hc).
      exists k.
      destruct (resampled_distribution n_resamples confidence_interval
                  max_resamples i data n w) as [[d|e] w'];
        simpl in Hc.
      * destruct (getitem delta_t i); [destruct (samples d)|]; simpl;
          [| destruct indices | ]; simpl; repeat split; auto; lia.
      * simpl. repeat split; auto; lia.
Qed.

(** C10, as the code has it.  When a resampler returns, its three arrays
    have the length of the list of surviving intervals.  When there is a
    first interval and the count of every interval is computed and is at
    most one, it returns three empty arrays and leaves the world as it was
    (for [mscd_bootstrap], provided the subscript by [indices] is in
    range). *)
Theorem arrays_have_equal_length
    (delta_t : list V) (displacements : list ndarray3)
    (indices : option (list Z)) (n_resamples samples_freq : Z)
    (confidence_interval : option (list Q))
    (max_resamples bootstrap_multiplier : Z) (progress : bool) (w : world) :
  (forall ts ms es w',
     msd_bootstrap delta_t displacements n_resamples samples_freq
       confidence_interval max_resamples bootstrap_multiplier progress w
     = (Return (ts, ms, es), w') ->
     exists max_obs,
       max_obs_of displacements = Return max_obs /\
       let len :=
         List.length
           (survivors
              (msd_count displacements samples_freq bootstrap_multiplier max_obs)
              (List.length displacements)) in
       List.length ts = len /\ List.length ms = len /\ List.length es = len) /\
  (forall ts ms es w',
     mscd_bootstrap delta_t displacements indices n_resamples samples_freq
       confidence_interval max_resamples bootstrap_multiplier progress w
     = (Return (ts, ms, es), w') ->
     exists max_obs,
       max_obs_of displacements = Return max_obs /\
       let len :=
         List.length
           (survivors
              (mscd_count displacements samples_freq bootstrap_multiplier max_obs)
              (List.length displacements)) in
       List.length ts = len /\ List.length ms = len /\ List.length es = len) /\
  (forall max_obs,
     max_obs_of displacements = Return max_obs ->
     (forall i, (i < List.length displacements)%nat ->
        exists n,
          msd_count displacements samples_freq bootstrap_multiplier max_obs i
          = Return n /\ n <= 1) ->
     msd_bootstrap delta_t displacements n_resamples samples_freq
       confidence_interval max_resamples bootstrap_multiplier progress w
     = (Return ([], [], []), w)) /\
  (forall max_obs,
     max_obs_of displacements = Return max_obs ->
     (forall i, (i < List.length displacements)%nat ->
        exists n,
          mscd_count displacements samples_freq bootstrap_multiplier max_obs i
          = Return n /\ n <= 1) ->
     (forall i disp, getitem displacements i = Return disp ->
        returns (sq_chg_disp_flat disp indices)) ->
     mscd_bootstrap delta_t displacements indices n_resamples samples_freq
       confidence_interval max_resamples bootstrap_multiplier progress w
     = (Return ([], [], []), w)).
Proof.
  split; [|split; [|split]].
  - intros ts ms es w' E.
    destruct (msd_bootstrap_records _ _ _ _ _ _ _ _ _ E)
      as (max_obs & Hmax & HF & Hms & Hes).
    exists max_obs. split; [exact Hmax|]. simpl.
    apply Forall2_length in HF. repeat split; congruence.
  - intros ts ms es w' E.
    destruct (mscd_bootstrap_records _ _ _ _ _ _ _ _ _ _ E)
      as (max_obs & Hmax & HF & Hms & Hes).
    exists max_obs. split; [exact Hmax|]. simpl.
    apply Forall2_length in HF. repeat split; congruence.
  - intros max_obs Hmax Hall. unfold msd_bootstrap, bind, lift.
    unfold max_obs_of in Hmax.
    destruct (getitem displacements 0) as [first|e]; [|discriminate].
    simpl in Hmax. injection Hmax as Hmax. rewrite Hmax.
    apply for_each_all_dropped. intros out i w0 Hi.
    rewrite iterator_range in Hi. apply in_seq in Hi.
    destruct (Hall i) as (n & Hn & Hle); [lia|].
    eapply msd_interval_dropped; eassumption.
  - intros max_obs Hmax Hall Hsub. unfold mscd_bootstrap, bind, lift.
    unfold max_obs_of in Hmax.
    destruct (getitem displacements 0) as [first|e]; [|discriminate].
    simpl in Hmax. injection Hmax as Hmax. rewrite Hmax.
    apply for_each_all_dropped. intros out i w0 Hi.
    rewrite iterator_range in Hi. apply in_seq in Hi.
    destruct (Hall i) as (n & Hn & Hle); [lia|].
    destruct (getitem_lt_returns displacements (i := i)) as (disp & Hd); [lia|].
    destruct (Hsub i disp Hd) as (data & Hdata).
    eapply mscd_interval_dropped; eassumption.
Qed.

End ResamplerClaims.

(** ** The claims on the small trajectory *)

Lemma msd_run_returns :
  Scenario.msd_run true = (Return Scenario.msd_out, Scenario.msd_world).
Proof. reflexivity. Qed.

Lemma dropped_intervals_absent_and_output_sorted_witness :
  StronglySorted Qlt Scenario.delta_t /\
  exists max_obs,
    max_obs_of (Scenario.displacements true) = Return max_obs /\
    one_record_per_survivor (C := Scenario.collaborators true)
      Scenario.delta_t (Scenario.displacements true)
      (msd_count (Scenario.displacements true) 3 1 max_obs)
      Scenario.msd_out /\
    StronglySorted Qlt (fst (fst Scenario.msd_out)).
Proof.
  assert (Hsorted : StronglySorted Qlt Scenario.delta_t).
  { repeat constructor. }
  split; [exact Hsorted|].
  exact (proj1 (@dropped_intervals_absent_and_output_sorted
                  (Scenario.collaborators true) Qlt Scenario.delta_t
                  (Scenario.displacements true) None 3 3 None 5 1 true
                  (Scenario.start true) Scenario.msd_out
                  Scenario.msd_world Hsorted) msd_run_returns).
Defined.

(** With [n_resamples=1] and [max_resamples=10] the first batch has one sample, which is never normal, one batch of 100 is
    added, and the final distribution has 101 samples. *)
Lemma max_resamples_exceeded :
  ~ (forall d w',
       Scenario.small_budget_distribution true = (Return d, w') ->
       size d <= 10).
Proof.
  intros H.
  assert (Hsize : match fst (Scenario.small_budget_distribution true) with
                  | Return d => size d
                  | Raise _ => 0
                  end = 101) by (vm_compute; reflexivity).
  destruct (Scenario.small_budget_distribution true) as [[d|e] w'];
    simpl in Hsize; [|discriminate].
  specialize (H d w' eq_refl). lia.
Qed.

(** The run of [msd_bootstrap] with that budget draws 101 times. *)
Lemma small_budget_run_draws :
  List.length (resample_calls (snd (Scenario.small_budget_run true))) = 101%nat.
Proof. vm_compute. reflexivity. Qed.

(** C4 fails on the code: with [n_resamples=3] and [max_resamples=5] the
    first batch of an interval is found normal, no batch is added, and the
    warning that the distribution is not yet normal is issued all the same,
    once for each of the two surviving intervals of the run. *)
Theorem warning_issued_for_normal_distribution :
  (exists d w',
     Scenario.first_distribution true = (Return d, w') /\
     normal d = true /\
     size d = 3 /\
     warnings w' = [max_resamples_warning]) /\
  Scenario.msd_run true = (Return Scenario.msd_out, Scenario.msd_world) /\
  warnings Scenario.msd_world = [max_resamples_warning; max_resamples_warning].
Proof.
  split; [|split; reflexivity].
  assert (H : match Scenario.first_distribution true with
              | (Return d, w') =>
                  normal d = true /\ size d = 3 /\
                  warnings w' = [max_resamples_warning]
              | (Raise _, _) => False
              end) by (vm_compute; auto).
  destruct (Scenario.first_distribution true) as [[d|e] w'];
    [|contradiction].
  exists d, w'. split; [reflexivity|exact H].
Qed.

(** C8 fails on the code: without [indices] the run raises [TypeError] at
    [len(indices)] as soon as an interval survives, while the run with the
    four particles listed returns its record. *)
Theorem default_indices_raise :
  fst (Scenario.mscd_run true None) = Raise TypeError /\
  fst (Scenario.mscd_run true (Some [0; 1; 2; 3]))
  = Return ([1], [337 # 192], [133 # 3840])%Q.
Proof. split; reflexivity. Qed.

(** C10 fails as stated: with no interval at all the resampler raises
    [IndexError] at [displacements[0]]. *)
Lemma no_interval_raises :
  ~ returns (fst (Scenario.empty_run true)).
Proof.
  intros [out H].
  assert (E : fst (Scenario.empty_run true) = Raise IndexError) by reflexivity.
  rewrite E in H. discriminate H.
Qed.

(** ** Positive-definite matrices and the pivots of the factorization *)

Section CholeskyFacts.

Import ExactCholesky.
Local Open Scope Q_scope.























(** The examples of the specification: an identity plus a Gram matrix is
    accepted, the diagonal matrix of 1 and -1 is refused. *)
Lemma check_positive_definite_examples :
  check_positive_definite (of_rows [[3; 1]; [1; 2]]) = Return true /\
  check_positive_definite (of_rows [[1; 0]; [0; -1]]) = Return false.
Proof. split; reflexivity. Qed.

End CholeskyFacts.

(** ** The repair *)

Section RepairFacts.

Context {F : Factorization} {R : Repair F}.

Local Open Scope Q_scope.


(** More rounds do not change a result. *)
Lemma repair_rounds_more (rounds extra : nat) (spacing : Q) (A3 : matrix)
    (k : Z) (r : outcome matrix) :
  repair_rounds rounds spacing A3 k = Some r ->
  repair_rounds (rounds + extra) spacing A3 k = Some r.
Proof.
  revert A3 k. induction rounds as [|n IH]; intros A3 k; simpl;
    destruct (check_positive_definite A3) as [[|]|e] eqn:E; intros H;
    try discriminate; try exact H.
  - destruct extra; simpl; rewrite E; exact H.
  - destruct extra; simpl; rewrite E; exact H.
  - apply IH. exact H.
Qed.


End RepairFacts.

(** ** The repair on diagonal matrices *)

Section DiagonalFacts.

Import Diagonal.
Local Open Scope Q_scope.








Lemma diagonal_repair_example :
  find_nearest_positive_definite 1 [1; -1]
  = Some (Return [2 + Diagonal.least_spacing; Diagonal.least_spacing],
          [not_positive_definite_warning]) /\
  find_nearest_positive_definite 0 [1; 2] = Some (Return [1; 2], []).
Proof. split; reflexivity. Qed.

End DiagonalFacts.

(** ** The diffusion coefficient *)

Section DiffusionFacts.

Variable weighted_fit :
  list PyFloat.float -> list PyFloat.float -> list PyFloat.float ->
  ufloat * ufloat.
Variable posterior_samples :
  sampling_kwargs ->
  list PyFloat.float -> list PyFloat.float -> list PyFloat.float ->
  list PyFloat.float * list PyFloat.float.
Variable UREG : Pint.Unit -> Pint.Unit -> PyFloat.float.

(** Dividing by the [int] 6 raises nothing. *)
Lemma div_int_six (x : PyFloat.float) :
  PyFloat.div_int x 6 = Return (PyFloat.div x (PyFloat.exact 6)).
Proof. reflexivity. Qed.

(** Neither does multiplying the [int] 1. *)
Lemma int_mul_one (c : PyFloat.float) :
  PyFloat.int_mul 1 c = Return (PyFloat.mul (PyFloat.exact 1) c).
Proof. reflexivity. Qed.

(** C9, as the code has it.  When the registry converts the unit of the
    ordinate over the unit of the abscissa to centimeter^2/second with the
    factor [c], the constructor returns a relationship whose
    [diffusion_coefficient] is a quantity in centimeter^2/second, of nominal
    value the fitted slope divided by 6 and the quotient multiplied by [c];
    [sample] then returns a relationship whose [diffusion_coefficient] is
    the distribution named [$D$], in centimeter^2/second, with one sample
    for each posterior sample [s] of the slope: [s] multiplied by [1 * c]
    and the product divided by 6.  Every operation is rounded to
    binary64. *)
Theorem diffusion_coefficient_in_binary64
    (delta_t msd msd_error : list PyFloat.float)
    (delta_t_unit msd_unit : Pint.Unit) (c : PyFloat.float) :
  Pint.conversion_factor UREG (Pint.unit_div msd_unit delta_t_unit)
    Pint.centimeter2_per_second = Return c ->
  let slope := fst (weighted_fit delta_t msd msd_error) in
  exists self,
    new_Diffusion weighted_fit UREG delta_t msd msd_error delta_t_unit msd_unit
    = Return self /\
    diffusion_coefficient self
    = CoefficientValue
        {| Pint.magnitude :=
             {| nominal_value :=
                  PyFloat.mul
                    (PyFloat.div (nominal_value slope) (PyFloat.exact 6)) c;
                uncertainty := Times (Over (uncertainty slope) 6) c |};
           Pint.units := Pint.centimeter2_per_second |} /\
    forall kwargs,
      exists self',
        sample posterior_samples UREG kwargs self = Return self' /\
        diffusion_coefficient self'
        = CoefficientDistribution
            (map (fun s =>
                    PyFloat.div
                      (PyFloat.mul s (PyFloat.mul (PyFloat.exact 1) c))
                      (PyFloat.exact 6))
               (fst (posterior_samples kwargs delta_t msd msd_error)))
            "$D$" Pint.centimeter2_per_second.
Proof.
  intros Hc slope. unfold new_Diffusion. subst slope.
  destruct (weighted_fit delta_t msd msd_error) as [slope intercept].
  cbn [getitem nth_error obind fst]. unfold ufloat_div_int.
  rewrite div_int_six. cbn [obind]. unfold Pint.to. cbn [Pint.units].
  rewrite Hc. cbn [obind Pint.magnitude ufloat_times nominal_value uncertainty].
  eexists. split; [reflexivity|]. cbn [diffusion_coefficient].
  split; [reflexivity|].
  intros kwargs. unfold sample, mcmc.
  cbn [abscissa ordinate ordinate_error abscissa_unit ordinate_unit].
  destruct (posterior_samples kwargs delta_t msd msd_error) as [s0 s1].
  cbn [variables getitem nth_error obind fst abscissa ordinate ordinate_error
       abscissa_unit ordinate_unit].
  unfold Pint.to. cbn [Pint.units Pint.magnitude]. rewrite Hc. cbn [obind].
  rewrite int_mul_one. cbn [obind Pint.magnitude].
  eexists. split; [reflexivity|]. reflexivity.
Qed.

End DiffusionFacts.

(** With the default units, femtoseconds and angstrom^2, the exact ratio is
    one tenth, and the units have the dimension of centimeter^2/second. *)
Lemma default_units_factor :
  (Pint.exact_factor (Pint.unit_div default_msd_unit default_delta_t_unit)
     Pint.centimeter2_per_second == 1 / 10)%Q /\
  Pint.same_dimension (Pint.unit_div default_msd_unit default_delta_t_unit)
    Pint.centimeter2_per_second = true.
Proof. split; reflexivity. Qed.

Lemma diffusion_coefficient_in_binary64_witness :
  exists self q,
    FittedLine.relationship = Return self /\
    diffusion_coefficient self = CoefficientValue q /\
    nominal_value (Pint.magnitude q) = FittedLine.tenth.
Proof.
  assert (Hc : Pint.conversion_factor FittedLine.UREG
                 (Pint.unit_div default_msd_unit default_delta_t_unit)
                 Pint.centimeter2_per_second = Return FittedLine.tenth)
    by reflexivity.
  destruct (@diffusion_coefficient_in_binary64
              FittedLine.weighted_fit FittedLine.posterior_samples
              FittedLine.UREG FittedLine.delta_t FittedLine.msd
              FittedLine.msd_error default_delta_t_unit default_msd_unit
              FittedLine.tenth Hc)
    as (self & Hnew & Hd & _).
  exists self. eexists. split; [exact Hnew|]. split; [exact Hd|].
  vm_compute. reflexivity.
Defined.

(** C9 fails as stated: a posterior sample of the slope is not converted
    the way the fitted slope is.  For the slope 6 and the factor 0.1 the
    constructor gives [6 / 6 * 0.1], which is 0.1, and [sample] gives
    [6 * 0.1 / 6], which is 0.10000000000000002. *)
Lemma sample_is_not_converted_as_the_slope :
  ~ (forall self self' q samples name unit,
       FittedLine.relationship = Return self ->
       FittedLine.sampled = Return self' ->
       diffusion_coefficient self = CoefficientValue q ->
       diffusion_coefficient self'
       = CoefficientDistribution samples name unit ->
       Forall2
         (fun s d =>
            d = PyFloat.mul (PyFloat.div s (PyFloat.exact 6)) FittedLine.tenth)
         (fst (FittedLine.posterior_samples FittedLine.no_kwargs
                 FittedLine.delta_t FittedLine.msd FittedLine.msd_error))
         samples).
Proof.
  intros H.
  assert (Hr : exists self, FittedLine.relationship = Return self /\
               exists q, diffusion_coefficient self = CoefficientValue q).
  { eexists. split; [reflexivity|]. eexists. reflexivity. }
  destruct Hr as (self & Hself & q & Hq).
  assert (Hs : exists self', FittedLine.sampled = Return self' /\
               diffusion_coefficient self'
               = CoefficientDistribution [FittedLine.after_tenth] "$D$"
                   Pint.centimeter2_per_second).
  { eexists. split; [reflexivity|]. vm_compute. reflexivity. }
  destruct Hs as (self' & Hself' & Hd).
  specialize (H self self' q _ _ _ Hself Hself' Hq Hd).
  inversion H as [|s d ss ds Hsd Hrest]; subst.
  vm_compute in Hsd. discriminate Hsd.
Qed.

(** The two values, side by side. *)
Lemma point_value_and_sample :
  exists self self' q,
    FittedLine.relationship = Return self /\
    diffusion_coefficient self = CoefficientValue q /\
    nominal_value (Pint.magnitude q) = FittedLine.tenth /\
    FittedLine.sampled = Return self' /\
    diffusion_coefficient self'
    = CoefficientDistribution [FittedLine.after_tenth] "$D$"
        Pint.centimeter2_per_second /\
    FittedLine.tenth <> FittedLine.after_tenth.
Proof.
  eexists. eexists. eexists.
  split; [reflexivity|]. split; [reflexivity|]. split; [vm_compute; reflexivity|].
  split; [reflexivity|]. split; [vm_compute; reflexivity|]. discriminate.
Qed.

(** ** When the warning is issued, and what the default [indices] do *)

Section WarningAndIndices.

Context {C : Collaborators}.

(** The warning is issued exactly when the final size has reached
    [max_resamples - n_resamples], be the distribution normal or not; a
    distribution that is left not normal has reached it. *)
Lemma warning_iff_cap_reached
    (n_resamples : Z) (confidence_interval : option (list Q))
    (max_resamples : Z) (i : nat) (data : list V) (n : Z) (p : Q * Q)
    (w : world) :
  checked_ci_points (the_confidence_interval confidence_interval) = Some p ->
  exists d w',
    resampled_distribution n_resamples confidence_interval max_resamples
      i data n w = (Return d, w') /\
    (warnings w' = warnings w ++ [max_resamples_warning] <->
     max_resamples - n_resamples <= size d) /\
    (warnings w' = warnings w <-> size d < max_resamples - n_resamples) /\
    (normal d = false -> max_resamples - n_resamples <= size d).
Proof.
  intros Hci.
  destruct (resampled_distribution_run n_resamples confidence_interval
              max_resamples i data n w Hci)
    as (d & w' & E & Hk & _ & _ & _ & _ & Hw & _).
  exists d, w'. split; [exact E|].
  unfold warned in Hw.
  destruct (max_resamples - n_resamples <=? size d) eqn:Hcap.
  - apply Z.leb_le in Hcap. repeat split; auto; try lia.
    intros Hsame. rewrite Hsame in Hw.
    rewrite <- (app_nil_r (warnings w)) in Hw at 1.
    apply app_inv_head in Hw. discriminate.
  - apply Z.leb_gt in Hcap. rewrite app_nil_r in Hw. repeat split; auto;
      try lia.
    + intros Hwarn. rewrite Hw in Hwarn.
      rewrite <- (app_nil_r (warnings w)) in Hwarn at 1.
      apply app_inv_head in Hwarn. discriminate.
    + intros Hn. unfold keep_resampling in Hk. rewrite Hn in Hk. simpl in Hk.
      apply Z.ltb_ge in Hk. lia.
Qed.

Lemma for_each_unchanged (body : arrays -> nat -> M arrays) :
  (forall out i w out' w', body out i w = (Return out', w') -> out' = out) ->
  forall ixs out w out' w',
    for_each body ixs out w = (Return out', w') -> out' = out.
Proof.
  intros Hbody. induction ixs as [|i ixs IH]; intros out w out' w' E;
    simpl in E.
  - unfold ret in E. congruence.
  - unfold bind in E. destruct (body out i w) as [[out1|e] w1] eqn:Eb;
      [|discriminate].
    rewrite (IH _ _ _ _ E). eapply Hbody. exact Eb.
Qed.

(** Without [indices] no interval is recorded: [mscd_bootstrap] either
    raises or returns three empty arrays. *)
Lemma mscd_bootstrap_default_indices
    (delta_t : list V) (displacements : list ndarray3)
    (n_resamples samples_freq : Z) (confidence_interval : option (list Q))
    (max_resamples bootstrap_multiplier : Z) (progress : bool)
    (w : world) (out : arrays) (w' : world) :
  mscd_bootstrap delta_t displacements None n_resamples samples_freq
    confidence_interval max_resamples bootstrap_multiplier progress w
  = (Return out, w') ->
  out = ([], [], []).
Proof.
  unfold mscd_bootstrap, bind at 1, lift. intros E.
  destruct (getitem displacements 0) as [first|e]; [|discriminate].
  eapply for_each_unchanged; [|exact E].
  clear. intros out i w out' w' E.
  destruct (getitem displacements i) as [disp|e] eqn:Hd;
    [|unfold mscd_interval, bind, lift in E; rewrite Hd in E; discriminate].
  destruct (sq_chg_disp_flat disp None) as [data|e] eqn:Hdata;
    [|discriminate].
  destruct (mscd_count displacements samples_freq bootstrap_multiplier
              (Z.of_nat (n_obs_of first)) i) as [n|e] eqn:Hn.
  - destruct (Z_le_gt_dec n 1) as [Hle|Hgt].
    + rewrite (mscd_interval_dropped delta_t displacements None n_resamples
                 samples_freq confidence_interval max_resamples
                 bootstrap_multiplier (Z.of_nat (n_obs_of first)) out i w
                 Hd Hdata Hn Hle) in E.
      congruence.
    + assert (Hlt : 1 < n) by lia.
      rewrite (mscd_interval_survivor delta_t displacements None n_resamples
                 samples_freq confidence_interval max_resamples
                 bootstrap_multiplier (Z.of_nat (n_obs_of first)) out i w
                 Hd Hdata Hn Hlt) in E.
      destruct (resampled_distribution _ _ _ _ _ _ _) as [[d|e] w1];
        [|discriminate].
      destruct (getitem delta_t i); [|discriminate].
      destruct (samples d); discriminate.
  - unfold mscd_count, mscd_interval, bind, lift in *.
    rewrite Hd in *. simpl in Hn, Hdata. simpl in E. rewrite Hn in E.
    discriminate.
Qed.

End WarningAndIndices.

(** The count follows the interpreter: [15 / 11 * 11] is the float below 15,
    and [int] truncates it to 14. *)
Lemma count_truncates_the_float :
  n_samples_msd 15 5 11 1 1 = Return 14 /\
  n_samples_mscd 15 5 1 1 = Return 1 /\
  n_samples_msd 10 11 3 1 1 = Raise ZeroDivisionError.
Proof. repeat split; vm_compute; reflexivity. Qed.

(** * Further properties

    What the functions of [diffusion.py], [matrix.py] and [analyze.py] do
    besides: the calls they make, the errors they raise and what their
    arguments are read for. *)

(** ** Whole runs of the resamplers *)

Section ResamplerRuns.

Context {C : Collaborators}.

(** A loop agrees with another one whose body agrees with its own on the
    intervals it visits. *)
Lemma for_each_ext (body1 body2 : arrays -> nat -> M arrays) (ixs : list nat) :
  (forall out i w, In i ixs -> body1 out i w = body2 out i w) ->
  forall out w, for_each body1 ixs out w = for_each body2 ixs out w.
Proof.
  induction ixs as [|i ixs IH]; intros H out w; simpl; [reflexivity|].
  unfold bind. rewrite H by (left; reflexivity).
  destruct (body2 out i w) as [[out1|e] w1]; [|reflexivity].
  apply IH. intros out0 j w0 Hj. apply H. right. exact Hj.
Qed.

(** What a loop adds to the calls of [resample], whatever its outcome. *)
Lemma for_each_calls (P : list V * Z -> Prop)
    (body : arrays -> nat -> M arrays) (ixs : list nat) :
  (forall out i w, In i ixs ->
     exists calls,
       resample_calls (snd (body out i w)) = resample_calls w ++ calls /\
       Forall P calls) ->
  forall out w,
    exists calls,
      resample_calls (snd (for_each body ixs out w))
      = resample_calls w ++ calls /\
      Forall P calls.
Proof.
  induction ixs as [|i ixs IH]; intros H out w; simpl.
  - exists []. rewrite app_nil_r. auto.
  - destruct (H out i w (or_introl eq_refl)) as (c1 & E1 & F1).
    unfold bind. destruct (body out i w) as [[out1|e] w1]; simpl in E1.
    + destruct (IH (fun o j w0 Hj => H o j w0 (or_intror Hj)) out1 w1)
        as (c2 & E2 & F2).
      exists (c1 ++ c2). rewrite E2, E1, <- app_assoc. split; [reflexivity|].
      apply Forall_app. auto.
    + exists c1. auto.
Qed.

(** With percentile points the constructor refuses, the first batch is drawn
    and [ValueError] is raised. *)
Lemma resampled_distribution_refused (n_resamples : Z) (ci : option (list Q))
    (max_resamples : Z) (i : nat) (data : list V) (n : Z) (w : world) :
  checked_ci_points (the_confidence_interval ci) = None ->
  exists w',
    resampled_distribution n_resamples ci max_resamples i data n w
    = (Raise ValueError, w') /\
    warnings w' = warnings w /\
    resample_calls w'
    = resample_calls w ++ repeat (data, n) (Z.to_nat n_resamples).
Proof.
  intros Hci. unfold resampled_distribution.
  destruct (resample_means_run n_resamples data n w)
    as (xs & w1 & E1 & _ & Hw1 & Hc1).
  unfold bind at 1. rewrite E1.
  unfold bind at 1. unfold lift, new_Distribution. rewrite Hci.
  exists w1. auto.
Qed.

(** What the lines that build a distribution leave in the world, whatever
    their outcome. *)
Lemma resampled_distribution_world (n_resamples : Z) (ci : option (list Q))
    (max_resamples : Z) (i : nat) (data : list V) (n : Z) (w : world) :
  exists k ws,
    (Z.to_nat n_resamples <= k)%nat /\
    resample_calls
      (snd (resampled_distribution n_resamples ci max_resamples i data n w))
    = resample_calls w ++ repeat (data, n) k /\
    warnings
      (snd (resampled_distribution n_resamples ci max_resamples i data n w))
    = warnings w ++ ws /\
    (ws = [] \/ ws = [max_resamples_warning]).
Proof.
  destruct (checked_ci_points (the_confidence_interval ci)) as [p|] eqn:Hci.
  - destruct (resampled_distribution_run n_resamples ci max_resamples i
                data n w Hci) as (d & w' & E & _ & _ & _ & _ & Hsz & Hw & Hc).
    rewrite E. simpl.
    exists (Z.to_nat (size d)), (warned (max_resamples - n_resamples) d).
    repeat split; auto; [lia|]. unfold warned.
    destruct (max_resamples - n_resamples <=? size d); auto.
  - destruct (resampled_distribution_refused n_resamples ci max_resamples i
                data n w Hci) as (w' & E & Hw & Hc).
    rewrite E. simpl. exists (Z.to_nat n_resamples), [].
    rewrite app_nil_r. repeat split; auto.
Qed.

(** Every round of the loop adds one batch of 100 samples behind the ones
    the distribution has. *)
Lemma while_resampling_batches (data : list V) (n cap : Z)
    (d : Distribution) (w : world) (d' : Distribution) (w' : world) :
  while_resampling data n cap d w d' w' ->
  exists (k : nat) (extra : list V),
    samples d' = samples d ++ extra /\
    List.length extra = (100 * k)%nat /\
    (keep_resampling cap d = false <-> k = 0%nat).
Proof.
  induction 1 as [d w Hk | d w batch w1 d' w' Hk Hb _ IH].
  - exists 0%nat, []. rewrite app_nil_r. tauto.
  - destruct IH as (k & extra & Hs & Hl & _).
    destruct (resample_means_run 100 data n w) as (xs & w2 & E & Hlx & _ & _).
    rewrite Hb in E. injection E as <- <-.
    exists (S k), (batch ++ extra). simpl in Hs. rewrite <- app_assoc in Hs.
    split; [exact Hs|]. split.
    + rewrite length_app, Hl, Hlx. change (Z.to_nat 100) with 100%nat. lia.
    + split; [congruence|discriminate].
Qed.

(** X1.  The samples of the distribution of an interval: the first batch of
    [n_resamples] means, kept in front, and whole batches of 100 behind it;
    none exactly when the first batch is found normal or is as large as
    [max_resamples - n_resamples]. *)
Theorem distribution_is_first_batch_and_whole_batches
    (n_resamples : Z) (confidence_interval : option (list Q))
    (max_resamples : Z) (i : nat) (data : list V) (n : Z) (p : Q * Q)
    (w : world) :
  checked_ci_points (the_confidence_interval confidence_interval) = Some p ->
  exists first w1 d w' (k : nat) extra,
    resample_means n_resamples data n w = (Return first, w1) /\
    List.length first = Z.to_nat n_resamples /\
    resampled_distribution n_resamples confidence_interval max_resamples
      i data n w = (Return d, w') /\
    samples d = first ++ extra /\
    List.length extra = (100 * k)%nat /\
    (check_normality first = true \/
     max_resamples - n_resamples <= Z.of_nat (List.length first) <->
     k = 0%nat).
Proof.
  intros Hci. unfold resampled_distribution.
  destruct (resample_means_run n_resamples data n w)
    as (xs & w1 & E1 & Hl1 & _ & _).
  unfold bind at 1. rewrite E1.
  unfold bind at 1. unfold lift, new_Distribution. rewrite Hci.
  set (d0 := add_samples _ xs).
  destruct (grow_runs data n (max_resamples - n_resamples) d0 w1)
    as (d & w2 & E2 & Hrun).
  unfold bind at 1. rewrite E2.
  destruct (while_resampling_batches Hrun) as (k & extra & Hs & Hl & Hk).
  exists xs, w1, d.
  assert (Hstop : check_normality xs = true \/
                  max_resamples - n_resamples <= Z.of_nat (List.length xs) <->
                  k = 0%nat).
  { rewrite <- Hk. unfold keep_resampling, d0, size. simpl.
    rewrite andb_false_iff, negb_false_iff, Z.ltb_ge. reflexivity. }
  unfold bind, warn, ret.
  destruct (max_resamples - n_resamples <=? size d);
    eexists; exists k, extra; (split; [reflexivity|]); (split; [exact Hl1|]);
    (split; [reflexivity|]); (split; [exact Hs|]); (split; [exact Hl|]);
    exact Hstop.
Qed.

(** *** Counts that cannot be computed *)

Lemma div_int_by_zero (x : PyFloat.float) :
  PyFloat.div_int x 0 = Raise ZeroDivisionError.
Proof. reflexivity. Qed.

Lemma int_truediv_raises (a b : Z) (e : exn) :
  PyFloat.int_truediv a b = Raise e ->
  e = ZeroDivisionError \/ e = OverflowError.
Proof.
  unfold PyFloat.int_truediv, PyFloat.finite_or_overflow.
  destruct (b =? 0); [intros H; injection H as <-; auto|].
  destruct (SFdiv _ _ _ _); intros H; try discriminate.
  injection H as <-. auto.
Qed.

Lemma mul_int_raises (x : PyFloat.float) (n : Z) (e : exn) :
  PyFloat.mul_int x n = Raise e -> e = OverflowError.
Proof.
  unfold PyFloat.mul_int, PyFloat.of_int, PyFloat.finite_or_overflow.
  destruct (binary_normalize _ _ _ _ _); simpl; intros H; try discriminate.
  injection H as <-. reflexivity.
Qed.

(** With [samples_freq=0] no count is computed. *)
Lemma zero_frequency_count (max_obs n_obs n_atoms bootstrap_multiplier : Z) :
  (exists e,
     n_samples_msd max_obs n_obs n_atoms 0 bootstrap_multiplier = Raise e /\
     (e = ZeroDivisionError \/ e = OverflowError)) /\
  (exists e,
     n_samples_mscd max_obs n_obs 0 bootstrap_multiplier = Raise e /\
     (e = ZeroDivisionError \/ e = OverflowError)).
Proof.
  unfold n_samples_msd, n_samples_mscd.
  destruct (PyFloat.int_truediv max_obs (dt_int max_obs n_obs)) as [q|e] eqn:Eq;
    cbn [obind].
  - split.
    + destruct (PyFloat.mul_int q n_atoms) as [qa|e] eqn:Em; cbn [obind].
      * rewrite div_int_by_zero. cbn [obind]. eauto.
      * apply mul_int_raises in Em. subst e. eauto.
    + rewrite div_int_by_zero. cbn [obind]. eauto.
  - apply int_truediv_raises in Eq. split; eauto.
Qed.

(** A subscript by an index array raises nothing but [IndexError]. *)
Lemma axis_indices_raises (n : nat) (ks : list Z) (e : exn) :
  axis_indices n ks = Raise e -> e = IndexError.
Proof.
  revert e. induction ks as [|k ks IH]; intros e Ha; simpl in Ha;
    [discriminate|].
  unfold axis_index in Ha.
  destruct ((0 <=? k) && (k <? Z.of_nat n));
    [|destruct ((- Z.of_nat n <=? k) && (k <? 0))]; cbn [obind] in Ha.
  - destruct (axis_indices n ks); [discriminate|]. cbn [obind] in Ha.
    injection Ha as <-. apply IH. reflexivity.
  - destruct (axis_indices n ks); [discriminate|]. cbn [obind] in Ha.
    injection Ha as <-. apply IH. reflexivity.
  - congruence.
Qed.

Lemma sq_chg_disp_flat_raises (a : ndarray3) (indices : option (list Z))
    (e : exn) :
  sq_chg_disp_flat a indices = Raise e -> e = IndexError.
Proof.
  unfold sq_chg_disp_flat. destruct indices as [ks|]; [|discriminate].
  destruct (axis_indices (n_atoms_of a) ks) eqn:Ha; [discriminate|].
  cbn [obind]. intros H. injection H as <-.
  eapply axis_indices_raises. exact Ha.
Qed.

(** A loop whose body, when it returns, has changed neither the arrays nor
    the world, returns what it was given. *)
Lemma for_each_inert (body : arrays -> nat -> M arrays) (ixs : list nat) :
  (forall out i w out' w', In i ixs ->
     body out i w = (Return out', w') -> out' = out /\ w' = w) ->
  forall out w out' w',
    for_each body ixs out w = (Return out', w') -> out' = out /\ w' = w.
Proof.
  induction ixs as [|i ixs IH]; intros H out w out' w' E; simpl in E.
  - unfold ret in E. injection E as <- <-. auto.
  - unfold bind in E. destruct (body out i w) as [[out1|e] w1] eqn:Eb;
      [|discriminate].
    destruct (H _ _ _ _ _ (or_introl eq_refl) Eb) as [-> ->].
    eapply IH; [|exact E]. intros. eapply H; [right|]; eassumption.
Qed.

Lemma count_of_longer_interval
    (max_obs n_atoms samples_freq bootstrap_multiplier : Z) :
  n_samples_msd max_obs (max_obs + 1) n_atoms samples_freq bootstrap_multiplier
  = Raise ZeroDivisionError /\
  n_samples_mscd max_obs (max_obs + 1) samples_freq bootstrap_multiplier
  = Raise ZeroDivisionError.
Proof.
  unfold n_samples_msd, n_samples_mscd, dt_int, PyFloat.int_truediv.
  replace (max_obs - (max_obs + 1) + 1) with 0 by lia. split; reflexivity.
Qed.

Lemma zero_multiplier_count (max_obs n_obs n_atoms samples_freq n : Z) :
  (n_samples_msd max_obs n_obs n_atoms samples_freq 0 = Return n -> n = 0) /\
  (n_samples_mscd max_obs n_obs samples_freq 0 = Return n -> n = 0).
Proof.
  unfold n_samples_msd, n_samples_mscd.
  destruct (PyFloat.int_truediv _ _) as [q|]; cbn [obind];
    [|split; discriminate].
  split.
  - destruct (PyFloat.mul_int _ _) as [qa|]; cbn [obind]; [|discriminate].
    destruct (PyFloat.div_int _ _) as [x|]; cbn [obind]; [|discriminate].
    destruct (PyFloat.to_int _) as [k|]; cbn [obind]; [|discriminate].
    intros H. injection H as <-. lia.
  - destruct (PyFloat.div_int _ _) as [x|]; cbn [obind]; [|discriminate].
    destruct (PyFloat.to_int _) as [k|]; cbn [obind]; [|discriminate].
    intros H. injection H as <-. lia.
Qed.

Lemma getitem_length (A : Type) (l : list A) (i : nat) (a : A) :
  getitem l i = Return a -> (i < List.length l)%nat.
Proof.
  unfold getitem. destruct (nth_error l i) eqn:E; [|discriminate].
  intros _. apply nth_error_Some. congruence.
Qed.

(** The warnings of a loop whose body either does nothing or appends a
    record and warns at most once. *)
Lemma for_each_warnings (always : Prop) (body : arrays -> nat -> M arrays) :
  (forall out i w out' w',
     body out i w = (Return out', w') ->
     (out' = out /\ w' = w) \/
     (exists r,
        out' = push out r /\
        (warnings w' = warnings w \/
         warnings w' = warnings w ++ [max_resamples_warning]) /\
        (always -> warnings w' = warnings w ++ [max_resamples_warning]))) ->
  forall ixs out w out' w',
    for_each body ixs out w = (Return out', w') ->
    exists rs k,
      out' = push_all out rs /\
      warnings w' = warnings w ++ repeat max_resamples_warning k /\
      (k <= List.length rs)%nat /\
      (always -> k = List.length rs).
Proof.
  intros Hbody. induction ixs as [|i ixs IH]; intros out w out' w' E;
    simpl in E.
  - unfold ret in E. injection E as <- <-. exists [], 0%nat.
    simpl. rewrite app_nil_r. auto.
  - unfold bind in E. destruct (body out i w) as [[out1|e] w1] eqn:Eb;
      [|discriminate].
    destruct (IH _ _ _ _ E) as (rs & k & Ho & Hw & Hk & Ha).
    destruct (Hbody _ _ _ _ _ Eb) as [[-> ->]|(r & -> & Hor & Hal)].
    + exists rs, k. auto.
    + destruct Hor as [Hsame|Hwarn].
      * exists (r :: rs), k. simpl. rewrite Hw, Hsame.
        split; [exact Ho|]. split; [reflexivity|]. split; [lia|].
        intros A. specialize (Hal A).
        rewrite Hsame in Hal. apply (f_equal (@List.length string)) in Hal.
        rewrite length_app in Hal. simpl in Hal. lia.
      * exists (r :: rs), (S k). simpl. rewrite Hw, Hwarn, <- app_assoc.
        split; [exact Ho|]. split; [reflexivity|]. split; [lia|].
        intros A. rewrite (Ha A). reflexivity.
Qed.

Section Runs.

Variable delta_t : list V.
Variable displacements : list ndarray3.
Variable indices : option (list Z).
Variable n_resamples : Z.
Variable samples_freq : Z.
Variable confidence_interval : option (list Q).
Variable max_resamples : Z.
Variable bootstrap_multiplier : Z.
Variable progress : bool.

Local Abbreviation msd_body :=
  (msd_interval delta_t displacements n_resamples samples_freq
     confidence_interval max_resamples bootstrap_multiplier).
Local Abbreviation mscd_body :=
  (mscd_interval delta_t displacements indices n_resamples samples_freq
     confidence_interval max_resamples bootstrap_multiplier).
Local Abbreviation distribution_of :=
  (resampled_distribution n_resamples confidence_interval max_resamples).
Local Abbreviation count_msd :=
  (msd_count displacements samples_freq bootstrap_multiplier).
Local Abbreviation count_mscd :=
  (mscd_count displacements samples_freq bootstrap_multiplier).
Local Abbreviation msd :=
  (msd_bootstrap delta_t displacements n_resamples samples_freq
     confidence_interval max_resamples bootstrap_multiplier progress).
Local Abbreviation mscd :=
  (mscd_bootstrap delta_t displacements indices n_resamples samples_freq
     confidence_interval max_resamples bootstrap_multiplier progress).

(** The body of the loop of [msd_bootstrap] either leaves the world as it
    is or leaves the world of the lines that build the distribution of a
    surviving interval. *)
Lemma msd_interval_world (max_obs : Z) (out : arrays) (i : nat) (w : world) :
  snd (msd_body max_obs out i w) = w \/
  exists disp n,
    getitem displacements i = Return disp /\
    count_msd max_obs i = Return n /\ 1 < n /\
    snd (msd_body max_obs out i w)
    = snd (distribution_of i (d_squared_flat disp) n w).
Proof.
  destruct (getitem displacements i) as [disp|e] eqn:Hd;
    [|left; unfold msd_interval, bind, lift; rewrite Hd; reflexivity].
  destruct (count_msd max_obs i) as [n|e] eqn:Hn.
  - destruct (Z_le_gt_dec n 1) as [Hle|Hgt].
    + left. rewrite (msd_interval_dropped delta_t displacements n_resamples
                       samples_freq confidence_interval max_resamples
                       bootstrap_multiplier max_obs out i w Hn Hle).
      reflexivity.
    + right. exists disp, n. assert (Hlt : 1 < n) by lia.
      repeat split; auto.
      rewrite (msd_interval_survivor delta_t displacements n_resamples
                 samples_freq confidence_interval max_resamples
                 bootstrap_multiplier max_obs out i w Hd Hn Hlt).
      destruct (distribution_of i (d_squared_flat disp) n w) as [[d|e] w'];
        [|reflexivity].
      destruct (getitem delta_t i); [|reflexivity].
      destruct (samples d); reflexivity.
  - left. unfold msd_count, msd_interval, bind, lift in *.
    rewrite Hd in *. simpl in Hn. rewrite Hn. reflexivity.
Qed.

Lemma mscd_interval_world (max_obs : Z) (out : arrays) (i : nat) (w : world) :
  snd (mscd_body max_obs out i w) = w \/
  exists disp data n,
    getitem displacements i = Return disp /\
    sq_chg_disp_flat disp indices = Return data /\
    count_mscd max_obs i = Return n /\ 1 < n /\
    snd (mscd_body max_obs out i w) = snd (distribution_of i data n w).
Proof.
  destruct (getitem displacements i) as [disp|e] eqn:Hd;
    [|left; unfold mscd_interval, bind, lift; rewrite Hd; reflexivity].
  destruct (sq_chg_disp_flat disp indices) as [data|e] eqn:Hdata;
    [|left; unfold mscd_interval, bind, lift; rewrite Hd, Hdata; reflexivity].
  destruct (count_mscd max_obs i) as [n|e] eqn:Hn.
  - destruct (Z_le_gt_dec n 1) as [Hle|Hgt].
    + left. rewrite (mscd_interval_dropped delta_t displacements indices
                       n_resamples samples_freq confidence_interval
                       max_resamples bootstrap_multiplier max_obs out i w
                       Hd Hdata Hn Hle).
      reflexivity.
    + right. exists disp, data, n. assert (Hlt : 1 < n) by lia.
      repeat split; auto.
      rewrite (mscd_interval_survivor delta_t displacements indices
                 n_resamples samples_freq confidence_interval max_resamples
                 bootstrap_multiplier max_obs out i w Hd Hdata Hn Hlt).
      destruct (distribution_of i data n w) as [[d|e] w']; [|reflexivity].
      destruct (getitem delta_t i); [|reflexivity].
      destruct (samples d); [reflexivity|].
      destruct indices; reflexivity.
  - left. unfold mscd_count, mscd_interval, bind, lift in *.
    rewrite Hd in *. simpl in Hn. rewrite Hdata, Hn. reflexivity.
Qed.

Lemma getitem_In (A : Type) (l : list A) (i : nat) (a : A) :
  getitem l i = Return a -> In a l.
Proof.
  unfold getitem. destruct (nth_error l i) eqn:E; [|discriminate].
  intros H. injection H as <-. eapply nth_error_In. exact E.
Qed.

(** X2.  [resample] is never asked for fewer than two values, and what it is
    given is the flattened array of one of the intervals: this holds for the
    calls of a whole run, whatever its outcome. *)
Theorem resample_is_asked_for_two_values_at_least (w : world) :
  (exists calls,
     resample_calls
       (snd (msd_bootstrap delta_t displacements n_resamples samples_freq
               confidence_interval max_resamples bootstrap_multiplier
               progress w))
     = resample_calls w ++ calls /\
     Forall (fun c => 1 < snd c /\
                      exists disp, In disp displacements /\
                                   fst c = d_squared_flat disp) calls) /\
  (exists calls,
     resample_calls
       (snd (mscd_bootstrap delta_t displacements indices n_resamples
               samples_freq confidence_interval max_resamples
               bootstrap_multiplier progress w))
     = resample_calls w ++ calls /\
     Forall (fun c => 1 < snd c /\
                      exists disp, In disp displacements /\
                                   sq_chg_disp_flat disp indices
                                   = Return (fst c)) calls).
Proof.
  split.
  - unfold msd_bootstrap, bind at 1, lift.
    destruct (getitem displacements 0) as [first|e];
      [|exists []; simpl; rewrite app_nil_r; auto].
    apply for_each_calls. intros out i w0 _.
    destruct (msd_interval_world (Z.of_nat (n_obs_of first)) out i w0)
      as [E|(disp & n & Hd & Hn & Hlt & E)]; rewrite E.
    + exists []. rewrite app_nil_r. auto.
    + destruct (resampled_distribution_world n_resamples confidence_interval
                  max_resamples i (d_squared_flat disp) n w0)
        as (k & ws & _ & Hc & _).
      exists (repeat (d_squared_flat disp, n) k). split; [exact Hc|].
      apply Forall_forall. intros c Hc'. apply repeat_spec in Hc'. subst c.
      simpl. split; [exact Hlt|]. exists disp. split; [|reflexivity].
      eapply getitem_In. exact Hd.
  - unfold mscd_bootstrap, bind at 1, lift.
    destruct (getitem displacements 0) as [first|e];
      [|exists []; simpl; rewrite app_nil_r; auto].
    apply for_each_calls. intros out i w0 _.
    destruct (mscd_interval_world (Z.of_nat (n_obs_of first)) out i w0)
      as [E|(disp & data & n & Hd & Hdata & Hn & Hlt & E)]; rewrite E.
    + exists []. rewrite app_nil_r. auto.
    + destruct (resampled_distribution_world n_resamples confidence_interval
                  max_resamples i data n w0)
        as (k & ws & _ & Hc & _).
      exists (repeat (data, n) k). split; [exact Hc|].
      apply Forall_forall. intros c Hc'. apply repeat_spec in Hc'. subst c.
      simpl. split; [exact Hlt|]. exists disp. split; [|exact Hdata].
      eapply getitem_In. exact Hd.
Qed.

Lemma msd_bootstrap_unfold (first : ndarray3) (w : world) :
  getitem displacements 0 = Return first ->
  msd_bootstrap delta_t displacements n_resamples samples_freq
    confidence_interval max_resamples bootstrap_multiplier progress w
  = for_each (msd_body (Z.of_nat (n_obs_of first)))
      (seq 0 (List.length displacements)) ([], [], []) w.
Proof.
  intros H. unfold msd_bootstrap, bind at 1, lift.
  rewrite H, iterator_range. reflexivity.
Qed.

Lemma mscd_bootstrap_unfold (first : ndarray3) (w : world) :
  getitem displacements 0 = Return first ->
  mscd_bootstrap delta_t displacements indices n_resamples samples_freq
    confidence_interval max_resamples bootstrap_multiplier progress w
  = for_each (mscd_body (Z.of_nat (n_obs_of first)))
      (seq 0 (List.length displacements)) ([], [], []) w.
Proof.
  intros H. unfold mscd_bootstrap, bind at 1, lift.
  rewrite H, iterator_range. reflexivity.
Qed.

(** An interval whose count cannot be computed raises and draws nothing. *)
Lemma msd_interval_count_raises (max_obs : Z) (out : arrays) (i : nat)
    (w : world) (e : exn) :
  count_msd max_obs i = Raise e ->
  msd_body max_obs out i w = (Raise e, w).
Proof.
  unfold msd_count, msd_interval, bind, lift.
  destruct (getitem displacements i) as [disp|e']; cbn [obind]; intros H.
  - rewrite H. reflexivity.
  - congruence.
Qed.

Lemma mscd_interval_count_raises (max_obs : Z) (out : arrays) (i : nat)
    (w : world) (e : exn) :
  count_mscd max_obs i = Raise e ->
  exists e',
    mscd_body max_obs out i w = (Raise e', w) /\
    (e' = e \/ e' = IndexError).
Proof.
  unfold mscd_count, mscd_interval, bind, lift.
  destruct (getitem displacements i) as [disp|e']; cbn [obind]; intros H.
  - destruct (sq_chg_disp_flat disp indices) as [data|e'] eqn:Hdata.
    + rewrite H. eauto.
    + apply sq_chg_disp_flat_raises in Hdata. subst e'. eauto.
  - injection H as <-. eauto.
Qed.

(** A run that returns has computed the count of every interval, dropped or
    not. *)
Lemma msd_bootstrap_counts (w : world) (out : arrays) (w' : world) :
  msd w = (Return out, w') ->
  exists max_obs,
    max_obs_of displacements = Return max_obs /\
    forall i, (i < List.length displacements)%nat ->
              returns (count_msd max_obs i).
Proof.
  unfold msd_bootstrap, max_obs_of, bind at 1, lift. intros E.
  destruct (getitem displacements 0) as [first|e]; [|discriminate].
  eexists. split; [reflexivity|]. rewrite iterator_range in E.
  destruct (for_each_records delta_t
              (count_msd (Z.of_nat (n_obs_of first)))
              (msd_body (Z.of_nat (n_obs_of first)))
              (fun o i w0 o' w0' H => msd_interval_Return _ _ _ _ _ _ _ _ _ _ _ H)
              _ _ _ E) as (rs & _ & _ & Hall).
  intros i Hi. rewrite Forall_forall in Hall. apply Hall. apply in_seq. lia.
Qed.

Lemma mscd_bootstrap_counts (w : world) (out : arrays) (w' : world) :
  mscd w = (Return out, w') ->
  exists max_obs,
    max_obs_of displacements = Return max_obs /\
    forall i, (i < List.length displacements)%nat ->
              returns (count_mscd max_obs i).
Proof.
  unfold mscd_bootstrap, max_obs_of, bind at 1, lift. intros E.
  destruct (getitem displacements 0) as [first|e]; [|discriminate].
  eexists. split; [reflexivity|]. rewrite iterator_range in E.
  destruct (for_each_records delta_t
              (count_mscd (Z.of_nat (n_obs_of first)))
              (mscd_body (Z.of_nat (n_obs_of first)))
              (fun o i w0 o' w0' H =>
                 mscd_interval_Return _ _ _ _ _ _ _ _ _ _ _ _ H)
              _ _ _ E) as (rs & _ & _ & Hall).
  intros i Hi. rewrite Forall_forall in Hall. apply Hall. apply in_seq. lia.
Qed.

(** What the body of the loop of [msd_bootstrap] has done when it
    returns. *)
Lemma msd_interval_cases (max_obs : Z) (out : arrays) (i : nat) (w : world)
    (out' : arrays) (w' : world) :
  msd_body max_obs out i w = (Return out', w') ->
  (exists n, count_msd max_obs i = Return n /\ n <= 1 /\
             out' = out /\ w' = w) \/
  (exists disp n p d t,
     getitem displacements i = Return disp /\
     count_msd max_obs i = Return n /\ 1 < n /\
     checked_ci_points (the_confidence_interval confidence_interval) = Some p /\
     distribution_of i (d_squared_flat disp) n w = (Return d, w') /\
     getitem delta_t i = Return t /\
     out' = push out (msd_record t d)).
Proof.
  intros E.
  destruct (getitem displacements i) as [disp|e] eqn:Hd.
  2:{ unfold msd_interval, bind, lift in E. rewrite Hd in E. discriminate. }
  destruct (count_msd max_obs i) as [n|e] eqn:Hn.
  2:{ rewrite (@msd_interval_count_raises max_obs out i w e Hn) in E.
      discriminate. }
  destruct (Z_le_gt_dec n 1) as [Hle|Hgt].
  - left. rewrite (msd_interval_dropped delta_t displacements n_resamples
                     samples_freq confidence_interval max_resamples
                     bootstrap_multiplier max_obs out i w Hn Hle) in E.
    injection E as <- <-. eauto.
  - right. assert (Hlt : 1 < n) by lia.
    rewrite (msd_interval_survivor delta_t displacements n_resamples
               samples_freq confidence_interval max_resamples
               bootstrap_multiplier max_obs out i w Hd Hn Hlt) in E.
    destruct (checked_ci_points (the_confidence_interval confidence_interval))
      as [p|] eqn:Hci.
    + destruct (distribution_of i (d_squared_flat disp) n w) as [[d|e] w1]
        eqn:Ed; [|discriminate].
      destruct (getitem delta_t i) as [t|e] eqn:Ht; [|discriminate].
      destruct (samples d) eqn:Hs; [discriminate|]. injection E as <- <-.
      exists disp, n, p, d, t. repeat split; auto.
    + destruct (resampled_distribution_refused n_resamples confidence_interval
                  max_resamples i (d_squared_flat disp) n w Hci)
        as (w1 & Er & _).
      rewrite Er in E. discriminate.
Qed.

Lemma mscd_interval_cases (max_obs : Z) (out : arrays) (i : nat) (w : world)
    (out' : arrays) (w' : world) :
  mscd_body max_obs out i w = (Return out', w') ->
  (exists n, count_mscd max_obs i = Return n /\ n <= 1 /\
             out' = out /\ w' = w) \/
  (exists disp ks data n p d t,
     indices = Some ks /\
     getitem displacements i = Return disp /\
     sq_chg_disp_flat disp indices = Return data /\
     count_mscd max_obs i = Return n /\ 1 < n /\
     checked_ci_points (the_confidence_interval confidence_interval) = Some p /\
     distribution_of i data n w = (Return d, w') /\
     getitem delta_t i = Return t /\
     out' = push out (mscd_record t d (List.length ks))).
Proof.
  intros E.
  destruct (getitem displacements i) as [disp|e] eqn:Hd.
  2:{ unfold mscd_interval, bind, lift in E. rewrite Hd in E. discriminate. }
  destruct (sq_chg_disp_flat disp indices) as [data|e] eqn:Hdata.
  2:{ unfold mscd_interval, bind, lift in E. rewrite Hd, Hdata in E.
      discriminate. }
  destruct (count_mscd max_obs i) as [n|e] eqn:Hn.
  2:{ destruct (@mscd_interval_count_raises max_obs out i w e Hn) as (e' & E' & _).
      rewrite E' in E. discriminate. }
  destruct (Z_le_gt_dec n 1) as [Hle|Hgt].
  - left. rewrite (mscd_interval_dropped delta_t displacements indices
                     n_resamples samples_freq confidence_interval
                     max_resamples bootstrap_multiplier max_obs out i w
                     Hd Hdata Hn Hle) in E.
    injection E as <- <-. eauto.
  - right. assert (Hlt : 1 < n) by lia.
    rewrite (mscd_interval_survivor delta_t displacements indices
               n_resamples samples_freq confidence_interval max_resamples
               bootstrap_multiplier max_obs out i w Hd Hdata Hn Hlt) in E.
    destruct (checked_ci_points (the_confidence_interval confidence_interval))
      as [p|] eqn:Hci.
    + destruct (distribution_of i data n w) as [[d|e] w1]
        eqn:Ed; [|discriminate].
      destruct (getitem delta_t i) as [t|e] eqn:Ht; [|discriminate].
      destruct (samples d) eqn:Hs; [discriminate|].
      destruct indices as [ks|] eqn:Hix; [|discriminate].
      injection E as <- <-.
      exists disp, ks, data, n, p, d, t. repeat split; auto.
    + destruct (resampled_distribution_refused n_resamples confidence_interval
                  max_resamples i data n w Hci) as (w1 & Er & _).
      rewrite Er in E. discriminate.
Qed.

(** The lines that build a distribution warn at most once, and do warn when
    the first batch alone reaches [max_resamples - n_resamples]. *)
Lemma resampled_distribution_warns (i : nat) (data : list V) (n : Z)
    (p : Q * Q) (w : world) (d : Distribution) (w' : world) :
  checked_ci_points (the_confidence_interval confidence_interval) = Some p ->
  distribution_of i data n w = (Return d, w') ->
  (warnings w' = warnings w \/
   warnings w' = warnings w ++ [max_resamples_warning]) /\
  (max_resamples - n_resamples <= Z.max 0 n_resamples ->
   warnings w' = warnings w ++ [max_resamples_warning]).
Proof.
  intros Hci Ed.
  destruct (resampled_distribution_run n_resamples confidence_interval
              max_resamples i data n w Hci)
    as (d1 & w1 & E1 & _ & _ & _ & _ & Hsz & Hw & _).
  rewrite Ed in E1. injection E1 as <- <-. rewrite Hw. unfold warned.
  destruct (Z.leb_spec (max_resamples - n_resamples) (size d)).
  - auto.
  - split; [left; apply app_nil_r|]. intros A. lia.
Qed.

Lemma msd_interval_warns (max_obs : Z) (out : arrays) (i : nat) (w : world)
    (out' : arrays) (w' : world) :
  msd_body max_obs out i w = (Return out', w') ->
  (out' = out /\ w' = w) \/
  (exists r,
     out' = push out r /\
     (warnings w' = warnings w \/
      warnings w' = warnings w ++ [max_resamples_warning]) /\
     (max_resamples - n_resamples <= Z.max 0 n_resamples ->
      warnings w' = warnings w ++ [max_resamples_warning])).
Proof.
  intros E.
  destruct (msd_interval_cases _ _ _ _ E)
    as [(n & _ & _ & -> & ->)
       |(disp & n & p & d & t & _ & _ & _ & Hci & Ed & _ & ->)];
    [left; auto|right].
  exists (msd_record t d). split; [reflexivity|].
  eapply resampled_distribution_warns; eassumption.
Qed.

Lemma mscd_interval_warns (max_obs : Z) (out : arrays) (i : nat) (w : world)
    (out' : arrays) (w' : world) :
  mscd_body max_obs out i w = (Return out', w') ->
  (out' = out /\ w' = w) \/
  (exists r,
     out' = push out r /\
     (warnings w' = warnings w \/
      warnings w' = warnings w ++ [max_resamples_warning]) /\
     (max_resamples - n_resamples <= Z.max 0 n_resamples ->
      warnings w' = warnings w ++ [max_resamples_warning])).
Proof.
  intros E.
  destruct (mscd_interval_cases _ _ _ _ E)
    as [(n & _ & _ & -> & ->)
       |(disp & ks & data & n & p & d & t & _ & _ & _ & _ & _ & Hci & Ed & _ & ->)];
    [left; auto|right].
  exists (mscd_record t d (List.length ks)). split; [reflexivity|].
  eapply resampled_distribution_warns; eassumption.
Qed.

Lemma records_and_warnings (body : arrays -> nat -> M arrays)
    (w : world) (ts ms es : list V) (w' : world) :
  (forall out i w out' w',
     body out i w = (Return out', w') ->
     (out' = out /\ w' = w) \/
     (exists r,
        out' = push out r /\
        (warnings w' = warnings w \/
         warnings w' = warnings w ++ [max_resamples_warning]) /\
        (max_resamples - n_resamples <= Z.max 0 n_resamples ->
         warnings w' = warnings w ++ [max_resamples_warning]))) ->
  for_each body (iterator displacements progress) ([], [], []) w
  = (Return (ts, ms, es), w') ->
  exists k,
    warnings w' = warnings w ++ repeat max_resamples_warning k /\
    (k <= List.length ts)%nat /\
    (max_resamples - n_resamples <= Z.max 0 n_resamples ->
     k = List.length ts).
Proof.
  intros Hbody E.
  destruct (@for_each_warnings _ body Hbody _ _ _ _ _ E) as (rs & k & Ho & Hw & Hk & Ha).
  rewrite push_all_lengths in Ho. injection Ho as -> _ _.
  exists k. simpl. rewrite length_map. auto.
Qed.

(** X3.  When a resampler returns, it has issued the warning of the resample
    budget at most once for each record of its arrays and no other warning;
    it has issued it for every record when the first batch alone reaches
    [max_resamples - n_resamples]. *)
Theorem warnings_are_no_more_than_records
    (w : world) (ts ms es : list V) (w' : world) :
  msd w = (Return (ts, ms, es), w') \/ mscd w = (Return (ts, ms, es), w') ->
  exists k,
    warnings w' = warnings w ++ repeat max_resamples_warning k /\
    (k <= List.length ts)%nat /\
    (max_resamples - n_resamples <= Z.max 0 n_resamples ->
     k = List.length ts).
Proof.
  intros [E|E].
  - unfold msd_bootstrap, bind at 1, lift in E.
    destruct (getitem displacements 0) as [first|e]; [|discriminate].
    eapply records_and_warnings; [|exact E].
    intros out i w0 out' w0'. apply msd_interval_warns.
  - unfold mscd_bootstrap, bind at 1, lift in E.
    destruct (getitem displacements 0) as [first|e]; [|discriminate].
    eapply records_and_warnings; [|exact E].
    intros out i w0 out' w0'. apply mscd_interval_warns.
Qed.

(** X4.  With percentile points the constructor of the distribution refuses,
    an interval that survives raises [ValueError] once its first batch is
    drawn, and a resampler returns only when no interval survives: its
    arrays are empty and the world is as it was. *)
Theorem refused_percentile_points_record_nothing (w : world) :
  checked_ci_points (the_confidence_interval confidence_interval) = None ->
  (forall out w',
     msd w = (Return out, w') \/ mscd w = (Return out, w') ->
     out = ([], [], []) /\ w' = w) /\
  (forall max_obs out i w0 disp n,
     getitem displacements i = Return disp ->
     count_msd max_obs i = Return n -> 1 < n ->
     exists w1,
       msd_body max_obs out i w0 = (Raise ValueError, w1) /\
       warnings w1 = warnings w0 /\
       resample_calls w1
       = resample_calls w0
         ++ repeat (d_squared_flat disp, n) (Z.to_nat n_resamples)) /\
  (forall max_obs out i w0 disp data n,
     getitem displacements i = Return disp ->
     sq_chg_disp_flat disp indices = Return data ->
     count_mscd max_obs i = Return n -> 1 < n ->
     exists w1,
       mscd_body max_obs out i w0 = (Raise ValueError, w1) /\
       warnings w1 = warnings w0 /\
       resample_calls w1
       = resample_calls w0 ++ repeat (data, n) (Z.to_nat n_resamples)).
Proof.
  intros Hci. split; [|split].
  - intros out w' [E|E].
    + unfold msd_bootstrap, bind at 1, lift in E.
      destruct (getitem displacements 0) as [first|e]; [|discriminate].
      eapply for_each_inert; [|exact E].
      intros out0 i w0 out1 w1 _ Eb.
      destruct (msd_interval_cases _ _ _ _ Eb)
        as [(n & _ & _ & -> & ->)
           |(disp & n & p & d & t & _ & _ & _ & Hp & _)]; [auto|congruence].
    + unfold mscd_bootstrap, bind at 1, lift in E.
      destruct (getitem displacements 0) as [first|e]; [|discriminate].
      eapply for_each_inert; [|exact E].
      intros out0 i w0 out1 w1 _ Eb.
      destruct (mscd_interval_cases _ _ _ _ Eb)
        as [(n & _ & _ & -> & ->)
           |(disp & ks & data & n & p & d & t & _ & _ & _ & _ & _ & Hp & _)];
        [auto|congruence].
  - intros max_obs out i w0 disp n Hd Hn Hlt.
    rewrite (msd_interval_survivor delta_t displacements n_resamples
               samples_freq confidence_interval max_resamples
               bootstrap_multiplier max_obs out i w0 Hd Hn Hlt).
    destruct (resampled_distribution_refused n_resamples confidence_interval
                max_resamples i (d_squared_flat disp) n w0 Hci)
      as (w1 & Er & Hw & Hc).
    rewrite Er. eauto.
  - intros max_obs out i w0 disp data n Hd Hdata Hn Hlt.
    rewrite (mscd_interval_survivor delta_t displacements indices n_resamples
               samples_freq confidence_interval max_resamples
               bootstrap_multiplier max_obs out i w0 Hd Hdata Hn Hlt).
    destruct (resampled_distribution_refused n_resamples confidence_interval
                max_resamples i data n w0 Hci)
      as (w1 & Er & Hw & Hc).
    rewrite Er. eauto.
Qed.

(** X5.  An interval with one observation more than the first one raises
    [ZeroDivisionError] when it is reached, nothing being drawn for it, and
    neither resampler returns. *)
Theorem interval_longer_than_the_first_raises
    (first disp : ndarray3) (i : nat) (out : arrays) (w : world) :
  getitem displacements 0 = Return first ->
  getitem displacements i = Return disp ->
  n_obs_of disp = S (n_obs_of first) ->
  msd_body (Z.of_nat (n_obs_of first)) out i w = (Raise ZeroDivisionError, w) /\
  (exists e,
     mscd_body (Z.of_nat (n_obs_of first)) out i w = (Raise e, w) /\
     (e = ZeroDivisionError \/ e = IndexError)) /\
  (forall w0, ~ returns (fst (msd w0))) /\
  (forall w0, ~ returns (fst (mscd w0))).
Proof.
  intros Hfirst Hd Hobs.
  destruct (count_of_longer_interval (Z.of_nat (n_obs_of first))
              (Z.of_nat (n_atoms_of disp)) samples_freq bootstrap_multiplier)
    as [Hmsd Hmscd].
  assert (Hn : Z.of_nat (n_obs_of disp) = Z.of_nat (n_obs_of first) + 1)
    by lia.
  assert (Hc1 : count_msd (Z.of_nat (n_obs_of first)) i
                = Raise ZeroDivisionError).
  { unfold msd_count. rewrite Hd. cbn [obind]. rewrite Hn. exact Hmsd. }
  assert (Hc2 : count_mscd (Z.of_nat (n_obs_of first)) i
                = Raise ZeroDivisionError).
  { unfold mscd_count. rewrite Hd. cbn [obind]. rewrite Hn. exact Hmscd. }
  assert (Hi : (i < List.length displacements)%nat)
    by (eapply getitem_length; exact Hd).
  split; [|split; [|split]].
  - apply (@msd_interval_count_raises _ out i w _ Hc1).
  - apply (@mscd_interval_count_raises _ out i w _ Hc2).
  - intros w0 [out' E].
    destruct (msd w0) as [r w'] eqn:Er. simpl in E. subst r.
    destruct (@msd_bootstrap_counts w0 out' w' Er)
      as (max_obs & Hmax & Hall).
    unfold max_obs_of in Hmax. rewrite Hfirst in Hmax. cbn [obind] in Hmax.
    injection Hmax as <-. destruct (Hall i Hi) as [n Hret]. congruence.
  - intros w0 [out' E].
    destruct (mscd w0) as [r w'] eqn:Er. simpl in E. subst r.
    destruct (@mscd_bootstrap_counts w0 out' w' Er)
      as (max_obs & Hmax & Hall).
    unfold max_obs_of in Hmax. rewrite Hfirst in Hmax. cbn [obind] in Hmax.
    injection Hmax as <-. destruct (Hall i Hi) as [n Hret]. congruence.
Qed.

(** X6.  Only [delta_t[i]] for the intervals [i] of [displacements] is read:
    two lists of time steps that agree there give the same run. *)
Theorem only_the_time_steps_of_the_intervals_are_read
    (delta_t' : list V) (w : world) :
  (forall i, (i < List.length displacements)%nat ->
             getitem delta_t' i = getitem delta_t i) ->
  msd_bootstrap delta_t' displacements n_resamples samples_freq
    confidence_interval max_resamples bootstrap_multiplier progress w
  = msd w /\
  mscd_bootstrap delta_t' displacements indices n_resamples samples_freq
    confidence_interval max_resamples bootstrap_multiplier progress w
  = mscd w.
Proof.
  intros Hagree. split.
  - unfold msd_bootstrap, bind, lift.
    destruct (getitem displacements 0) as [first|e]; [|reflexivity].
    rewrite !iterator_range. apply for_each_ext. intros out i w0 Hi.
    apply in_seq in Hi. unfold msd_interval.
    rewrite (Hagree i) by lia. reflexivity.
  - unfold mscd_bootstrap, bind, lift.
    destruct (getitem displacements 0) as [first|e]; [|reflexivity].
    rewrite !iterator_range. apply for_each_ext. intros out i w0 Hi.
    apply in_seq in Hi. unfold mscd_interval.
    rewrite (Hagree i) by lia. reflexivity.
Qed.

End Runs.

(** X7.  With [samples_freq=0] neither resampler returns, whatever its other
    arguments: it raises at [displacements[0]] or at the first division, and
    has drawn nothing. *)
Theorem zero_samples_freq_raises
    (delta_t : list V) (displacements : list ndarray3)
    (indices : option (list Z)) (n_resamples : Z)
    (confidence_interval : option (list Q))
    (max_resamples bootstrap_multiplier : Z) (progress : bool) (w : world) :
  (exists e,
     msd_bootstrap delta_t displacements n_resamples 0 confidence_interval
       max_resamples bootstrap_multiplier progress w = (Raise e, w) /\
     (displacements = [] -> e = IndexError) /\
     (displacements <> [] -> e = ZeroDivisionError \/ e = OverflowError)) /\
  (exists e,
     mscd_bootstrap delta_t displacements indices n_resamples 0
       confidence_interval max_resamples bootstrap_multiplier progress w
     = (Raise e, w) /\
     (e = IndexError \/ e = ZeroDivisionError \/ e = OverflowError)).
Proof.
  destruct displacements as [|first rest] eqn:Hdisp.
  - split; exists IndexError; repeat split; auto. intros H. contradiction H.
    reflexivity.
  - rewrite <- Hdisp.
    assert (Hfirst : getitem displacements 0 = Return first)
      by (rewrite Hdisp; reflexivity).
    assert (Hlen : seq 0 (List.length displacements)
                   = 0%nat :: seq 1 (List.length rest))
      by (rewrite Hdisp; reflexivity).
    split.
    + rewrite (@msd_bootstrap_unfold delta_t displacements n_resamples 0
                 confidence_interval max_resamples bootstrap_multiplier
                 progress first w Hfirst), Hlen.
      destruct (zero_frequency_count (Z.of_nat (n_obs_of first))
                  (Z.of_nat (n_obs_of first)) (Z.of_nat (n_atoms_of first))
                  bootstrap_multiplier) as [(e & He & Hor) _].
      exists e. cbn [for_each]. unfold bind at 1.
      rewrite (@msd_interval_count_raises delta_t displacements n_resamples 0
                 confidence_interval max_resamples bootstrap_multiplier
                 (Z.of_nat (n_obs_of first)) ([], [], []) 0%nat w e).
      * repeat split; auto. rewrite Hdisp. discriminate.
      * unfold msd_count. rewrite Hfirst. exact He.
    + rewrite (@mscd_bootstrap_unfold delta_t displacements indices
                 n_resamples 0 confidence_interval max_resamples
                 bootstrap_multiplier progress first w Hfirst), Hlen.
      destruct (zero_frequency_count (Z.of_nat (n_obs_of first))
                  (Z.of_nat (n_obs_of first)) 0
                  bootstrap_multiplier) as [_ (e & He & Hor)].
      destruct (@mscd_interval_count_raises delta_t displacements indices
                  n_resamples 0 confidence_interval max_resamples
                  bootstrap_multiplier (Z.of_nat (n_obs_of first))
                  ([], [], []) 0%nat w e) as (e' & E & He').
      * unfold mscd_count. rewrite Hfirst. exact He.
      * exists e'. cbn [for_each]. unfold bind at 1. rewrite E.
        split; [reflexivity|]. destruct He' as [-> | ->]; tauto.
Qed.

End ResamplerRuns.

(** ** The index array and the multiplier *)

Section IndicesAndMultiplier.

Context {C : Collaborators}.

Lemma axis_index_from_start (n : nat) (k : Z) :
  - Z.of_nat n <= k ->
  axis_index n (from_start n k) = axis_index n k.
Proof.
  intros Hk. unfold from_start, axis_index.
  destruct (Z.ltb_spec k 0);
    repeat match goal with
           | |- context [?a <=? ?b] => destruct (Z.leb_spec a b)
           | |- context [?a <? ?b] => destruct (Z.ltb_spec a b)
           end; simpl; try reflexivity; lia.
Qed.

Lemma axis_indices_from_start (n : nat) (ks : list Z) :
  Forall (fun k => - Z.of_nat n <= k) ks ->
  axis_indices n (map (from_start n) ks) = axis_indices n ks.
Proof.
  induction 1 as [|k ks Hk _ IH]; [reflexivity|].
  simpl. rewrite IH, axis_index_from_start by exact Hk. reflexivity.
Qed.

Lemma axis_index_out_of_range (n : nat) (k : Z) :
  k < - Z.of_nat n \/ Z.of_nat n <= k ->
  axis_index n k = Raise IndexError.
Proof.
  intros Hk. unfold axis_index.
  repeat match goal with
         | |- context [?a <=? ?b] => destruct (Z.leb_spec a b)
         | |- context [?a <? ?b] => destruct (Z.ltb_spec a b)
         end; simpl; try reflexivity; lia.
Qed.

Lemma axis_indices_out_of_range (n : nat) (ks : list Z) :
  Exists (fun k => k < - Z.of_nat n \/ Z.of_nat n <= k) ks ->
  axis_indices n ks = Raise IndexError.
Proof.
  induction 1 as [k ks Hk|k ks _ IH]; simpl.
  - rewrite axis_index_out_of_range by exact Hk. reflexivity.
  - rewrite IH. destruct (axis_index n k) as [a|e] eqn:Ea; [reflexivity|].
    cbn [obind]. f_equal. unfold axis_index in Ea.
    destruct ((0 <=? k) && (k <? Z.of_nat n)); [discriminate|].
    destruct ((- Z.of_nat n <=? k) && (k <? 0)); congruence.
Qed.

(** The body of the loop of [mscd_bootstrap] reads [indices] in the
    subscript and in [len(indices)] only. *)
Lemma mscd_interval_indices
    (delta_t : list V) (displacements : list ndarray3)
    (indices indices' : option (list Z)) (n_resamples samples_freq : Z)
    (confidence_interval : option (list Q))
    (max_resamples bootstrap_multiplier max_obs : Z)
    (out : arrays) (i : nat) (w : world) :
  len_indices indices = len_indices indices' ->
  (forall disp, getitem displacements i = Return disp ->
     sq_chg_disp_flat disp indices = sq_chg_disp_flat disp indices') ->
  mscd_interval delta_t displacements indices n_resamples samples_freq
    confidence_interval max_resamples bootstrap_multiplier max_obs out i w
  = mscd_interval delta_t displacements indices' n_resamples samples_freq
      confidence_interval max_resamples bootstrap_multiplier max_obs out i w.
Proof.
  intros Hlen Hsq. unfold mscd_interval. rewrite Hlen.
  destruct (getitem displacements i) as [disp|e] eqn:Hd; [|reflexivity].
  unfold bind, lift. cbv beta iota. rewrite (Hsq disp eq_refl). reflexivity.
Qed.

(** X8.  With [bootstrap_multiplier=0] every count that is computed is zero:
    a resampler that returns has recorded no interval and drawn nothing. *)
Theorem zero_multiplier_records_nothing
    (delta_t : list V) (displacements : list ndarray3)
    (indices : option (list Z)) (n_resamples samples_freq : Z)
    (confidence_interval : option (list Q)) (max_resamples : Z)
    (progress : bool) (w : world) (out : arrays) (w' : world) :
  msd_bootstrap delta_t displacements n_resamples samples_freq
    confidence_interval max_resamples 0 progress w = (Return out, w') \/
  mscd_bootstrap delta_t displacements indices n_resamples samples_freq
    confidence_interval max_resamples 0 progress w = (Return out, w') ->
  out = ([], [], []) /\ w' = w.
Proof.
  intros [E|E].
  - unfold msd_bootstrap, bind at 1, lift in E.
    destruct (getitem displacements 0) as [first|e]; [|discriminate].
    eapply for_each_inert; [|exact E].
    intros out0 i w0 out1 w1 _ Eb.
    destruct (@msd_interval_cases C delta_t displacements n_resamples
                samples_freq confidence_interval max_resamples 0
                _ _ _ _ _ _ Eb)
      as [(n & _ & _ & -> & ->)
         |(disp & n & p & d & t & Hd & Hn & Hlt & _)]; [auto|].
    unfold msd_count in Hn. rewrite Hd in Hn. cbn [obind] in Hn.
    apply zero_multiplier_count in Hn. lia.
  - unfold mscd_bootstrap, bind at 1, lift in E.
    destruct (getitem displacements 0) as [first|e]; [|discriminate].
    eapply for_each_inert; [|exact E].
    intros out0 i w0 out1 w1 _ Eb.
    destruct (@mscd_interval_cases C delta_t displacements indices n_resamples
                samples_freq confidence_interval max_resamples 0
                _ _ _ _ _ _ Eb)
      as [(n & _ & _ & -> & ->)
         |(disp & ks & data & n & p & d & t & _ & Hd & _ & Hn & Hlt & _)];
      [auto|].
    unfold mscd_count in Hn. rewrite Hd in Hn. cbn [obind] in Hn.
    apply (zero_multiplier_count _ _ 0) in Hn. lia.
Qed.

(** X9.  A negative entry of [indices] counts the particles from the end:
    when every interval has [n] particles and no entry is below [-n], the
    run of [mscd_bootstrap] is the run with each entry replaced by the index
    from the start it stands for. *)
Theorem negative_indices_count_from_the_end
    (delta_t : list V) (displacements : list ndarray3) (ks : list Z)
    (n_resamples samples_freq : Z) (confidence_interval : option (list Q))
    (max_resamples bootstrap_multiplier : Z) (progress : bool)
    (n : nat) (w : world) :
  Forall (fun disp => n_atoms_of disp = n) displacements ->
  Forall (fun k => - Z.of_nat n <= k) ks ->
  mscd_bootstrap delta_t displacements (Some (map (from_start n) ks))
    n_resamples samples_freq confidence_interval max_resamples
    bootstrap_multiplier progress w
  = mscd_bootstrap delta_t displacements (Some ks)
      n_resamples samples_freq confidence_interval max_resamples
      bootstrap_multiplier progress w.
Proof.
  intros Hatoms Hks. unfold mscd_bootstrap, bind, lift.
  destruct (getitem displacements 0) as [first|e]; [|reflexivity].
  rewrite !iterator_range. apply for_each_ext. intros out i w0 _.
  apply mscd_interval_indices.
  - simpl. rewrite length_map. reflexivity.
  - intros disp Hd. unfold sq_chg_disp_flat.
    assert (Hn : n_atoms_of disp = n).
    { rewrite Forall_forall in Hatoms. apply Hatoms.
      eapply getitem_In. exact Hd. }
    rewrite Hn, axis_indices_from_start by exact Hks. reflexivity.
Qed.

(** X10.  An entry of [indices] outside [-n, n), [n] being the number of
    particles of the first interval, makes [mscd_bootstrap] raise
    [IndexError] at the first interval, before anything is drawn. *)
Theorem index_out_of_range_raises
    (delta_t : list V) (displacements : list ndarray3) (ks : list Z)
    (n_resamples samples_freq : Z) (confidence_interval : option (list Q))
    (max_resamples bootstrap_multiplier : Z) (progress : bool)
    (first : ndarray3) (w : world) :
  getitem displacements 0 = Return first ->
  Exists (fun k => k < - Z.of_nat (n_atoms_of first) \/
                   Z.of_nat (n_atoms_of first) <= k) ks ->
  mscd_bootstrap delta_t displacements (Some ks) n_resamples samples_freq
    confidence_interval max_resamples bootstrap_multiplier progress w
  = (Raise IndexError, w).
Proof.
  intros Hfirst Hks.
  rewrite (@mscd_bootstrap_unfold C delta_t displacements (Some ks)
             n_resamples samples_freq confidence_interval max_resamples
             bootstrap_multiplier progress first w Hfirst).
  pose proof (getitem_length _ _ Hfirst) as Hlen.
  destruct (List.length displacements) as [|len]; [lia|].
  cbn [seq for_each]. unfold bind at 1.
  unfold mscd_interval, bind at 1, lift. rewrite Hfirst.
  unfold bind at 1. unfold sq_chg_disp_flat.
  rewrite axis_indices_out_of_range by exact Hks. reflexivity.
Qed.

End IndicesAndMultiplier.

(** ** When the resamplers return *)

Section ResamplersReturn.

Context {C : Collaborators}.

Lemma for_each_returns (body : arrays -> nat -> M arrays) (ixs : list nat) :
  (forall out i w, In i ixs ->
     exists out' w', body out i w = (Return out', w')) ->
  forall out w, exists out' w', for_each body ixs out w = (Return out', w').
Proof.
  induction ixs as [|i ixs IH]; intros H out w; simpl.
  - exists out, w. reflexivity.
  - destruct (H out i w (or_introl eq_refl)) as (out1 & w1 & E).
    unfold bind. rewrite E. apply IH. intros out0 j w0 Hj.
    apply H. right. exact Hj.
Qed.

(** The distribution of an interval has a sample as soon as the first batch
    has one. *)
Lemma resampled_distribution_has_samples
    (n_resamples : Z) (confidence_interval : option (list Q))
    (max_resamples : Z) (i : nat) (data : list V) (n : Z) (p : Q * Q)
    (w : world) :
  checked_ci_points (the_confidence_interval confidence_interval) = Some p ->
  0 < n_resamples ->
  exists d w',
    resampled_distribution n_resamples confidence_interval max_resamples
      i data n w = (Return d, w') /\
    samples d <> [].
Proof.
  intros Hci Hpos.
  destruct (resampled_distribution_run n_resamples confidence_interval
              max_resamples i data n w Hci)
    as (d & w' & E & _ & _ & _ & _ & Hsz & _).
  exists d, w'. split; [exact E|]. intros Hnil. unfold size in Hsz.
  rewrite Hnil in Hsz. simpl in Hsz. lia.
Qed.

Lemma for_each_visits (body : arrays -> nat -> M arrays) (ixs : list nat)
    (out : arrays) (w : world) (out' : arrays) (w' : world) :
  for_each body ixs out w = (Return out', w') ->
  forall i, In i ixs ->
    exists o1 w1 o2 w2, body o1 i w1 = (Return o2, w2).
Proof.
  revert out w. induction ixs as [|j ixs IH]; intros out w E i Hi;
    [contradiction|].
  simpl in E. unfold bind in E.
  destruct (body out j w) as [[out1|e] w1] eqn:Eb; [|discriminate].
  destruct Hi as [<-|Hi]; [eauto|]. eapply IH; eassumption.
Qed.

Lemma Forall2_In_left (A B : Type) (P : A -> B -> Prop) (l : list A)
    (l' : list B) (a : A) :
  Forall2 P l l' -> In a l -> exists b, P a b.
Proof.
  induction 1 as [|x y l l' Hxy _ IH]; intros Ha; [contradiction|].
  destruct Ha as [<-|Ha]; eauto.
Qed.

(** The body of the loop of [mscd_bootstrap] returns only when the
    subscript by [indices] does. *)
Lemma mscd_interval_subscript
    (delta_t : list V) (displacements : list ndarray3)
    (indices : option (list Z)) (n_resamples samples_freq : Z)
    (confidence_interval : option (list Q))
    (max_resamples bootstrap_multiplier max_obs : Z)
    (out : arrays) (i : nat) (w : world) (out' : arrays) (w' : world) :
  mscd_interval delta_t displacements indices n_resamples samples_freq
    confidence_interval max_resamples bootstrap_multiplier max_obs out i w
  = (Return out', w') ->
  exists disp,
    getitem displacements i = Return disp /\
    returns (sq_chg_disp_flat disp indices).
Proof.
  unfold mscd_interval, bind at 1, lift.
  destruct (getitem displacements i) as [disp|e]; [|discriminate].
  unfold bind at 1.
  destruct (sq_chg_disp_flat disp indices) as [data|e] eqn:Hdata;
    [|discriminate].
  intros _. exists disp. split; [reflexivity|]. exists data. exact Hdata.
Qed.

(** X14.  With percentile points the distribution accepts and a positive
    [n_resamples], [msd_bootstrap] returns exactly when there is a first
    interval, the count of every interval is computed and [delta_t] has an
    entry for every interval that survives; [mscd_bootstrap] with [indices]
    given returns exactly when, moreover, the subscript by [indices] is in
    range for every interval. *)
Theorem resamplers_return_exactly_when
    (delta_t : list V) (displacements : list ndarray3) (ks : list Z)
    (n_resamples samples_freq : Z) (confidence_interval : option (list Q))
    (max_resamples bootstrap_multiplier : Z) (progress : bool)
    (p : Q * Q) (w : world) :
  checked_ci_points (the_confidence_interval confidence_interval) = Some p ->
  0 < n_resamples ->
  (returns
     (fst (msd_bootstrap delta_t displacements n_resamples samples_freq
             confidence_interval max_resamples bootstrap_multiplier
             progress w)) <->
   exists max_obs,
     max_obs_of displacements = Return max_obs /\
     (forall i, (i < List.length displacements)%nat ->
        returns (msd_count displacements samples_freq bootstrap_multiplier
                   max_obs i)) /\
     (forall i,
        In i (survivors
                (msd_count displacements samples_freq bootstrap_multiplier
                   max_obs)
                (List.length displacements)) ->
        returns (getitem delta_t i))) /\
  (returns
     (fst (mscd_bootstrap delta_t displacements (Some ks) n_resamples
             samples_freq confidence_interval max_resamples
             bootstrap_multiplier progress w)) <->
   exists max_obs,
     max_obs_of displacements = Return max_obs /\
     (forall i, (i < List.length displacements)%nat ->
        returns (mscd_count displacements samples_freq bootstrap_multiplier
                   max_obs i)) /\
     (forall i,
        In i (survivors
                (mscd_count displacements samples_freq bootstrap_multiplier
                   max_obs)
                (List.length displacements)) ->
        returns (getitem delta_t i)) /\
     (forall disp, In disp displacements ->
        returns (sq_chg_disp_flat disp (Some ks)))).
Proof.
  intros Hci Hpos. split; split.
  - intros [out E].
    destruct (msd_bootstrap delta_t displacements n_resamples samples_freq
                confidence_interval max_resamples bootstrap_multiplier
                progress w) as [r w'] eqn:Er.
    simpl in E. subst r.
    destruct (@msd_bootstrap_counts C delta_t displacements n_resamples
                samples_freq confidence_interval max_resamples
                bootstrap_multiplier progress w out w' Er)
      as (max_obs & Hmax & Hall).
    destruct (msd_bootstrap_records delta_t displacements n_resamples
                samples_freq confidence_interval max_resamples
                bootstrap_multiplier progress w Er)
      as (max_obs' & Hmax' & Hrec).
    assert (max_obs' = max_obs) by congruence. subst max_obs'.
    exists max_obs. split; [exact Hmax|]. split; [exact Hall|].
    intros i Hi. destruct out as [[ts ms] es]. destruct Hrec as [Hrec _].
    destruct (@Forall2_In_left _ _ _ _ _ _ Hrec Hi) as [t Ht]. exists t. exact Ht.
  - intros (max_obs & Hmax & Hcount & Hdt). unfold max_obs_of in Hmax.
    destruct (getitem displacements 0) as [first|e] eqn:Hfirst;
      [|discriminate].
    cbn [obind] in Hmax. injection Hmax as <-.
    rewrite (@msd_bootstrap_unfold C delta_t displacements n_resamples
               samples_freq confidence_interval max_resamples
               bootstrap_multiplier progress first w Hfirst).
    match goal with
    | |- returns (fst (for_each ?b ?ixs ?o ?w0)) =>
        destruct (@for_each_returns b ixs) with (out := o) (w := w0)
          as (out' & w' & E)
    end.
    2:{ rewrite E. exists out'. reflexivity. }
    intros out i w0 Hi. apply in_seq in Hi.
    assert (Hlt : (i < List.length displacements)%nat) by lia.
    destruct (Hcount i Hlt) as [n Hn].
    destruct (getitem_lt_returns displacements Hlt) as [disp Hd].
    destruct (Z_le_gt_dec n 1) as [Hle|Hgt].
    + rewrite (msd_interval_dropped delta_t displacements n_resamples
                 samples_freq confidence_interval max_resamples
                 bootstrap_multiplier (Z.of_nat (n_obs_of first)) out i w0
                 Hn Hle).
      eauto.
    + assert (H1 : 1 < n) by lia.
      rewrite (msd_interval_survivor delta_t displacements n_resamples
                 samples_freq confidence_interval max_resamples
                 bootstrap_multiplier (Z.of_nat (n_obs_of first)) out i w0
                 Hd Hn H1).
      destruct (@resampled_distribution_has_samples n_resamples
                  confidence_interval max_resamples i
                  (d_squared_flat disp) n p w0 Hci Hpos)
        as (d & w1 & E & Hne).
      rewrite E.
      destruct (Hdt i) as [t Ht].
      { apply survivors_spec. split; [exact Hlt|]. exists n. auto. }
      rewrite Ht. destruct (samples d); [contradiction|]. eauto.
  - intros [out E].
    destruct (mscd_bootstrap delta_t displacements (Some ks) n_resamples
                samples_freq confidence_interval max_resamples
                bootstrap_multiplier progress w) as [r w'] eqn:Er.
    simpl in E. subst r.
    destruct (@mscd_bootstrap_counts C delta_t displacements (Some ks)
                n_resamples samples_freq confidence_interval max_resamples
                bootstrap_multiplier progress w out w' Er)
      as (max_obs & Hmax & Hall).
    destruct (mscd_bootstrap_records delta_t displacements (Some ks)
                n_resamples samples_freq confidence_interval max_resamples
                bootstrap_multiplier progress w Er)
      as (max_obs' & Hmax' & Hrec).
    assert (max_obs' = max_obs) by congruence. subst max_obs'.
    exists max_obs. split; [exact Hmax|]. split; [exact Hall|]. split.
    + intros i Hi. destruct out as [[ts ms] es]. destruct Hrec as [Hrec _].
      destruct (@Forall2_In_left _ _ _ _ _ _ Hrec Hi) as [t Ht]. exists t. exact Ht.
    + intros disp Hdisp. apply In_nth_error in Hdisp.
      destruct Hdisp as [i Hi].
      assert (Hlt : (i < List.length displacements)%nat)
        by (apply nth_error_Some; congruence).
      unfold max_obs_of in Hmax.
      destruct (getitem displacements 0) as [first|e] eqn:Hfirst;
        [|discriminate].
      rewrite (@mscd_bootstrap_unfold C delta_t displacements (Some ks)
                 n_resamples samples_freq confidence_interval max_resamples
                 bootstrap_multiplier progress first w Hfirst) in Er.
      destruct (for_each_visits _ _ _ _ Er i) as (o1 & w1 & o2 & w2 & Eb).
      { apply in_seq. lia. }
      destruct (mscd_interval_subscript _ _ _ _ _ _ _ _ _ _ _ _ Eb)
        as (disp' & Hd & Hret).
      unfold getitem in Hd. rewrite Hi in Hd. injection Hd as <-. exact Hret.
  - intros (max_obs & Hmax & Hcount & Hdt & Hix). unfold max_obs_of in Hmax.
    destruct (getitem displacements 0) as [first|e] eqn:Hfirst;
      [|discriminate].
    cbn [obind] in Hmax. injection Hmax as <-.
    rewrite (@mscd_bootstrap_unfold C delta_t displacements (Some ks)
               n_resamples samples_freq confidence_interval max_resamples
               bootstrap_multiplier progress first w Hfirst).
    match goal with
    | |- returns (fst (for_each ?b ?ixs ?o ?w0)) =>
        destruct (@for_each_returns b ixs) with (out := o) (w := w0)
          as (out' & w' & E)
    end.
    2:{ rewrite E. exists out'. reflexivity. }
    intros out i w0 Hi. apply in_seq in Hi.
    assert (Hlt : (i < List.length displacements)%nat) by lia.
    destruct (Hcount i Hlt) as [n Hn].
    destruct (getitem_lt_returns displacements Hlt) as [disp Hd].
    destruct (Hix disp (getitem_In _ _ Hd)) as [data Hdata].
    destruct (Z_le_gt_dec n 1) as [Hle|Hgt].
    + rewrite (mscd_interval_dropped delta_t displacements (Some ks)
                 n_resamples samples_freq confidence_interval max_resamples
                 bootstrap_multiplier (Z.of_nat (n_obs_of first)) out i w0
                 Hd Hdata Hn Hle).
      eauto.
    + assert (H1 : 1 < n) by lia.
      rewrite (mscd_interval_survivor delta_t displacements (Some ks)
                 n_resamples samples_freq confidence_interval max_resamples
                 bootstrap_multiplier (Z.of_nat (n_obs_of first)) out i w0
                 Hd Hdata Hn H1).
      destruct (@resampled_distribution_has_samples n_resamples
                  confidence_interval max_resamples i data n p w0 Hci Hpos)
        as (d & w1 & E & Hne).
      rewrite E.
      destruct (Hdt i) as [t Ht].
      { apply survivors_spec. split; [exact Hlt|]. exists n. auto. }
      rewrite Ht. destruct (samples d); [contradiction|]. eauto.
Qed.

End ResamplersReturn.

(** ** The repair, whatever the routines of linear algebra *)

Section RepairExtras.

Context {F : Factorization} {R : Repair F}.

(** What the loop returns is accepted, and is its first matrix with
    multiples of the identity added, one for each round taken. *)
Lemma repair_rounds_returns (rounds : nat) (spacing : Q) (A3 : matrix)
    (k : Z) (r : matrix) :
  repair_rounds rounds spacing A3 k = Some (Return r) ->
  check_positive_definite r = Return true /\
  exists cs,
    r = fold_left add_scaled_eye cs A3 /\
    (List.length cs <= rounds)%nat /\
    (cs = [] <-> check_positive_definite A3 = Return true).
Proof.
  revert A3 k. induction rounds as [|n IH]; intros A3 k; simpl;
    destruct (check_positive_definite A3) as [[|]|e] eqn:E; intros H;
    try discriminate.
  - injection H as <-. split; [exact E|]. exists []. simpl.
    split; [reflexivity|]. split; [lia|]. split; intros _; reflexivity.
  - injection H as <-. split; [exact E|]. exists []. simpl.
    split; [reflexivity|]. split; [lia|]. split; intros _; reflexivity.
  - destruct (IH _ _ H) as (Hr & cs & -> & Hlen & _). split; [exact Hr|].
    exists ((- min_eigenvalue A3 * inject_Z (k ^ 2) + spacing)%Q :: cs).
    simpl. split; [reflexivity|]. split; [lia|].
    split; intros; discriminate.
Qed.

(** X11.  Whatever the routines of linear algebra do, a matrix that
    [find_nearest_positive_definite] returns is one that
    [check_positive_definite] accepts. It is the argument, with no warning,
    when the argument is accepted; otherwise one warning is issued and the
    result is the clipped matrix with multiples of the identity added, none
    when the clipped matrix is accepted. More rounds give the same result. *)
Theorem returned_matrix_is_accepted
    (rounds : nat) (m r : matrix) (ws : list string) :
  find_nearest_positive_definite rounds m = Some (Return r, ws) ->
  check_positive_definite r = Return true /\
  ((check_positive_definite m = Return true /\ r = m /\ ws = []) \/
   (check_positive_definite m = Return false /\
    ws = [not_positive_definite_warning] /\
    exists cs,
      r = fold_left add_scaled_eye cs (cov_nearest_clipped m) /\
      (List.length cs <= rounds)%nat /\
      (cs = [] <->
       check_positive_definite (cov_nearest_clipped m) = Return true))) /\
  (forall extra,
     find_nearest_positive_definite (rounds + extra) m = Some (Return r, ws)).
Proof.
  unfold find_nearest_positive_definite.
  destruct (check_positive_definite m) as [[|]|e] eqn:Em; intros H;
    try discriminate.
  - injection H as <- <-. split; [exact Em|]. split; [|reflexivity].
    left. auto.
  - destruct (check_positive_definite (cov_nearest_clipped m)) as [[|]|e]
      eqn:E3; try discriminate.
    + injection H as <- <-. split; [exact E3|]. split; [|reflexivity].
      right. split; [reflexivity|]. split; [reflexivity|].
      exists []. simpl. split; [reflexivity|]. split; [lia|].
      split; intros _; reflexivity.
    + destruct (repair_rounds rounds (spacing_of_norm m)
                  (cov_nearest_clipped m) 1) as [o|] eqn:Er; [|discriminate].
      injection H as -> <-.
      destruct (repair_rounds_returns _ _ _ _ Er) as (Hr & cs & Hcs).
      split; [exact Hr|]. split.
      * right. split; [reflexivity|]. split; [reflexivity|]. exists cs.
        rewrite <- E3. exact Hcs.
      * intros extra.
        rewrite (@repair_rounds_more F R rounds extra _ _ _ _ Er). reflexivity.
Qed.

End RepairExtras.

(** ** The units of the diffusion relationship *)

Section DiffusionExtras.

Variable weighted_fit :
  list PyFloat.float -> list PyFloat.float -> list PyFloat.float ->
  ufloat * ufloat.
Variable posterior_samples :
  sampling_kwargs ->
  list PyFloat.float -> list PyFloat.float -> list PyFloat.float ->
  list PyFloat.float * list PyFloat.float.
Variable UREG : Pint.Unit -> Pint.Unit -> PyFloat.float.

(** X12.  Once the straight line is fitted, the constructor of [Diffusion]
    returns exactly when the unit of the ordinate over the unit of the
    abscissa is a length squared over a time, and raises
    [DimensionalityError] otherwise; the relationship it returns keeps the
    data and the units it was given, and [sample] keeps them too. *)
Theorem units_of_another_dimension_are_refused
    (delta_t msd msd_error : list PyFloat.float)
    (delta_t_unit msd_unit : Pint.Unit) :
  (returns (new_Diffusion weighted_fit UREG delta_t msd msd_error
              delta_t_unit msd_unit) <->
   Pint.length_exp msd_unit = Pint.length_exp delta_t_unit + 2 /\
   Pint.time_exp msd_unit = Pint.time_exp delta_t_unit - 1) /\
  (forall e,
     new_Diffusion weighted_fit UREG delta_t msd msd_error delta_t_unit
       msd_unit
     = Raise e -> e = DimensionalityError) /\
  (forall self,
     new_Diffusion weighted_fit UREG delta_t msd msd_error delta_t_unit
       msd_unit
     = Return self ->
     abscissa self = delta_t /\ ordinate self = msd /\
     ordinate_error self = msd_error /\
     abscissa_unit self = delta_t_unit /\ ordinate_unit self = msd_unit /\
     forall kwargs self',
       sample posterior_samples UREG kwargs self = Return self' ->
       abscissa self' = delta_t /\ ordinate self' = msd /\
       ordinate_error self' = msd_error /\
       abscissa_unit self' = delta_t_unit /\ ordinate_unit self' = msd_unit).
Proof.
  unfold new_Diffusion.
  destruct (weighted_fit delta_t msd msd_error) as [slope intercept].
  cbn [getitem nth_error obind]. unfold ufloat_div_int.
  rewrite div_int_six. cbn [obind].
  unfold Pint.to, Pint.conversion_factor.
  cbn [Pint.units].
  destruct (Pint.same_dimension (Pint.unit_div msd_unit delta_t_unit)
              Pint.centimeter2_per_second) eqn:Hdim;
    cbn [obind Pint.magnitude ufloat_times].
  - unfold Pint.same_dimension in Hdim. apply andb_prop in Hdim.
    destruct Hdim as [Hl Ht]. apply Z.eqb_eq in Hl, Ht. simpl in Hl, Ht.
    split; [|split].
    + split; [intros _; lia|intros _; eexists; reflexivity].
    + intros e H. discriminate.
    + intros self H. injection H as <-.
      cbn [abscissa ordinate ordinate_error abscissa_unit ordinate_unit].
      repeat (split; [reflexivity|]).
      intros kwargs self'. unfold sample, mcmc.
      cbn [abscissa ordinate ordinate_error abscissa_unit ordinate_unit].
      destruct (posterior_samples kwargs delta_t msd msd_error) as [s0 s1].
      cbn [variables getitem nth_error obind abscissa ordinate ordinate_error
           abscissa_unit ordinate_unit].
      unfold Pint.to, Pint.conversion_factor. cbn [Pint.units].
      destruct (Pint.same_dimension _ _); cbn [obind]; [|discriminate].
      cbn [Pint.magnitude]. rewrite int_mul_one. cbn [obind].
      intros H. injection H as <-.
      cbn [abscissa ordinate ordinate_error abscissa_unit ordinate_unit].
      repeat split; reflexivity.
  - split; [|split].
    + split; [intros [self H]; discriminate|].
      intros [Hl Ht]. unfold Pint.same_dimension in Hdim. simpl in Hdim.
      apply andb_false_iff in Hdim. rewrite !Z.eqb_neq in Hdim. lia.
    + intros e H. injection H as <-. reflexivity.
    + intros self H. discriminate.
Qed.

End DiffusionExtras.

(** ** Flattening *)

Section FlattenList.

Variable A : Type.

Lemma flatten_list_cons (sublist : list A) (this_list : list (list A)) :
  _flatten_list (sublist :: this_list) = sublist ++ _flatten_list this_list.
Proof. unfold _flatten_list. simpl. rewrite map_id. reflexivity. Qed.

(** X13.  [_flatten_list] loses nothing, adds nothing and keeps the order:
    its length is the sum of the lengths of the sublists, item [j] of
    sublist [i] is found behind all the items of the sublists before [i],
    its items are the items of the sublists, and flattening two lists put
    end to end gives the two flattened lists put end to end. *)
Theorem flatten_list_keeps_every_item_in_order
    (this_list : list (list A)) :
  List.length (_flatten_list this_list)
  = list_sum (map (@List.length A) this_list) /\
  (forall i j sublist item,
     nth_error this_list i = Some sublist ->
     nth_error sublist j = Some item ->
     nth_error (_flatten_list this_list)
       (List.length (_flatten_list (firstn i this_list)) + j)
     = Some item) /\
  (forall item,
     In item (_flatten_list this_list) <->
     exists sublist, In sublist this_list /\ In item sublist) /\
  (forall more,
     _flatten_list (this_list ++ more)
     = _flatten_list this_list ++ _flatten_list more).
Proof.
  split; [|split; [|split]].
  - induction this_list as [|s l IH]; [reflexivity|].
    rewrite flatten_list_cons, length_app, IH. reflexivity.
  - induction this_list as [|s l IH]; intros i j sublist item Hi Hj.
    + destruct i; discriminate.
    + destruct i as [|i]; simpl in Hi.
      * injection Hi as ->. cbn [firstn].
        change (_flatten_list (@nil (list A))) with (@nil A).
        cbn [List.length Nat.add]. rewrite flatten_list_cons.
        rewrite nth_error_app1; [exact Hj|].
        apply nth_error_Some. congruence.
      * cbn [firstn]. rewrite !flatten_list_cons, length_app, <- Nat.add_assoc.
        rewrite nth_error_app2 by lia.
        replace (List.length s
                 + (List.length (_flatten_list (firstn i l)) + j)
                 - List.length s)%nat
          with (List.length (_flatten_list (firstn i l)) + j)%nat by lia.
        eapply IH; eassumption.
  - intros item. unfold _flatten_list. rewrite in_flat_map.
    split; intros (s & Hs & Hi); exists s; split; auto.
    + rewrite map_id in Hi. exact Hi.
    + rewrite map_id. exact Hi.
  - intros more. unfold _flatten_list. apply flat_map_app.
Qed.

End FlattenList.

(** ** The further properties on the small trajectory *)

Lemma distribution_is_first_batch_and_whole_batches_witness :
  checked_ci_points (the_confidence_interval None) = Some (5 # 2, 195 # 2)%Q /\
  exists first w1 d w' (k : nat) extra,
    resample_means 1 (d_squared_flat (Scenario.first_interval false)) 12
      (Scenario.start false) = (Return first, w1) /\
    List.length first = Z.to_nat 1 /\
    Scenario.small_budget_distribution false = (Return d, w') /\
    samples d = first ++ extra /\
    List.length extra = (100 * k)%nat /\
    (check_normality first = true \/
     10 - 1 <= Z.of_nat (List.length first) <-> k = 0%nat).
Proof.
  split; [reflexivity|].
  exact (@distribution_is_first_batch_and_whole_batches
           (Scenario.collaborators false) 1 None 10 0%nat
           (d_squared_flat (Scenario.first_interval false)) 12
           (5 # 2, 195 # 2)%Q (Scenario.start false) eq_refl).
Defined.

Lemma warnings_are_no_more_than_records_witness :
  Scenario.msd_run true = (Return Scenario.msd_out, Scenario.msd_world) /\
  exists k,
    warnings Scenario.msd_world
    = warnings (Scenario.start true) ++ repeat max_resamples_warning k /\
    (k <= List.length (fst (fst Scenario.msd_out)))%nat /\
    (5 - 3 <= Z.max 0 3 -> k = List.length (fst (fst Scenario.msd_out))).
Proof.
  split; [exact msd_run_returns|].
  exact (@warnings_are_no_more_than_records
           (Scenario.collaborators true) Scenario.delta_t
           (Scenario.displacements true) None 3 3 None 5 1 true
           (Scenario.start true)
           (fst (fst Scenario.msd_out)) (snd (fst Scenario.msd_out))
           (snd Scenario.msd_out) Scenario.msd_world
           (or_introl msd_run_returns)).
Defined.

Lemma refused_percentile_points_record_nothing_witness :
  checked_ci_points (the_confidence_interval (Some [5; 95; 102]%Q)) = None /\
  exists w1,
    msd_interval (C := Scenario.collaborators true) Scenario.delta_t
      (Scenario.displacements true) 3 3 (Some [5; 95; 102]%Q) 5 1 3
      ([], [], []) 0 (Scenario.start true)
    = (Raise ValueError, w1) /\
    warnings w1 = warnings (Scenario.start true) /\
    resample_calls w1
    = resample_calls (Scenario.start true)
      ++ repeat (d_squared_flat (Scenario.first_interval true), 4)
           (Z.to_nat 3).
Proof.
  split; [reflexivity|].
  exact (proj1 (proj2 (@refused_percentile_points_record_nothing
                         (Scenario.collaborators true) Scenario.delta_t
                         (Scenario.displacements true) None 3 3
                         (Some [5; 95; 102]%Q) 5 1 true (Scenario.start true)
                         eq_refl))
           3 ([], [], []) 0%nat (Scenario.start true)
           (Scenario.first_interval true) 4 eq_refl eq_refl eq_refl).
Defined.

Lemma interval_longer_than_the_first_raises_witness :
  getitem (rev (Scenario.displacements true)) 0
  = Return (nth 2 (Scenario.displacements true) (Scenario.first_interval true)) /\
  getitem (rev (Scenario.displacements true)) 1
  = Return (nth 1 (Scenario.displacements true) (Scenario.first_interval true)) /\
  msd_interval (C := Scenario.collaborators true) Scenario.delta_t
    (rev (Scenario.displacements true)) 3 3 None 5 1 1 ([], [], []) 1
    (Scenario.start true)
  = (Raise ZeroDivisionError, Scenario.start true) /\
  ~ returns
      (fst (msd_bootstrap (C := Scenario.collaborators true) Scenario.delta_t
              (rev (Scenario.displacements true)) 3 3 None 5 1 true
              (Scenario.start true))).
Proof.
  split; [reflexivity|]. split; [reflexivity|].
  pose proof (@interval_longer_than_the_first_raises
                (Scenario.collaborators true) Scenario.delta_t
                (rev (Scenario.displacements true)) None 3 3 None 5 1 true
                (nth 2 (Scenario.displacements true)
                   (Scenario.first_interval true))
                (nth 1 (Scenario.displacements true)
                   (Scenario.first_interval true))
                1%nat ([], [], []) (Scenario.start true)
                eq_refl eq_refl eq_refl) as (Hbody & _ & Hrun & _).
  split; [exact Hbody|exact (Hrun (Scenario.start true))].
Defined.

Lemma only_the_time_steps_of_the_intervals_are_read_witness :
  (forall i, (i < List.length (Scenario.displacements true))%nat ->
     getitem (A := @V (Scenario.collaborators true)) [1; 2; 3; 4]%Q i
     = getitem Scenario.delta_t i) /\
  msd_bootstrap (C := Scenario.collaborators true) [1; 2; 3; 4]%Q
    (Scenario.displacements true) 3 3 None 5 1 true (Scenario.start true)
  = Scenario.msd_run true.
Proof.
  assert (H : forall i, (i < List.length (Scenario.displacements true))%nat ->
                getitem (A := @V (Scenario.collaborators true)) [1; 2; 3; 4]%Q i
                = getitem Scenario.delta_t i).
  { intros [|[|[|i]]] Hi; try reflexivity.
    exfalso. revert Hi. cbn [Scenario.displacements List.length]. lia. }
  split; [exact H|].
  exact (proj1 (@only_the_time_steps_of_the_intervals_are_read
                  (Scenario.collaborators true) Scenario.delta_t
                  (Scenario.displacements true) None 3 3 None 5 1 true
                  [1; 2; 3; 4]%Q (Scenario.start true) H)).
Defined.

Lemma zero_multiplier_records_nothing_witness :
  msd_bootstrap (C := Scenario.collaborators true) Scenario.delta_t
    (Scenario.displacements true) 3 3 None 5 0 true (Scenario.start true)
  = (Return ([], [], []), Scenario.start true) /\
  (([], [], []) : @arrays (Scenario.collaborators true)) = ([], [], []) /\
  Scenario.start true = Scenario.start true.
Proof.
  assert (E : msd_bootstrap (C := Scenario.collaborators true)
                Scenario.delta_t (Scenario.displacements true) 3 3 None 5 0
                true (Scenario.start true)
              = (Return ([], [], []), Scenario.start true)) by reflexivity.
  split; [exact E|].
  exact (@zero_multiplier_records_nothing
           (Scenario.collaborators true) Scenario.delta_t
           (Scenario.displacements true) None 3 3 None 5 true
           (Scenario.start true) ([], [], []) (Scenario.start true)
           (or_introl E)).
Defined.

Lemma negative_indices_count_from_the_end_witness :
  Forall (fun disp => n_atoms_of disp = 4%nat) (Scenario.displacements true) /\
  Forall (fun k => - Z.of_nat 4 <= k) [-1; 0; -4] /\
  map (from_start 4) [-1; 0; -4] = [3; 0; 0] /\
  Scenario.mscd_run true (Some (map (from_start 4) [-1; 0; -4]))
  = Scenario.mscd_run true (Some [-1; 0; -4]).
Proof.
  assert (Ha : Forall (fun disp => n_atoms_of disp = 4%nat)
                 (Scenario.displacements true))
    by (repeat (apply Forall_cons; [reflexivity|]); apply Forall_nil).
  assert (Hk : Forall (fun k => - Z.of_nat 4 <= k) [-1; 0; -4])
    by (repeat (apply Forall_cons; [lia|]); apply Forall_nil).
  split; [exact Ha|]. split; [exact Hk|]. split; [reflexivity|].
  exact (@negative_indices_count_from_the_end
           (Scenario.collaborators true) Scenario.delta_t
           (Scenario.displacements true) [-1; 0; -4] 3 1 None 5 1 true
           4%nat (Scenario.start true) Ha Hk).
Defined.

Lemma index_out_of_range_raises_witness :
  getitem (Scenario.displacements true) 0
  = Return (Scenario.first_interval true) /\
  Exists (fun k => k < - Z.of_nat (n_atoms_of (Scenario.first_interval true)) \/
                   Z.of_nat (n_atoms_of (Scenario.first_interval true)) <= k)
    [0; 4] /\
  Scenario.mscd_run true (Some [0; 4])
  = (Raise IndexError, Scenario.start true).
Proof.
  assert (Hk : Exists
                 (fun k =>
                    k < - Z.of_nat (n_atoms_of (Scenario.first_interval true)) \/
                    Z.of_nat (n_atoms_of (Scenario.first_interval true)) <= k)
                 [0; 4]).
  { apply Exists_cons_tl. apply Exists_cons_hd. right.
    change (n_atoms_of (Scenario.first_interval true)) with 4%nat. lia. }
  split; [reflexivity|]. split; [exact Hk|].
  exact (@index_out_of_range_raises
           (Scenario.collaborators true) Scenario.delta_t
           (Scenario.displacements true) [0; 4] 3 1 None 5 1 true
           (Scenario.first_interval true) (Scenario.start true) eq_refl Hk).
Defined.

Section DiagonalExtras.

Import Diagonal.
Local Open Scope Q_scope.

Lemma returned_matrix_is_accepted_witness :
  find_nearest_positive_definite 1 [1; -1]
  = Some (Return [2 + least_spacing; least_spacing],
          [not_positive_definite_warning]) /\
  check_positive_definite [2 + least_spacing; least_spacing] = Return true.
Proof.
  assert (E : find_nearest_positive_definite 1 [1; -1]
              = Some (Return [2 + least_spacing; least_spacing],
                      [not_positive_definite_warning])) by reflexivity.
  split; [exact E|].
  exact (proj1 (@returned_matrix_is_accepted
                  Diagonal.factorization Diagonal.repair 1%nat [1; -1]
                  [2 + least_spacing; least_spacing]
                  [not_positive_definite_warning] E)).
Defined.

End DiagonalExtras.

Lemma units_of_another_dimension_are_refused_witness :
  returns
    (new_Diffusion FittedLine.weighted_fit FittedLine.UREG
       FittedLine.delta_t FittedLine.msd FittedLine.msd_error
       default_delta_t_unit default_msd_unit) /\
  ~ returns
      (new_Diffusion FittedLine.weighted_fit FittedLine.UREG
         FittedLine.delta_t FittedLine.msd FittedLine.msd_error
         default_delta_t_unit Pint.angstrom).
Proof.
  split.
  - apply (proj1 (@units_of_another_dimension_are_refused
                    FittedLine.weighted_fit FittedLine.posterior_samples
                    FittedLine.UREG
                    FittedLine.delta_t FittedLine.msd FittedLine.msd_error
                    default_delta_t_unit default_msd_unit)).
    split; reflexivity.
  - intros H.
    apply (proj1 (@units_of_another_dimension_are_refused
                    FittedLine.weighted_fit FittedLine.posterior_samples
                    FittedLine.UREG
                    FittedLine.delta_t FittedLine.msd FittedLine.msd_error
                    default_delta_t_unit Pint.angstrom)) in H.
    destruct H as [H _]. discriminate H.
Defined.

Lemma resamplers_return_exactly_when_witness :
  checked_ci_points (the_confidence_interval None) = Some (5 # 2, 195 # 2)%Q /\
  0 < 3 /\
  returns (fst (Scenario.msd_run true)).
Proof.
  split; [reflexivity|]. split; [reflexivity|].
  apply (proj1 (@resamplers_return_exactly_when
                  (Scenario.collaborators true) Scenario.delta_t
                  (Scenario.displacements true) [] 3 3 None 5 1 true
                  (5 # 2, 195 # 2)%Q (Scenario.start true)
                  eq_refl eq_refl)).
  exists 3. split; [reflexivity|]. split.
  - intros [|[|[|i]]] Hi.
    + exists 4. reflexivity.
    + exists 2. reflexivity.
    + exists 1. reflexivity.
    + exfalso. revert Hi. cbn [Scenario.displacements List.length]. lia.
  - intros i Hi. apply filter_In in Hi. destruct Hi as [Hi _].
    apply in_seq in Hi.
    destruct i as [|[|[|i]]].
    + exists 1%Q. reflexivity.
    + exists 2%Q. reflexivity.
    + exists 3%Q. reflexivity.
    + exfalso. revert Hi. cbn [Scenario.displacements List.length]. lia.
Defined.

(** ** What a whole run goes through *)

Section RunsThrough.

Context {C : Collaborators}.

Lemma push_all_app (out : arrays) (rs rs' : list (V * V * V)) :
  push_all out (rs ++ rs') = push_all (push_all out rs) rs'.
Proof. unfold push_all. apply fold_left_app. Qed.

(** A distribution is built only with percentile points the constructor
    accepts, and then the draws are as many as its samples. *)
Lemma resampled_distribution_Return
    (n_resamples : Z) (confidence_interval : option (list Q))
    (max_resamples : Z) (i : nat) (data : list V) (n : Z) (w : world)
    (d : Distribution) (w' : world) :
  resampled_distribution n_resamples confidence_interval max_resamples
    i data n w = (Return d, w') ->
  checked_ci_points (the_confidence_interval confidence_interval)
  = Some (ci_points d) /\
  name d = delta_t_name i /\
  (Z.to_nat n_resamples <= Z.to_nat (size d))%nat /\
  warnings w' = warnings w ++ warned (max_resamples - n_resamples) d /\
  resample_calls w'
  = resample_calls w ++ repeat (data, n) (Z.to_nat (size d)).
Proof.
  intros E.
  destruct (checked_ci_points (the_confidence_interval confidence_interval))
    as [p|] eqn:Hci.
  - destruct (resampled_distribution_run n_resamples confidence_interval
                max_resamples i data n w Hci)
      as (d1 & w1 & E1 & _ & _ & Hname & Hp & Hsz & Hw & Hc).
    rewrite E in E1. injection E1 as <- <-.
    repeat split; auto; [congruence|lia].
  - destruct (resampled_distribution_refused n_resamples confidence_interval
                max_resamples i data n w Hci) as (w1 & Er & _).
    rewrite Er in E. discriminate.
Qed.

Section Runs.

Variable delta_t : list V.
Variable displacements : list ndarray3.
Variable n_resamples : Z.
Variable samples_freq : Z.
Variable confidence_interval : option (list Q).
Variable max_resamples : Z.
Variable bootstrap_multiplier : Z.

Local Abbreviation through :=
  (run_through delta_t n_resamples confidence_interval max_resamples).

(** What a run has gone through, from what its body does. *)
Lemma for_each_run_through (data : nat -> outcome (list V))
    (count : nat -> outcome Z) (record : survivor -> V * V * V)
    (body : arrays -> nat -> M arrays) :
  (forall out i w out' w',
     body out i w = (Return out', w') ->
     (exists xs n,
        data i = Return xs /\ count i = Return n /\ n <= 1 /\
        out' = out /\ w' = w) \/
     (exists xs n d t,
        data i = Return xs /\ count i = Return n /\ 1 < n /\
        resampled_distribution n_resamples confidence_interval max_resamples
          i xs n w = (Return d, w') /\
        getitem delta_t i = Return t /\
        samples d <> [] /\
        out' = push out (record {| interval := i; time_step := t;
                                   resampled := xs; n_samples_of := n;
                                   distro := d |}))) ->
  forall ixs out w out' w',
    for_each body ixs out w = (Return out', w') ->
    exists ss,
      through data count ixs w ss w' /\
      out' = push_all out (map record ss).
Proof.
  intros Hbody. induction ixs as [|i ixs IH]; intros out w out' w' E;
    simpl in E.
  - unfold ret in E. injection E as <- <-. exists []. split;
      [constructor|reflexivity].
  - unfold bind in E. destruct (body out i w) as [[out1|e] w1] eqn:Eb;
      [|discriminate].
    destruct (IH _ _ _ _ E) as (ss & Hrun & Hout).
    destruct (Hbody _ _ _ _ _ Eb)
      as [(xs & n & Hx & Hn & Hle & -> & ->)
         |(xs & n & d & t & Hx & Hn & Hlt & Ed & Ht & Hne & ->)].
    + exists ss. split; [|exact Hout].
      eapply run_dropped; eassumption.
    + eexists. split.
      * eapply run_survivor; eassumption.
      * exact Hout.
Qed.

(** The intervals recorded are the ones whose count is above one. *)
Lemma run_through_survivors (data : nat -> outcome (list V))
    (count : nat -> outcome Z) (ixs : list nat) (w : world)
    (ss : list survivor) (w' : world) :
  through data count ixs w ss w' ->
  map (@interval C) ss = filter (survives count) ixs.
Proof.
  induction 1 as [w|i ixs w xs n ss w' Hx Hn Hle _ IH
                 |i ixs w xs n d w1 t ss w' Hx Hn Hlt Ed Ht Hne _ IH];
    simpl; [reflexivity| |].
  - unfold survives. rewrite Hn.
    replace (1 <? n) with false by (symmetry; apply Z.ltb_ge; exact Hle).
    exact IH.
  - unfold survives. rewrite Hn.
    replace (1 <? n) with true by (symmetry; apply Z.ltb_lt; exact Hlt).
    simpl. rewrite IH. reflexivity.
Qed.

(** What is known of every interval recorded. *)
Lemma run_through_each (data : nat -> outcome (list V))
    (count : nat -> outcome Z) (ixs : list nat) (w : world)
    (ss : list survivor) (w' : world) :
  through data count ixs w ss w' ->
  Forall (fun s =>
            data (interval s) = Return (resampled s) /\
            count (interval s) = Return (n_samples_of s) /\
            1 < n_samples_of s /\
            getitem delta_t (interval s) = Return (time_step s) /\
            checked_ci_points (the_confidence_interval confidence_interval)
            = Some (ci_points (distro s)) /\
            name (distro s) = delta_t_name (interval s) /\
            samples (distro s) <> [] /\
            (Z.to_nat n_resamples <= Z.to_nat (size (distro s)))%nat) ss.
Proof.
  induction 1 as [w|i ixs w xs n ss w' Hx Hn Hle _ IH
                 |i ixs w xs n d w1 t ss w' Hx Hn Hlt Ed Ht Hne _ IH];
    [constructor|exact IH|].
  constructor; [|exact IH]. simpl.
  destruct (resampled_distribution_Return _ _ _ _ _ _ _ Ed)
    as (Hci & Hname & Hsz & _).
  repeat split; auto.
Qed.

(** The draws and the warnings of a run that goes through. *)
Lemma run_through_world (data : nat -> outcome (list V))
    (count : nat -> outcome Z) (ixs : list nat) (w : world)
    (ss : list survivor) (w' : world) :
  through data count ixs w ss w' ->
  resample_calls w' = resample_calls w ++ draws_of ss /\
  warnings w'
  = warnings w
    ++ flat_map (fun s => warned (max_resamples - n_resamples) (distro s)) ss.
Proof.
  induction 1 as [w|i ixs w xs n ss w' Hx Hn Hle _ IH
                 |i ixs w xs n d w1 t ss w' Hx Hn Hlt Ed Ht Hne _ IH].
  - simpl. rewrite !app_nil_r. auto.
  - exact IH.
  - destruct (resampled_distribution_Return _ _ _ _ _ _ _ Ed)
      as (_ & _ & _ & Hw & Hc).
    destruct IH as [IHc IHw]. unfold draws_of in *. simpl.
    rewrite IHc, IHw, Hc, Hw, <- !app_assoc. auto.
Qed.

(** A run that goes through has found the array and the count of every
    interval. *)
Lemma run_through_counts (data : nat -> outcome (list V))
    (count : nat -> outcome Z) (ixs : list nat) (w : world)
    (ss : list survivor) (w' : world) :
  through data count ixs w ss w' ->
  forall i, In i ixs ->
    exists xs n, data i = Return xs /\ count i = Return n.
Proof.
  induction 1 as [w|i ixs w xs n ss w' Hx Hn Hle _ IH
                 |i ixs w xs n d w1 t ss w' Hx Hn Hlt Ed Ht Hne _ IH];
    intros j Hj; [contradiction| |];
    (destruct Hj as [<-|Hj]; [eauto|exact (IH j Hj)]).
Qed.

End Runs.

End RunsThrough.

Section RecordsAndCounts.

Context {C : Collaborators}.

Variable delta_t : list V.
Variable displacements : list ndarray3.
Variable n_resamples : Z.
Variable samples_freq : Z.
Variable confidence_interval : option (list Q).
Variable max_resamples : Z.
Variable bootstrap_multiplier : Z.
Variable progress : bool.

Local Abbreviation through :=
  (run_through delta_t n_resamples confidence_interval max_resamples).
Local Abbreviation count_msd :=
  (msd_count displacements samples_freq bootstrap_multiplier).
Local Abbreviation count_mscd :=
  (mscd_count displacements samples_freq bootstrap_multiplier).

(** The count of the code is the count of the specification. *)
Lemma msd_count_specified (max_obs : Z) (i : nat) (disp : ndarray3) :
  getitem displacements i = Return disp ->
  count_msd max_obs i
  = independent_sample_count max_obs (Z.of_nat (n_obs_of disp))
      (Some (Z.of_nat (n_atoms_of disp))) samples_freq bootstrap_multiplier.
Proof. intros Hd. unfold msd_count. rewrite Hd. reflexivity. Qed.

Lemma mscd_count_specified (max_obs : Z) (i : nat) (disp : ndarray3) :
  getitem displacements i = Return disp ->
  count_mscd max_obs i
  = independent_sample_count max_obs (Z.of_nat (n_obs_of disp))
      None samples_freq bootstrap_multiplier.
Proof.
  intros Hd. unfold mscd_count. rewrite Hd. cbn [obind].
  unfold n_samples_mscd, independent_sample_count, dt_int.
  destruct (PyFloat.int_truediv _ _); reflexivity.
Qed.

Lemma msd_interval_visit (max_obs : Z) (out : arrays) (i : nat) (w : world)
    (out' : arrays) (w' : world) :
  msd_interval delta_t displacements n_resamples samples_freq
    confidence_interval max_resamples bootstrap_multiplier max_obs out i w
  = (Return out', w') ->
  (exists xs n,
     msd_data displacements i = Return xs /\
     count_msd max_obs i = Return n /\ n <= 1 /\
     out' = out /\ w' = w) \/
  (exists xs n d t,
     msd_data displacements i = Return xs /\
     count_msd max_obs i = Return n /\ 1 < n /\
     resampled_distribution n_resamples confidence_interval max_resamples
       i xs n w = (Return d, w') /\
     getitem delta_t i = Return t /\
     samples d <> [] /\
     out' = push out (msd_record_of {| interval := i; time_step := t;
                                       resampled := xs; n_samples_of := n;
                                       distro := d |})).
Proof.
  intros E.
  destruct (getitem displacements i) as [disp|e] eqn:Hd.
  2:{ unfold msd_interval, bind, lift in E. rewrite Hd in E. discriminate. }
  assert (Hx : msd_data displacements i = Return (d_squared_flat disp))
    by (unfold msd_data; rewrite Hd; reflexivity).
  destruct (count_msd max_obs i) as [n|e] eqn:Hn.
  2:{ rewrite (@msd_interval_count_raises C delta_t displacements n_resamples
                 samples_freq confidence_interval max_resamples
                 bootstrap_multiplier max_obs out i w e Hn) in E.
      discriminate. }
  destruct (Z_le_gt_dec n 1) as [Hle|Hgt].
  - left. rewrite (msd_interval_dropped delta_t displacements n_resamples
                     samples_freq confidence_interval max_resamples
                     bootstrap_multiplier max_obs out i w Hn Hle) in E.
    injection E as <- <-. exists (d_squared_flat disp), n. auto.
  - right. assert (Hlt : 1 < n) by lia.
    rewrite (msd_interval_survivor delta_t displacements n_resamples
               samples_freq confidence_interval max_resamples
               bootstrap_multiplier max_obs out i w Hd Hn Hlt) in E.
    destruct (resampled_distribution n_resamples confidence_interval
                max_resamples i (d_squared_flat disp) n w) as [[d|e] w1]
      eqn:Ed; [|discriminate].
    destruct (getitem delta_t i) as [t|e] eqn:Ht; [|discriminate].
    destruct (samples d) as [|x xs] eqn:Hs; [discriminate|].
    injection E as <- <-.
    exists (d_squared_flat disp), n, d, t.
    repeat split; auto. rewrite Hs. discriminate.
Qed.

Lemma mscd_interval_visit (ks : list Z) (max_obs : Z) (out : arrays)
    (i : nat) (w : world) (out' : arrays) (w' : world) :
  mscd_interval delta_t displacements (Some ks) n_resamples samples_freq
    confidence_interval max_resamples bootstrap_multiplier max_obs out i w
  = (Return out', w') ->
  (exists xs n,
     mscd_data displacements (Some ks) i = Return xs /\
     count_mscd max_obs i = Return n /\ n <= 1 /\
     out' = out /\ w' = w) \/
  (exists xs n d t,
     mscd_data displacements (Some ks) i = Return xs /\
     count_mscd max_obs i = Return n /\ 1 < n /\
     resampled_distribution n_resamples confidence_interval max_resamples
       i xs n w = (Return d, w') /\
     getitem delta_t i = Return t /\
     samples d <> [] /\
     out' = push out (mscd_record_of (List.length ks)
                        {| interval := i; time_step := t;
                           resampled := xs; n_samples_of := n;
                           distro := d |})).
Proof.
  intros E.
  destruct (getitem displacements i) as [disp|e] eqn:Hd.
  2:{ unfold mscd_interval, bind, lift in E. rewrite Hd in E. discriminate. }
  destruct (sq_chg_disp_flat disp (Some ks)) as [data|e] eqn:Hdata.
  2:{ unfold mscd_interval, bind, lift in E. rewrite Hd, Hdata in E.
      discriminate. }
  assert (Hx : mscd_data displacements (Some ks) i = Return data)
    by (unfold mscd_data; rewrite Hd; exact Hdata).
  destruct (count_mscd max_obs i) as [n|e] eqn:Hn.
  2:{ destruct (@mscd_interval_count_raises C delta_t displacements (Some ks)
                  n_resamples samples_freq confidence_interval max_resamples
                  bootstrap_multiplier max_obs out i w e Hn) as (e' & E' & _).
      rewrite E' in E. discriminate. }
  destruct (Z_le_gt_dec n 1) as [Hle|Hgt].
  - left. rewrite (mscd_interval_dropped delta_t displacements (Some ks)
                     n_resamples samples_freq confidence_interval
                     max_resamples bootstrap_multiplier max_obs out i w
                     Hd Hdata Hn Hle) in E.
    injection E as <- <-. exists data, n. auto.
  - right. assert (Hlt : 1 < n) by lia.
    rewrite (mscd_interval_survivor delta_t displacements (Some ks)
               n_resamples samples_freq confidence_interval max_resamples
               bootstrap_multiplier max_obs out i w Hd Hdata Hn Hlt) in E.
    destruct (resampled_distribution n_resamples confidence_interval
                max_resamples i data n w) as [[d|e] w1]
      eqn:Ed; [|discriminate].
    destruct (getitem delta_t i) as [t|e] eqn:Ht; [|discriminate].
    destruct (samples d) as [|x xs] eqn:Hs; [discriminate|].
    injection E as <- <-.
    exists data, n, d, t.
    repeat split; auto. rewrite Hs. discriminate.
Qed.

(** What a run of [msd_bootstrap] that returns has gone through. *)
Lemma msd_bootstrap_run_through (w : world) (out : arrays) (w' : world) :
  msd_bootstrap delta_t displacements n_resamples samples_freq
    confidence_interval max_resamples bootstrap_multiplier progress w
  = (Return out, w') ->
  exists first ss,
    getitem displacements 0 = Return first /\
    through (msd_data displacements) (count_msd (Z.of_nat (n_obs_of first)))
      (seq 0 (List.length displacements)) w ss w' /\
    out = push_all ([], [], []) (map msd_record_of ss).
Proof.
  unfold msd_bootstrap, bind at 1, lift. intros E.
  destruct (getitem displacements 0) as [first|e]; [|discriminate].
  rewrite iterator_range in E.
  destruct (@for_each_run_through C delta_t n_resamples confidence_interval
              max_resamples (msd_data displacements)
              (count_msd (Z.of_nat (n_obs_of first))) msd_record_of _
              (msd_interval_visit (Z.of_nat (n_obs_of first))) _ _ _ _ _ E)
    as (ss & Hrun & Hout).
  exists first, ss. auto.
Qed.

Lemma mscd_bootstrap_run_through (ks : list Z) (w : world) (out : arrays)
    (w' : world) :
  mscd_bootstrap delta_t displacements (Some ks) n_resamples samples_freq
    confidence_interval max_resamples bootstrap_multiplier progress w
  = (Return out, w') ->
  exists first ss,
    getitem displacements 0 = Return first /\
    through (mscd_data displacements (Some ks))
      (count_mscd (Z.of_nat (n_obs_of first)))
      (seq 0 (List.length displacements)) w ss w' /\
    out = push_all ([], [], []) (map (mscd_record_of (List.length ks)) ss).
Proof.
  unfold mscd_bootstrap, bind at 1, lift. intros E.
  destruct (getitem displacements 0) as [first|e]; [|discriminate].
  rewrite iterator_range in E.
  destruct (@for_each_run_through C delta_t n_resamples confidence_interval
              max_resamples (mscd_data displacements (Some ks))
              (count_mscd (Z.of_nat (n_obs_of first)))
              (mscd_record_of (List.length ks)) _
              (mscd_interval_visit ks (Z.of_nat (n_obs_of first)))
              _ _ _ _ _ E)
    as (ss & Hrun & Hout).
  exists first, ss. auto.
Qed.


End RecordsAndCounts.

(** ** The records and the count, on whole runs *)

Section ClaimsOnWholeRuns.

Context {C : Collaborators}.


Lemma msd_calls_specified
    (delta_t : list V) (displacements : list ndarray3)
    (n_resamples samples_freq : Z) (confidence_interval : option (list Q))
    (max_resamples bootstrap_multiplier : Z) (first : ndarray3)
    (out : arrays) (i : nat) (w : world) :
  exists calls,
    resample_calls
      (snd (msd_interval delta_t displacements n_resamples samples_freq
              confidence_interval max_resamples bootstrap_multiplier
              (Z.of_nat (n_obs_of first)) out i w))
    = resample_calls w ++ calls /\
    Forall (fun c =>
              exists disp,
                In disp displacements /\
                fst c = d_squared_flat disp /\
                independent_sample_count (Z.of_nat (n_obs_of first))
                  (Z.of_nat (n_obs_of disp))
                  (Some (Z.of_nat (n_atoms_of disp)))
                  samples_freq bootstrap_multiplier
                = Return (snd c) /\
                1 < snd c) calls.
Proof.
  destruct (@msd_interval_world C delta_t displacements n_resamples
              samples_freq confidence_interval max_resamples
              bootstrap_multiplier (Z.of_nat (n_obs_of first)) out i w)
    as [E|(disp & n & Hd & Hn & Hlt & E)]; rewrite E.
  - exists []. rewrite app_nil_r. auto.
  - destruct (resampled_distribution_world n_resamples confidence_interval
                max_resamples i (d_squared_flat disp) n w)
      as (k & ws & _ & Hc & _).
    exists (repeat (d_squared_flat disp, n) k). split; [exact Hc|].
    apply Forall_forall. intros c Hc'. apply repeat_spec in Hc'. subst c.
    simpl. exists disp. split; [eapply getitem_In; exact Hd|].
    split; [reflexivity|]. split; [|exact Hlt].
    rewrite <- Hn. symmetry. apply msd_count_specified. exact Hd.
Qed.

Lemma mscd_calls_specified
    (delta_t : list V) (displacements : list ndarray3)
    (indices : option (list Z))
    (n_resamples samples_freq : Z) (confidence_interval : option (list Q))
    (max_resamples bootstrap_multiplier : Z) (first : ndarray3)
    (out : arrays) (i : nat) (w : world) :
  exists calls,
    resample_calls
      (snd (mscd_interval delta_t displacements indices n_resamples
              samples_freq confidence_interval max_resamples
              bootstrap_multiplier (Z.of_nat (n_obs_of first)) out i w))
    = resample_calls w ++ calls /\
    Forall (fun c =>
              exists disp,
                In disp displacements /\
                sq_chg_disp_flat disp indices = Return (fst c) /\
                independent_sample_count (Z.of_nat (n_obs_of first))
                  (Z.of_nat (n_obs_of disp)) None
                  samples_freq bootstrap_multiplier
                = Return (snd c) /\
                1 < snd c) calls.
Proof.
  destruct (@mscd_interval_world C delta_t displacements indices n_resamples
              samples_freq confidence_interval max_resamples
              bootstrap_multiplier (Z.of_nat (n_obs_of first)) out i w)
    as [E|(disp & data & n & Hd & Hdata & Hn & Hlt & E)]; rewrite E.
  - exists []. rewrite app_nil_r. auto.
  - destruct (resampled_distribution_world n_resamples confidence_interval
                max_resamples i data n w)
      as (k & ws & _ & Hc & _).
    exists (repeat (data, n) k). split; [exact Hc|].
    apply Forall_forall. intros c Hc'. apply repeat_spec in Hc'. subst c.
    simpl. exists disp. split; [eapply getitem_In; exact Hd|].
    split; [exact Hdata|]. split; [|exact Hlt].
    rewrite <- Hn. symmetry. apply mscd_count_specified. exact Hd.
Qed.

(** What a run has gone through, said with the count of the
    specification. *)
Lemma run_through_specified
    (delta_t : list V) (displacements : list ndarray3)
    (n_resamples : Z) (confidence_interval : option (list Q))
    (max_resamples : Z)
    (data : nat -> outcome (list V)) (count : nat -> outcome Z)
    (specified : ndarray3 -> outcome Z) (flat : ndarray3 -> outcome (list V))
    (w : world) (ss : list survivor) (w' : world) :
  (forall i disp, getitem displacements i = Return disp ->
     count i = specified disp /\ data i = flat disp) ->
  run_through delta_t n_resamples confidence_interval max_resamples
    data count (seq 0 (List.length displacements)) w ss w' ->
  (forall i disp,
     getitem displacements i = Return disp ->
     exists n,
       specified disp = Return n /\
       (1 < n <-> In i (map (@interval C) ss)) /\
       (forall s, In s ss -> interval s = i ->
          flat disp = Return (resampled s) /\ n_samples_of s = n)) /\
  resample_calls w' = resample_calls w ++ draws_of ss /\
  Forall (fun s => (Z.to_nat n_resamples <= Z.to_nat (size (distro s)))%nat)
    ss.
Proof.
  intros Hspec Hrun. split; [|split].
  - intros i disp Hd. destruct (Hspec i disp Hd) as [Hc Hx].
    assert (Hi : In i (seq 0 (List.length displacements))).
    { apply in_seq. pose proof (getitem_length _ _ Hd). lia. }
    destruct (run_through_counts Hrun i Hi) as (xs & n & Hxs & Hn).
    exists n. split; [congruence|]. split.
    + rewrite (run_through_survivors Hrun), filter_In. unfold survives.
      rewrite Hn, Z.ltb_lt. tauto.
    + intros s Hs <-.
      pose proof (run_through_each Hrun) as Hall.
      rewrite Forall_forall in Hall.
      destruct (Hall s Hs) as (Hxs' & Hn' & _).
      split; congruence.
  - exact (proj1 (run_through_world Hrun)).
  - eapply Forall_impl; [|exact (run_through_each Hrun)].
    intros s (_ & _ & _ & _ & _ & _ & _ & Hsz). exact Hsz.
Qed.

(** C5.  The count the resamplers use is the one of the specification,
    [max_observations] being the number of observations of
    [displacements[0]], with the number of atoms of the interval as factor
    in [msd_bootstrap] and without factor in [mscd_bootstrap].  Whatever the
    outcome of a run, every call of [resample] it makes asks for that count
    of values of the flattened array of an interval, and the count is above
    one.  When the run returns, the count of every interval is computed, the
    intervals recorded are the ones whose count is above one, and the calls
    made are, for each of them in turn, as many calls as the distribution
    has samples, [n_resamples] at least, each with the count of the
    interval. *)
Theorem independent_sample_count_is_used
    (delta_t : list V) (displacements : list ndarray3) (ks : list Z)
    (n_resamples samples_freq : Z) (confidence_interval : option (list Q))
    (max_resamples bootstrap_multiplier : Z) (progress : bool) (w : world) :
  (exists calls,
     resample_calls
       (snd (msd_bootstrap delta_t displacements n_resamples samples_freq
               confidence_interval max_resamples bootstrap_multiplier
               progress w))
     = resample_calls w ++ calls /\
     Forall (fun c =>
               exists first disp,
                 getitem displacements 0 = Return first /\
                 In disp displacements /\
                 fst c = d_squared_flat disp /\
                 independent_sample_count (Z.of_nat (n_obs_of first))
                   (Z.of_nat (n_obs_of disp))
                   (Some (Z.of_nat (n_atoms_of disp)))
                   samples_freq bootstrap_multiplier
                 = Return (snd c) /\
                 1 < snd c) calls) /\
  (exists calls,
     resample_calls
       (snd (mscd_bootstrap delta_t displacements (Some ks) n_resamples
               samples_freq confidence_interval max_resamples
               bootstrap_multiplier progress w))
     = resample_calls w ++ calls /\
     Forall (fun c =>
               exists first disp,
                 getitem displacements 0 = Return first /\
                 In disp displacements /\
                 sq_chg_disp_flat disp (Some ks) = Return (fst c) /\
                 independent_sample_count (Z.of_nat (n_obs_of first))
                   (Z.of_nat (n_obs_of disp)) None
                   samples_freq bootstrap_multiplier
                 = Return (snd c) /\
                 1 < snd c) calls) /\
  (forall out w',
     msd_bootstrap delta_t displacements n_resamples samples_freq
       confidence_interval max_resamples bootstrap_multiplier progress w
     = (Return out, w') ->
     exists first ss,
       getitem displacements 0 = Return first /\
       run_through delta_t n_resamples confidence_interval max_resamples
         (msd_data displacements)
         (msd_count displacements samples_freq bootstrap_multiplier
            (Z.of_nat (n_obs_of first)))
         (seq 0 (List.length displacements)) w ss w' /\
       (forall i disp,
          getitem displacements i = Return disp ->
          exists n,
            independent_sample_count (Z.of_nat (n_obs_of first))
              (Z.of_nat (n_obs_of disp))
              (Some (Z.of_nat (n_atoms_of disp)))
              samples_freq bootstrap_multiplier
            = Return n /\
            (1 < n <-> In i (map (@interval C) ss)) /\
            (forall s, In s ss -> interval s = i ->
               resampled s = d_squared_flat disp /\
               n_samples_of s = n)) /\
       resample_calls w' = resample_calls w ++ draws_of ss /\
       Forall (fun s =>
                 (Z.to_nat n_resamples <= Z.to_nat (size (distro s)))%nat)
         ss) /\
  (forall out w',
     mscd_bootstrap delta_t displacements (Some ks) n_resamples samples_freq
       confidence_interval max_resamples bootstrap_multiplier progress w
     = (Return out, w') ->
     exists first ss,
       getitem displacements 0 = Return first /\
       run_through delta_t n_resamples confidence_interval max_resamples
         (mscd_data displacements (Some ks))
         (mscd_count displacements samples_freq bootstrap_multiplier
            (Z.of_nat (n_obs_of first)))
         (seq 0 (List.length displacements)) w ss w' /\
       (forall i disp,
          getitem displacements i = Return disp ->
          exists n,
            independent_sample_count (Z.of_nat (n_obs_of first))
              (Z.of_nat (n_obs_of disp)) None
              samples_freq bootstrap_multiplier
            = Return n /\
            (1 < n <-> In i (map (@interval C) ss)) /\
            (forall s, In s ss -> interval s = i ->
               sq_chg_disp_flat disp (Some ks) = Return (resampled s) /\
               n_samples_of s = n)) /\
       resample_calls w' = resample_calls w ++ draws_of ss /\
       Forall (fun s =>
                 (Z.to_nat n_resamples <= Z.to_nat (size (distro s)))%nat)
         ss).
Proof.
  split; [|split; [|split]].
  - unfold msd_bootstrap, bind at 1, lift.
    destruct (getitem displacements 0) as [first|e] eqn:Hfirst;
      [|exists []; simpl; rewrite app_nil_r; auto].
    destruct (@for_each_calls C
                (fun c =>
                   exists disp,
                     In disp displacements /\
                     fst c = d_squared_flat disp /\
                     independent_sample_count (Z.of_nat (n_obs_of first))
                       (Z.of_nat (n_obs_of disp))
                       (Some (Z.of_nat (n_atoms_of disp)))
                       samples_freq bootstrap_multiplier
                     = Return (snd c) /\
                     1 < snd c)
                (msd_interval delta_t displacements n_resamples samples_freq
                   confidence_interval max_resamples bootstrap_multiplier
                   (Z.of_nat (n_obs_of first)))
                (iterator displacements progress)
                (fun out i w0 _ =>
                   msd_calls_specified delta_t displacements n_resamples
                     samples_freq confidence_interval max_resamples
                     bootstrap_multiplier first out i w0)
                ([], [], []) w) as (calls & Hc & Hall).
    exists calls. split; [exact Hc|].
    eapply Forall_impl; [|exact Hall].
    intros c (disp & H). exists first, disp. tauto.
  - unfold mscd_bootstrap, bind at 1, lift.
    destruct (getitem displacements 0) as [first|e] eqn:Hfirst;
      [|exists []; simpl; rewrite app_nil_r; auto].
    destruct (@for_each_calls C
                (fun c =>
                   exists disp,
                     In disp displacements /\
                     sq_chg_disp_flat disp (Some ks) = Return (fst c) /\
                     independent_sample_count (Z.of_nat (n_obs_of first))
                       (Z.of_nat (n_obs_of disp)) None
                       samples_freq bootstrap_multiplier
                     = Return (snd c) /\
                     1 < snd c)
                (mscd_interval delta_t displacements (Some ks) n_resamples
                   samples_freq confidence_interval max_resamples
                   bootstrap_multiplier (Z.of_nat (n_obs_of first)))
                (iterator displacements progress)
                (fun out i w0 _ =>
                   mscd_calls_specified delta_t displacements (Some ks)
                     n_resamples samples_freq confidence_interval
                     max_resamples bootstrap_multiplier first out i w0)
                ([], [], []) w) as (calls & Hc & Hall).
    exists calls. split; [exact Hc|].
    eapply Forall_impl; [|exact Hall].
    intros c (disp & H). exists first, disp. tauto.
  - intros out w' E.
    destruct (msd_bootstrap_run_through _ _ _ _ _ _ _ _ _ E)
      as (first & ss & Hfirst & Hrun & _).
    exists first, ss. split; [exact Hfirst|]. split; [exact Hrun|].
    destruct (@run_through_specified delta_t displacements n_resamples
                confidence_interval max_resamples (msd_data displacements)
                (msd_count displacements samples_freq bootstrap_multiplier
                   (Z.of_nat (n_obs_of first)))
                (fun disp =>
                   independent_sample_count (Z.of_nat (n_obs_of first))
                     (Z.of_nat (n_obs_of disp))
                     (Some (Z.of_nat (n_atoms_of disp)))
                     samples_freq bootstrap_multiplier)
                (fun disp => Return (d_squared_flat disp)) w ss w')
      as (Heach & Hcalls & Hsizes); [|exact Hrun|].
    { intros i disp Hd. split.
      - apply msd_count_specified. exact Hd.
      - unfold msd_data. rewrite Hd. reflexivity. }
    split; [|split; [exact Hcalls|exact Hsizes]].
    intros i disp Hd. destruct (Heach i disp Hd) as (n & Hn & Hiff & Hs).
    exists n. split; [exact Hn|]. split; [exact Hiff|].
    intros s Hin Hi. destruct (Hs s Hin Hi) as [Hx Hc].
    split; [congruence|exact Hc].
  - intros out w' E.
    destruct (mscd_bootstrap_run_through _ _ _ _ _ _ _ _ _ _ E)
      as (first & ss & Hfirst & Hrun & _).
    exists first, ss. split; [exact Hfirst|]. split; [exact Hrun|].
    apply (@run_through_specified delta_t displacements n_resamples
             confidence_interval max_resamples
             (mscd_data displacements (Some ks))
             (mscd_count displacements samples_freq bootstrap_multiplier
                (Z.of_nat (n_obs_of first)))
             (fun disp =>
                independent_sample_count (Z.of_nat (n_obs_of first))
                  (Z.of_nat (n_obs_of disp)) None
                  samples_freq bootstrap_multiplier)
             (fun disp => sq_chg_disp_flat disp (Some ks)) w ss w');
      [|exact Hrun].
    intros i disp Hd. split.
    + apply mscd_count_specified. exact Hd.
    + unfold mscd_data. rewrite Hd. reflexivity.
Qed.

End ClaimsOnWholeRuns.


Lemma independent_sample_count_is_used_witness :
  Scenario.msd_run true = (Return Scenario.msd_out, Scenario.msd_world) /\
  independent_sample_count 3 3 (Some 4) 3 1 = Return 4 /\
  independent_sample_count 3 2 (Some 4) 3 1 = Return 2 /\
  independent_sample_count 3 1 (Some 4) 3 1 = Return 1 /\
  exists ss,
    map (@interval (Scenario.collaborators true)) ss = [0; 1]%nat /\
    map (@n_samples_of _) ss = [4; 2] /\
    resample_calls Scenario.msd_world
    = resample_calls (Scenario.start true) ++ draws_of ss.
Proof.
  split; [exact msd_run_returns|].
  split; [reflexivity|]. split; [reflexivity|]. split; [reflexivity|].
  destruct (proj1 (proj2 (proj2 (@independent_sample_count_is_used
                     (Scenario.collaborators true) Scenario.delta_t
                     (Scenario.displacements true) [] 3 3 None 5 1 true
                     (Scenario.start true))))
              Scenario.msd_out Scenario.msd_world msd_run_returns)
    as (first & ss & Hfirst & Hrun & Heach & Hcalls & _).
  exists ss.
  assert (Hf : Return (Scenario.first_interval true) = Return first)
    by (rewrite <- Hfirst; reflexivity).
  injection Hf as <-.
  assert (Hix : map (@interval (Scenario.collaborators true)) ss
                = [0; 1]%nat).
  { rewrite (run_through_survivors Hrun). reflexivity. }
  split; [exact Hix|]. split; [|exact Hcalls].
  destruct ss as [|s0 [|s1 [|s2 ss]]]; try discriminate Hix.
  injection Hix as H0 H1.
  destruct (Heach 0%nat _ eq_refl) as (n0 & Hn0 & _ & Hs0).
  destruct (Heach 1%nat _ eq_refl) as (n1 & Hn1 & _ & Hs1).
  destruct (Hs0 s0 (or_introl eq_refl) H0) as [_ Hc0].
  destruct (Hs1 s1 (or_intror (or_introl eq_refl)) H1) as [_ Hc1].
  assert (E0 : Return n0 = Return 4) by (rewrite <- Hn0; reflexivity).
  assert (E1 : Return n1 = Return 2) by (rewrite <- Hn1; reflexivity).
  injection E0 as ->. injection E1 as ->.
  cbn [map]. rewrite Hc0, Hc1. reflexivity.
Defined.

(** C3 fails on the code.  With [n_resamples=1] and [max_resamples=10] the
    first batch of an interval has one sample, which is never found normal,
    and is below [max_resamples - n_resamples]: one batch of 100 is added,
    and the run of [msd_bootstrap] returns having drawn 101 times for the
    interval, whatever the normality tests answer. *)
Theorem max_resamples_is_exceeded (verdict : bool) :
  (exists d w',
     Scenario.small_budget_distribution verdict = (Return d, w') /\
     size d = 101) /\
  returns (fst (Scenario.small_budget_run verdict)) /\
  List.length (resample_calls (snd (Scenario.small_budget_run verdict)))
  = 101%nat.
Proof.
  assert (H : forall b,
            match Scenario.small_budget_distribution b with
            | (Return d, w') => size d = 101
            | (Raise _, _) => False
            end) by (intros [|]; vm_compute; reflexivity).
  assert (Hrun : forall b,
            match fst (Scenario.small_budget_run b) with
            | Return _ => True
            | Raise _ => False
            end) by (intros [|]; vm_compute; exact I).
  split; [|split].
  - specialize (H verdict).
    destruct (Scenario.small_budget_distribution verdict) as [[d|e] w'];
      [|contradiction].
    exists d, w'. auto.
  - specialize (Hrun verdict).
    destruct (fst (Scenario.small_budget_run verdict)) as [out|e];
      [|contradiction].
    exists out. reflexivity.
  - destruct verdict; vm_compute; reflexivity.
Qed.
